(** * PrimeCell rule engine: calculators, validators and action selection

    A shallow embedding of the deterministic decision code of the PrimeCell
    API (TypeScript) and the properties checked against it.

    Numbers.  A TypeScript [number] is modelled as an exact rational or one
    of the three non-finite values [Infinity], [-Infinity] and [NaN]; binary
    rounding error and the sign of zero are not modelled.  The arithmetic
    of the non-finite values follows ECMAScript (for instance [x / 0] is
    infinite or [NaN], every comparison with [NaN] is false).

    Where a test of the code sits exactly on its threshold for the decimal
    inputs (a span of 0.3 kg, a difference of 0.2 kg), the binary rounding
    of the subtraction decides in the code; the properties below say so
    where it matters and state nothing on such a boundary.  Module
    [Binary64] has the stall detection on binary64 numbers for the
    examples at the boundary. *)

From Stdlib Require Import QArith Qround Qabs ZArith List String Bool Lia Lqa.
From Stdlib Require Import Permutation Sorted.
From Stdlib Require Floats.
Import ListNotations.

Set Implicit Arguments.

(* ================================================================== *)
(** * ECMAScript numbers and the [Math] functions the code uses *)
(* ================================================================== *)

Module JS.

Inductive number : Type :=
| Fin (q : Q)
| PosInf
| NegInf
| NaN.

Coercion Fin : Q >-> number.

Definition Qltb (x y : Q) : bool := negb (Qle_bool y x).

(** Sign of a rational, as a comparison with zero. *)
Definition Qsign (q : Q) : comparison := (0 ?= q)%Q.

Definition neg (x : number) : number :=
  match x with
  | Fin q => Fin (- q)
  | PosInf => NegInf
  | NegInf => PosInf
  | NaN => NaN
  end.

Definition add (x y : number) : number :=
  match x, y with
  | NaN, _ | _, NaN => NaN
  | Fin a, Fin b => Fin (a + b)
  | PosInf, NegInf | NegInf, PosInf => NaN
  | PosInf, _ | _, PosInf => PosInf
  | NegInf, _ | _, NegInf => NegInf
  end.

Definition sub (x y : number) : number := add x (neg y).

(** [Infinity * q] (for [positive]) or [-Infinity * q] for a finite
    factor [q]; [Infinity * 0] is [NaN]. *)
Definition scale_inf (positive : bool) (q : Q) : number :=
  match Qsign q with
  | Lt => if positive then PosInf else NegInf
  | Gt => if positive then NegInf else PosInf
  | Eq => NaN
  end.

Definition mul (x y : number) : number :=
  match x, y with
  | NaN, _ | _, NaN => NaN
  | Fin a, Fin b => Fin (a * b)
  | PosInf, Fin q | Fin q, PosInf => scale_inf true q
  | NegInf, Fin q | Fin q, NegInf => scale_inf false q
  | PosInf, PosInf | NegInf, NegInf => PosInf
  | PosInf, NegInf | NegInf, PosInf => NegInf
  end.

(** Division.  A finite non-zero number divided by zero is an infinity of
    the sign of the numerator, [0 / 0] is [NaN]. *)
Definition div (x y : number) : number :=
  match x, y with
  | NaN, _ | _, NaN => NaN
  | Fin a, Fin b =>
      if Qeq_bool b 0 then
        match Qsign a with
        | Lt => PosInf
        | Gt => NegInf
        | Eq => NaN
        end
      else Fin (a / b)
  | Fin _, (PosInf | NegInf) => Fin 0
  | PosInf, Fin b => if Qltb b 0 then NegInf else PosInf
  | NegInf, Fin b => if Qltb b 0 then PosInf else NegInf
  | (PosInf | NegInf), (PosInf | NegInf) => NaN
  end.

(** [x < y] and [x <= y]; false as soon as one side is [NaN]. *)
Definition ltb (x y : number) : bool :=
  match x, y with
  | NaN, _ | _, NaN => false
  | Fin a, Fin b => Qltb a b
  | NegInf, NegInf | PosInf, _ => false
  | NegInf, _ => true
  | Fin _, PosInf => true
  | Fin _, NegInf => false
  end.

Definition leb (x y : number) : bool :=
  match x, y with
  | NaN, _ | _, NaN => false
  | Fin a, Fin b => Qle_bool a b
  | NegInf, _ | _, PosInf => true
  | PosInf, _ | _, NegInf => false
  end.

Definition gtb (x y : number) : bool := ltb y x.
Definition geb (x y : number) : bool := leb y x.

(** Truthiness of a number: [0] and [NaN] are falsy. *)
Definition truthy (x : number) : bool :=
  match x with
  | Fin q => negb (Qeq_bool q 0)
  | PosInf | NegInf => true
  | NaN => false
  end.

(** [x || d] on numbers. *)
Definition or_else (x d : number) : number := if truthy x then x else d.

(** [Math.round]: the nearest integer, ties towards [+Infinity]. *)
Definition Math_round (x : number) : number :=
  match x with
  | Fin q => Fin (inject_Z (Qfloor (q + (1 # 2))))
  | _ => x
  end.

Definition Math_abs (x : number) : number :=
  match x with
  | Fin q => Fin (Qabs q)
  | PosInf | NegInf => PosInf
  | NaN => NaN
  end.

(** Two-argument [Math.min] and [Math.max]; [NaN] is contagious. *)
Definition Math_min (x y : number) : number :=
  match x, y with
  | NaN, _ | _, NaN => NaN
  | _, _ => if leb x y then x else y
  end.

Definition Math_max (x y : number) : number :=
  match x, y with
  | NaN, _ | _, NaN => NaN
  | _, _ => if leb x y then y else x
  end.

(** [Math.max(...xs)] and [Math.min(...xs)]: with no argument they are
    [-Infinity] and [Infinity]. *)
Definition Math_max_list (xs : list number) : number :=
  fold_left Math_max xs NegInf.

Definition Math_min_list (xs : list number) : number :=
  fold_left Math_min xs PosInf.

Definition Math_sign (x : number) : number :=
  match x with
  | Fin q =>
      match Qsign q with
      | Lt => Fin 1
      | Gt => Fin (-1)
      | Eq => Fin 0
      end
  | PosInf => Fin 1
  | NegInf => Fin (-1)
  | NaN => NaN
  end.

(** [parseFloat(x.toFixed(2))]: the magnitude rounded to two decimals, a
    tie taking the larger candidate; non-finite values pass through. *)
Definition toFixed2 (x : number) : number :=
  match x with
  | Fin q =>
      let n := inject_Z (Qfloor (Qabs q * 100 + (1 # 2))) / 100 in
      Fin (if Qltb q 0 then - n else n)
  | _ => x
  end.

End JS.

Import JS.

Declare Scope js_scope.
Delimit Scope js_scope with js.
Bind Scope js_scope with number.
Notation "x + y" := (add x y) : js_scope.
Notation "x - y" := (sub x y) : js_scope.
Notation "x * y" := (mul x y) : js_scope.
Notation "x / y" := (div x y) : js_scope.
Notation "- x" := (neg x) : js_scope.
Notation "x <? y" := (ltb x y) (at level 70, no associativity) : js_scope.
Notation "x <=? y" := (leb x y) (at level 70, no associativity) : js_scope.
Notation "x >? y" := (gtb x y) (at level 70, no associativity) : js_scope.
Notation "x >=? y" := (geb x y) (at level 70, no associativity) : js_scope.

Open Scope Q_scope.
Open Scope js_scope.

(* ================================================================== *)
(** * Shared vocabulary *)
(* ================================================================== *)

(** ['weight_loss' | 'maintenance' | 'muscle_gain'] *)
Inductive Goal : Type := weight_loss | maintenance | muscle_gain.

(** ['male' | 'female'] *)
Inductive Gender : Type := male | female.

(** ['sedentary' | 'light' | 'moderate' | 'active' | 'very_active'] *)
Inductive ActivityLevel : Type :=
  sedentary | light | moderate | active | very_active.

(** A [{ min, max }] pair of the ratio tables. *)
Record Range : Type := mkRange { min : number; max : number }.

(** A function that may [throw new Error(msg)]. *)
Inductive Result (A : Type) : Type :=
| Ok (a : A)
| Throw (msg : string).
Arguments Ok {A} a.
Arguments Throw {A} msg.

(** [xs.length] as a number. *)
Definition Array_length {A : Type} (xs : list A) : number :=
  Fin (inject_Z (Z.of_nat (List.length xs))).

(** [xs.sort(cmp)]: the stable ordering in which [a] stands before [b]
    when [cmp(a, b) < 0]; equal elements keep their order. *)
Fixpoint Array_insert {A : Type} (cmp : A -> A -> number) (x : A)
    (sorted : list A) : list A :=
  match sorted with
  | [] => [x]
  | y :: rest =>
      if cmp y x <? 0 then y :: Array_insert cmp x rest
      else x :: y :: rest
  end.

Fixpoint Array_sort {A : Type} (cmp : A -> A -> number) (xs : list A)
    : list A :=
  match xs with
  | [] => []
  | x :: rest => Array_insert cmp x (Array_sort cmp rest)
  end.

(** [violations.push(v)] when [cond] holds. *)
Definition push_if {A : Type} (cond : bool) (v : A) (xs : list A) : list A :=
  if cond then xs ++ [v] else xs.

Definition is_nil {A : Type} (xs : list A) : bool :=
  match xs with
  | [] => true
  | _ :: _ => false
  end.

(** [goal === 'weight_loss'] and the like. *)
Definition Goal_eqb (g h : Goal) : bool :=
  match g, h with
  | weight_loss, weight_loss
  | maintenance, maintenance
  | muscle_gain, muscle_gain => true
  | _, _ => false
  end.

(* ================================================================== *)
(** * calculators/tdee.calculator.ts *)
(* ================================================================== *)

Module TdeeCalculator.

Record TDEEInput : Type := mkTDEEInput {
  weight : number;  (* kg *)
  height : number;  (* cm *)
  age : number;
  gender : Gender;
  activityLevel : ActivityLevel
}.

Record TDEEResult : Type := mkTDEEResult {
  bmr : number;
  tdee : number;
  activityMultiplier : number
}.

Definition ACTIVITY_MULTIPLIERS (level : ActivityLevel) : number :=
  match level with
  | sedentary => 1.2
  | light => 1.375
  | moderate => 1.55
  | active => 1.725
  | very_active => 1.9
  end.

(** Mifflin-St Jeor equation, rounded. *)
Definition calculateBMR (input : TDEEInput) : number :=
  let bmr :=
    10 * input.(weight) + 6.25 * input.(height) - 5 * input.(age)
    + (match input.(gender) with male => 5 | female => -161 end) in
  Math_round bmr.

Definition calculateTDEE (input : TDEEInput) : TDEEResult :=
  let bmr := calculateBMR input in
  let activityMultiplier :=
    or_else (ACTIVITY_MULTIPLIERS input.(activityLevel)) 1.2 in
  let tdee := Math_round (bmr * activityMultiplier) in
  {| bmr := bmr; tdee := tdee; activityMultiplier := activityMultiplier |}.

End TdeeCalculator.

(* ================================================================== *)
(** * calculators/macro.calculator.ts *)
(* ================================================================== *)

Module MacroCalculator.

Record MacroInput : Type := mkMacroInput {
  weight : number;  (* kg *)
  targetCalories : number;
  goal : Goal;
  activityLevel : ActivityLevel
}.

Record MacroResult : Type := mkMacroResult {
  protein : number;  (* grams *)
  fat : number;      (* grams *)
  carbs : number;    (* grams *)
  proteinCalories : number;
  fatCalories : number;
  carbsCalories : number
}.

(** Protein targets, grams per kg of body weight. *)
Definition PROTEIN_RATIOS (g : Goal) : Range :=
  match g with
  | weight_loss => {| min := 2.0; max := 2.4 |}
  | maintenance => {| min := 1.8; max := 2.2 |}
  | muscle_gain => {| min := 1.6; max := 2.2 |}
  end.

(** Fat targets, grams per kg of body weight. *)
Definition FAT_RATIOS (g : Goal) : Range :=
  match g with
  | weight_loss => {| min := 0.8; max := 1.0 |}
  | maintenance => {| min := 0.8; max := 1.2 |}
  | muscle_gain => {| min := 0.8; max := 1.0 |}
  end.

(** Every goal has an entry in the two tables, so the
    [|| RATIOS.maintenance] fallback of the source is never taken. *)
Definition calculateProtein (weight : number) (goal : Goal) : number :=
  let ratio := PROTEIN_RATIOS goal in
  let targetRatio :=
    match goal with
    | weight_loss => ratio.(max)
    | _ => (ratio.(min) + ratio.(max)) / 2
    end in
  Math_round (weight * targetRatio).

Definition calculateFat (weight : number) (goal : Goal) : number :=
  let ratio := FAT_RATIOS goal in
  let targetRatio := (ratio.(min) + ratio.(max)) / 2 in
  Math_round (weight * targetRatio).

Definition calculateCarbs (targetCalories proteinGrams fatGrams : number)
    : number :=
  let proteinCalories := proteinGrams * 4 in
  let fatCalories := fatGrams * 9 in
  let remainingCalories := targetCalories - proteinCalories - fatCalories in
  let carbsGrams := Math_max 0 (Math_round (remainingCalories / 4)) in
  carbsGrams.

Definition calculateMacros (input : MacroInput) : MacroResult :=
  let weight := input.(weight) in
  let targetCalories := input.(targetCalories) in
  let goal := input.(goal) in
  let protein := calculateProtein weight goal in
  let fat := calculateFat weight goal in
  let carbs := calculateCarbs targetCalories protein fat in
  let proteinCalories := protein * 4 in
  let fatCalories := fat * 9 in
  let carbsCalories := carbs * 4 in
  {| protein := protein; fat := fat; carbs := carbs;
     proteinCalories := proteinCalories; fatCalories := fatCalories;
     carbsCalories := carbsCalories |}.

(** Macros add up to the target calories within 5 percent. *)
Definition validateMacros (result : MacroResult) (targetCalories : number)
    : bool :=
  let totalCalories :=
    result.(proteinCalories) + result.(fatCalories)
    + result.(carbsCalories) in
  let difference := Math_abs (totalCalories - targetCalories) in
  let tolerance := targetCalories * 0.05 in
  difference <=? tolerance.

End MacroCalculator.

(* ================================================================== *)
(** * calculators/energy-balance.calculator.ts *)
(* ================================================================== *)

Module EnergyBalance.

Record EnergyBalanceInput : Type := mkEnergyBalanceInput {
  tdee : number;
  goal : Goal;
  weight : number  (* kg *)
}.

Record EnergyBalanceResult : Type := mkEnergyBalanceResult {
  targetCalories : number;
  deficit : number;  (* negative for deficit, positive for surplus *)
  deficitPercentage : number;
  weeklyWeightChangeKg : number
}.

(** Deficit and surplus fractions per goal. *)
Definition ENERGY_ADJUSTMENTS (g : Goal) : Range :=
  match g with
  | weight_loss => {| min := -0.25; max := -0.20 |}
  | maintenance => {| min := 0; max := 0 |}
  | muscle_gain => {| min := 0.08; max := 0.12 |}
  end.

(** [MAX_ADJUSTMENTS.deficit] and [MAX_ADJUSTMENTS.surplus], kcal per day. *)
Definition MAX_ADJUSTMENTS_deficit : number := 500.
Definition MAX_ADJUSTMENTS_surplus : number := 300.

Definition calculateTargetCalories (input : EnergyBalanceInput)
    : EnergyBalanceResult :=
  let tdee := input.(tdee) in
  let goal := input.(goal) in
  let adjustment := ENERGY_ADJUSTMENTS goal in
  let deficitPercentage :=
    match goal with
    | weight_loss => adjustment.(max)
    | muscle_gain => adjustment.(min)
    | maintenance => 0
    end in
  let deficit := Math_round (tdee * deficitPercentage) in
  let deficit :=
    match goal with
    | weight_loss => Math_max deficit (- MAX_ADJUSTMENTS_deficit)
    | muscle_gain => Math_min deficit MAX_ADJUSTMENTS_surplus
    | maintenance => deficit
    end in
  let targetCalories := tdee + deficit in
  let weeklyDeficit := deficit * 7 in
  let weeklyWeightChangeKg := toFixed2 (weeklyDeficit / 7700) in
  {| targetCalories := Math_round targetCalories;
     deficit := deficit;
     deficitPercentage := deficitPercentage;
     weeklyWeightChangeKg := weeklyWeightChangeKg |}.

(** Adjust calories after a check-in. *)
Definition adjustCalories (currentCalories actualWeightChange
    expectedWeightChange : number) (goal : Goal) : number :=
  let difference := actualWeightChange - expectedWeightChange in
  if Math_abs difference <? 0.2 then currentCalories
  else
    let calorieAdjustment := Math_round (difference * 1100) in
    let limitedAdjustment :=
      Math_max (-200) (Math_min 200 calorieAdjustment) in
    currentCalories + limitedAdjustment.

End EnergyBalance.

(* ================================================================== *)
(** * validators/adjustment.validator.ts *)
(* ================================================================== *)

Module AdjustmentValidator.

Record ProgressData : Type := mkProgressData {
  currentWeight : number;
  previousWeight : number;
  weeksSinceLastCheckin : number;
  goal : Goal
}.

(** ['too_fast' | 'too_slow' | 'stalled' | 'on_track' | 'reversed'] *)
Inductive Pattern : Type :=
  too_fast | too_slow | stalled | on_track | reversed.

(** The [reason] texts.  A constructor stands for one message of the
    source and carries the number that the message interpolates. *)
Inductive Reason : Type :=
| ProgressOnTrack                      (* Progress is on track. No adjustment needed. *)
| LossTooRapid (kgPerWeek : number)    (* Weight loss is too rapid (..kg/week). ... *)
| LossTooSlow (kgPerWeek : number)     (* Weight loss is slower than expected (..kg/week). ... *)
| IncreasedDuringLoss                  (* Weight increased during weight loss phase. ... *)
| ProgressAcceptable                   (* Progress is acceptable. *)
| GainTooRapid (kgPerWeek : number)    (* Weight gain is too rapid (..kg/week). ... *)
| GainTooSlow (kgPerWeek : number)     (* Weight gain is slower than expected (..kg/week). ... *)
| DecreasedDuringGain                  (* Weight decreased during muscle gain phase. ... *)
| WeightStable                         (* Weight is stable. Maintaining current calories. *)
| UnintentionalLoss (kgPerWeek : number)  (* Unintentional weight loss (..kg/week). ... *)
| UnintentionalGain (kgPerWeek : number). (* Unintentional weight gain (..kg/week). ... *)

Record AdjustmentRecommendation : Type := mkAdjustmentRecommendation {
  shouldAdjust : bool;
  reason : Reason;
  recommendedCalorieChange : number;
  pattern : Pattern
}.

Definition analyzeWeightLossProgress (actualChange expectedChange : number)
    : AdjustmentRecommendation :=
  if actualChange <? expectedChange - 0.3 then
    (* Losing weight too fast *)
    let calorieIncrease :=
      Math_min 200 (Math_abs ((actualChange - expectedChange) * 1100)) in
    {| shouldAdjust := true;
       reason := LossTooRapid (Math_abs actualChange);
       recommendedCalorieChange := Math_round calorieIncrease;
       pattern := too_fast |}
  else if actualChange >? expectedChange + 0.3 then
    (* Losing weight too slow or not losing *)
    let calorieDecrease :=
      Math_min 200 (Math_abs ((actualChange - expectedChange) * 1100)) in
    {| shouldAdjust := true;
       reason := LossTooSlow (Math_abs actualChange);
       recommendedCalorieChange := - Math_round calorieDecrease;
       pattern := too_slow |}
  else if actualChange >=? 0 then
    (* Weight increased during weight loss *)
    {| shouldAdjust := true;
       reason := IncreasedDuringLoss;
       recommendedCalorieChange := -150;
       pattern := reversed |}
  else
    {| shouldAdjust := false;
       reason := ProgressAcceptable;
       recommendedCalorieChange := 0;
       pattern := on_track |}.

Definition analyzeMuscleGainProgress (actualChange expectedChange : number)
    : AdjustmentRecommendation :=
  if actualChange >? expectedChange + 0.3 then
    (* Gaining too fast *)
    {| shouldAdjust := true;
       reason := GainTooRapid actualChange;
       recommendedCalorieChange := -100;
       pattern := too_fast |}
  else if actualChange <? expectedChange - 0.2 then
    (* Gaining too slow or losing weight *)
    {| shouldAdjust := true;
       reason := GainTooSlow actualChange;
       recommendedCalorieChange := 150;
       pattern := too_slow |}
  else if actualChange <=? -0.2 then
    (* Weight decreased during muscle gain *)
    {| shouldAdjust := true;
       reason := DecreasedDuringGain;
       recommendedCalorieChange := 200;
       pattern := reversed |}
  else
    {| shouldAdjust := false;
       reason := ProgressAcceptable;
       recommendedCalorieChange := 0;
       pattern := on_track |}.

Definition analyzeMaintenanceProgress (actualChange : number)
    : AdjustmentRecommendation :=
  let tolerance : number := 0.3 in
  if Math_abs actualChange <=? tolerance then
    {| shouldAdjust := false;
       reason := WeightStable;
       recommendedCalorieChange := 0;
       pattern := on_track |}
  else if actualChange <? - tolerance then
    (* Losing weight unintentionally *)
    {| shouldAdjust := true;
       reason := UnintentionalLoss (Math_abs actualChange);
       recommendedCalorieChange := 100;
       pattern := too_fast |}
  else
    (* Gaining weight unintentionally *)
    {| shouldAdjust := true;
       reason := UnintentionalGain actualChange;
       recommendedCalorieChange := -100;
       pattern := too_slow |}.

(** Analyze progress and recommend adjustments. *)
Definition analyzeProgress (progressData : ProgressData)
    (expectedWeeklyChange : number) : AdjustmentRecommendation :=
  let totalWeightChange :=
    progressData.(currentWeight) - progressData.(previousWeight) in
  let weeklyChange :=
    totalWeightChange / progressData.(weeksSinceLastCheckin) in
  let tolerance : number := 0.2 in
  let difference := Math_abs (weeklyChange - expectedWeeklyChange) in
  if difference <=? tolerance then
    {| shouldAdjust := false;
       reason := ProgressOnTrack;
       recommendedCalorieChange := 0;
       pattern := on_track |}
  else
    match progressData.(goal) with
    | weight_loss =>
        analyzeWeightLossProgress weeklyChange expectedWeeklyChange
    | muscle_gain =>
        analyzeMuscleGainProgress weeklyChange expectedWeeklyChange
    | maintenance => analyzeMaintenanceProgress weeklyChange
    end.

(** Detect stalled progress.  [threshold] defaults to 3. *)
Definition detectStall (recentWeights : list number) (threshold : number)
    : bool :=
  if Array_length recentWeights <? threshold then false
  else
    let maxWeight := Math_max_list recentWeights in
    let minWeight := Math_min_list recentWeights in
    let range := maxWeight - minWeight in
    range <? 0.3.

Definition detectStall_default (recentWeights : list number) : bool :=
  detectStall recentWeights 3.

End AdjustmentValidator.

(* ================================================================== *)
(** * validators/safety.validator.ts *)
(* ================================================================== *)

Module SafetyValidator.

(** The violation and warning texts, one constructor per message with
    the numbers it interpolates. *)
Inductive Violation : Type :=
| CaloriesBelowMinimum (calories minCalories : number)
| DeficitExceedsLimit (deficit limit : number)
| SurplusExceedsLimit (surplus limit : number)
| ProteinBelowMinimum (protein minProtein : number)
| WeeklyLossExceedsRate (weeklyWeightLoss maxWeeklyLoss : number)
| AdjustmentExceedsMaximum (adjustment : number)
| NewCaloriesBelowMinimum (newCalories minCalories : number).

Inductive Warning : Type :=
| ProteinUnusuallyHigh (protein maxProtein : number)
| LargeAdjustment (adjustment : number).

Record ValidationResult : Type := mkValidationResult {
  isValid : bool;
  violations : list Violation;
  warnings : list Warning
}.

(** Minimum calorie thresholds. *)
Definition MIN_CALORIES (gender : Gender) : number :=
  match gender with
  | male => 1500
  | female => 1200
  end.

(** [MAX_ADJUSTMENTS.deficit], [.surplus] and [.weeklyWeightLoss]. *)
Definition MAX_ADJUSTMENTS_deficit : number := 500.
Definition MAX_ADJUSTMENTS_surplus : number := 300.
Definition MAX_ADJUSTMENTS_weeklyWeightLoss : number := 0.01.

(** Validate that a nutrition plan meets the safety constraints. *)
Definition validateNutritionPlan (calories protein weight : number)
    (gender : Gender) (tdee : number) (goal : Goal) : ValidationResult :=
  let violations : list Violation := [] in
  let warnings : list Warning := [] in
  (* 1. minimum calories *)
  let minCalories := MIN_CALORIES gender in
  let violations :=
    push_if (calories <? minCalories)
      (CaloriesBelowMinimum calories minCalories) violations in
  (* 2. maximum deficit *)
  let violations :=
    if Goal_eqb goal weight_loss then
      let deficit := tdee - calories in
      push_if (deficit >? MAX_ADJUSTMENTS_deficit)
        (DeficitExceedsLimit deficit MAX_ADJUSTMENTS_deficit) violations
    else violations in
  (* 3. maximum surplus *)
  let violations :=
    if Goal_eqb goal muscle_gain then
      let surplus := calories - tdee in
      push_if (surplus >? MAX_ADJUSTMENTS_surplus)
        (SurplusExceedsLimit surplus MAX_ADJUSTMENTS_surplus) violations
    else violations in
  (* 4. minimum protein (1.6 g/kg) *)
  let minProtein := weight * 1.6 in
  let violations :=
    push_if (protein <? minProtein)
      (ProteinBelowMinimum protein minProtein) violations in
  (* 5. very high protein is a warning only *)
  let maxProtein := weight * 3.0 in
  let warnings :=
    push_if (protein >? maxProtein)
      (ProteinUnusuallyHigh protein maxProtein) warnings in
  (* 6. weekly weight loss rate *)
  let violations :=
    if Goal_eqb goal weight_loss then
      let weeklyDeficit := (tdee - calories) * 7 in
      let weeklyWeightLoss := weeklyDeficit / 7700 in
      let maxWeeklyLoss := weight * MAX_ADJUSTMENTS_weeklyWeightLoss in
      push_if (weeklyWeightLoss >? maxWeeklyLoss)
        (WeeklyLossExceedsRate weeklyWeightLoss maxWeeklyLoss) violations
    else violations in
  {| isValid := is_nil violations;
     violations := violations;
     warnings := warnings |}.

(** Validate that an adjustment is safe (used when updating plans). *)
Definition validateAdjustment (currentCalories newCalories : number)
    (gender : Gender) : ValidationResult :=
  let violations : list Violation := [] in
  let warnings : list Warning := [] in
  (* 1. adjustment size *)
  let adjustment := newCalories - currentCalories in
  let violations :=
    push_if (Math_abs adjustment >? 200)
      (AdjustmentExceedsMaximum adjustment) violations in
  (* 2. minimum calories after adjustment *)
  let minCalories := MIN_CALORIES gender in
  let violations :=
    push_if (newCalories <? minCalories)
      (NewCaloriesBelowMinimum newCalories minCalories) violations in
  (* 3. large adjustments *)
  let warnings :=
    push_if ((Math_abs adjustment >=? 150) && (Math_abs adjustment <=? 200))
      (LargeAdjustment adjustment) warnings in
  {| isValid := is_nil violations;
     violations := violations;
     warnings := warnings |}.

End SafetyValidator.

(* ================================================================== *)
(** * engines/adjustment.engine.ts *)
(* ================================================================== *)

Module AdjustmentEngine.

Import AdjustmentValidator SafetyValidator.

(** A check-in.  [createdAt] is the time value of the [Date], in
    milliseconds; the three ratings are optional. *)
Record CheckInData : Type := mkCheckInData {
  weight : number;
  createdAt : Z;
  energyLevel : option number;
  hungerLevel : option number;
  stressLevel : option number
}.

(** [createdAt.getTime()] *)
Definition getTime (c : CheckInData) : number :=
  Fin (inject_Z c.(createdAt)).

Inductive TrainingAdjustment : Type := increase | decrease | maintain.

Definition TrainingAdjustment_eqb (a b : TrainingAdjustment) : bool :=
  match a, b with
  | increase, increase | decrease, decrease | maintain, maintain => true
  | _, _ => false
  end.

Definition Pattern_eqb (a b : Pattern) : bool :=
  match a, b with
  | too_fast, too_fast | too_slow, too_slow | stalled, stalled
  | on_track, on_track | reversed, reversed => true
  | _, _ => false
  end.

(** The warning texts of the analysis. *)
Inductive AnalysisWarning : Type :=
| StalledProgress   (* Progress has stalled for 3+ weeks. ... *)
| LowEnergy         (* Low energy levels reported. ... *)
| HighHunger        (* High hunger levels reported. ... *)
| HighStress.       (* High stress levels. ... *)

Record Subjective : Type := mkSubjective {
  subjective_energyLevel : option number;
  subjective_hungerLevel : option number;
  subjective_stressLevel : option number
}.

Record AdjustmentAnalysis : Type := mkAdjustmentAnalysis {
  (* progress metrics *)
  currentWeight : number;
  previousWeight : number;
  weightChange : number;
  weeklyWeightChange : number;
  (* pattern detection *)
  pattern : Pattern;
  isStalled : bool;
  (* recommendations *)
  shouldAdjustNutrition : bool;
  shouldAdjustTraining : bool;
  nutritionAdjustment : number;
  trainingAdjustment : TrainingAdjustment;
  (* reasoning *)
  reason : Reason;
  warnings : list AnalysisWarning;
  (* data for the feedback text *)
  subjective : Subjective
}.

(** [level && test(level)] on an optional rating: an absent rating and a
    falsy one do not pass. *)
Definition rating_and (level : option number) (test : number -> bool) : bool :=
  match level with
  | Some l => truthy l && test l
  | None => false
  end.

Definition MS_PER_WEEK : number := 1000 * 60 * 60 * 24 * 7.

(** Analyze check-in data and generate adjustment recommendations.  This
    is the value the function returns or throws; what the call does to the
    array of its caller is in [AdjustmentEngineInPlace] below. *)
Definition analyzeCheckInProgress (recentCheckIns : list CheckInData)
    (expectedWeeklyChange : number) (goal : Goal) (currentCalories : number)
    (gender : Gender) : Result AdjustmentAnalysis :=
  if Array_length recentCheckIns <? 2 then
    Throw "Need at least 2 check-ins to analyze progress"
  else
    (* most recent first *)
    let sorted :=
      Array_sort (fun a b => getTime b - getTime a) recentCheckIns in
    match sorted with
    | current :: previous :: _ =>
        let timeDiff := getTime current - getTime previous in
        let weeksSinceLastCheckin := timeDiff / MS_PER_WEEK in
        let weightChange := current.(weight) - previous.(weight) in
        let weeklyWeightChange := weightChange / weeksSinceLastCheckin in
        let progressData :=
          {| AdjustmentValidator.currentWeight := current.(weight);
             AdjustmentValidator.previousWeight := previous.(weight);
             weeksSinceLastCheckin := weeksSinceLastCheckin;
             goal := goal |} in
        let recommendation :=
          analyzeProgress progressData expectedWeeklyChange in
        (* the last 3-4 weights, when available *)
        let recentWeights := map weight (firstn 4 sorted) in
        let isStalled := detectStall_default recentWeights in
        (* validate that the adjustment is safe *)
        let finalAdjustment := recommendation.(recommendedCalorieChange) in
        let finalAdjustment :=
          if recommendation.(shouldAdjust) then
            let validation :=
              validateAdjustment currentCalories
                (currentCalories + finalAdjustment) gender in
            if negb validation.(isValid) then
              Math_sign finalAdjustment * 100
            else finalAdjustment
          else finalAdjustment in
        let trainingAdjustment :=
          if isStalled && Goal_eqb goal muscle_gain then increase
          else if Pattern_eqb recommendation.(AdjustmentValidator.pattern)
                    too_fast
                  && Goal_eqb goal weight_loss then decrease
          else maintain in
        let warnings : list AnalysisWarning := [] in
        let warnings := push_if isStalled StalledProgress warnings in
        let warnings :=
          push_if (rating_and current.(energyLevel) (fun l => l <=? 2))
            LowEnergy warnings in
        let warnings :=
          push_if (rating_and current.(hungerLevel) (fun l => l >=? 4))
            HighHunger warnings in
        let warnings :=
          push_if (rating_and current.(stressLevel) (fun l => l >=? 4))
            HighStress warnings in
        Ok {| currentWeight := current.(weight);
              previousWeight := previous.(weight);
              weightChange := weightChange;
              weeklyWeightChange := weeklyWeightChange;
              pattern := recommendation.(AdjustmentValidator.pattern);
              isStalled := isStalled;
              shouldAdjustNutrition :=
                recommendation.(shouldAdjust) || isStalled;
              shouldAdjustTraining :=
                negb (TrainingAdjustment_eqb trainingAdjustment maintain);
              nutritionAdjustment := finalAdjustment;
              trainingAdjustment := trainingAdjustment;
              reason := recommendation.(AdjustmentValidator.reason);
              warnings := warnings;
              subjective :=
                {| subjective_energyLevel := current.(energyLevel);
                   subjective_hungerLevel := current.(hungerLevel);
                   subjective_stressLevel := current.(stressLevel) |} |}
    | _ =>
        (* not reached: [sorted] has the length of [recentCheckIns] *)
        Throw "Need at least 2 check-ins to analyze progress"
    end.

(** Calculate the new plan version number. *)
Definition calculateNewVersion (currentVersion : number) : number :=
  currentVersion + 1.

End AdjustmentEngine.

(* ================================================================== *)
(** * shared-schemas/src/rule-pack.types.ts *)
(* ================================================================== *)

Module RulePackTypes.

(** The parts of the rule pack that the action selector reads.  The
    values come from [rule-pack-v1.json]. *)
Record CalorieFloor : Type := mkCalorieFloor {
  female : number;
  male : number
}.

Record SafetyConstraints : Type := mkSafetyConstraints {
  calorieFloor : CalorieFloor;
  maxDeficitPercent : number;
  maxSurplusPercent : number
}.

Record TrendAnalysis : Type := mkTrendAnalysis {
  minimumConfidenceForAction : number
}.

Record RulePack : Type := mkRulePack {
  safetyConstraints : SafetyConstraints;
  trendAnalysis : TrendAnalysis
}.

End RulePackTypes.

(* ================================================================== *)
(** * engine/services/action-selector.service.ts *)
(* ================================================================== *)

Module ActionSelector.

Import RulePackTypes.

Record UserContext : Type := mkUserContext {
  currentCalories : number;
  tdee : number;
  weight : number;
  sex : string;
  goal : string
}.

(** ['decreasing' | 'stable' | 'increasing'] *)
Inductive Trend : Type := decreasing | stable | increasing.

(** ['low' | 'moderate' | 'high' | 'critical'] *)
Inductive RiskLevel : Type := low | moderate | high | critical.

(** The [reasoning] texts. *)
Inductive Reasoning : Type :=
| ConfidenceTooLow (confidence minConfidence : number)
| CriticalRecoveryRisk
| HighRecoveryRisk
| MaintenanceMode
| MakingProgressInDeficit
| PlateauDetected
| WeightIncreasingDespiteDeficit
| MakingProgressInSurplus
| StableWeightIncreasingSurplus
| WeightDecreasingDespiteSurplus.

Record Params : Type := mkParams {
  trend : Trend;
  riskLevel : RiskLevel;
  confidence : number;
  currentMode : string;
  userContext : UserContext
}.

Record Selection : Type := mkSelection {
  adjustment : number;
  newCalories : number;
  reasoning : Reasoning
}.

Section WithRulePack.

Variable rulePack : RulePack.

(** Apply safety guardrails (calorie floor, largest deficit and surplus
    as a percentage of TDEE). *)
Definition applyGuardrails (targetCalories : number)
    (userContext : UserContext) : number :=
  let tdee := userContext.(tdee) in
  let calorieFloor :=
    if String.eqb userContext.(sex) "male"
    then rulePack.(safetyConstraints).(calorieFloor).(male)
    else rulePack.(safetyConstraints).(calorieFloor).(female) in
  if targetCalories <? calorieFloor then calorieFloor
  else
    let maxDeficitPercent :=
      rulePack.(safetyConstraints).(maxDeficitPercent) / 100 in
    let minCaloriesFromDeficit := tdee * (1 - maxDeficitPercent) in
    if targetCalories <? minCaloriesFromDeficit then
      Math_round minCaloriesFromDeficit
    else
      let maxSurplusPercent :=
        rulePack.(safetyConstraints).(maxSurplusPercent) / 100 in
      let maxCaloriesFromSurplus := tdee * (1 + maxSurplusPercent) in
      if targetCalories >? maxCaloriesFromSurplus then
        Math_round maxCaloriesFromSurplus
      else Math_round targetCalories.

Definition selectCutAdjustment (trend : Trend) (userContext : UserContext)
    : Selection :=
  let '(adjustment, reasoning) :=
    match trend with
    | decreasing => (Fin 0, MakingProgressInDeficit)
    | stable => (Fin (-100), PlateauDetected)
    | increasing => (Fin (-150), WeightIncreasingDespiteDeficit)
    end in
  let newCalories :=
    applyGuardrails (userContext.(currentCalories) + adjustment)
      userContext in
  {| adjustment := adjustment; newCalories := newCalories;
     reasoning := reasoning |}.

Definition selectGainAdjustment (trend : Trend) (userContext : UserContext)
    : Selection :=
  let '(adjustment, reasoning) :=
    match trend with
    | increasing => (Fin 0, MakingProgressInSurplus)
    | stable => (Fin 100, StableWeightIncreasingSurplus)
    | decreasing => (Fin 150, WeightDecreasingDespiteSurplus)
    end in
  let newCalories :=
    applyGuardrails (userContext.(currentCalories) + adjustment)
      userContext in
  {| adjustment := adjustment; newCalories := newCalories;
     reasoning := reasoning |}.

(** Select the calorie adjustment from trend and recovery risk. *)
Definition selectCalorieAdjustment (params : Params) : Selection :=
  let trend := params.(trend) in
  let riskLevel := params.(riskLevel) in
  let confidence := params.(confidence) in
  let currentMode := params.(currentMode) in
  let userContext := params.(userContext) in
  (* confidence too low: no change *)
  let minConfidence :=
    rulePack.(trendAnalysis).(minimumConfidenceForAction) in
  if confidence <? minConfidence then
    {| adjustment := 0;
       newCalories := userContext.(currentCalories);
       reasoning := ConfidenceTooLow confidence minConfidence |}
  else
    match riskLevel with
    | critical =>
        (* critical recovery risk: always increase calories *)
        let adjustment : number := 200 in
        let newCalories :=
          applyGuardrails (userContext.(currentCalories) + adjustment)
            userContext in
        {| adjustment := adjustment; newCalories := newCalories;
           reasoning := CriticalRecoveryRisk |}
    | high =>
        (* high recovery risk: hold or slight increase *)
        let adjustment : number :=
          match trend with decreasing => 100 | _ => 0 end in
        let newCalories :=
          applyGuardrails (userContext.(currentCalories) + adjustment)
            userContext in
        {| adjustment := adjustment; newCalories := newCalories;
           reasoning := HighRecoveryRisk |}
    | _ =>
        (* goal-based logic *)
        if String.prefix "CUT" currentMode then
          selectCutAdjustment trend userContext
        else if String.prefix "GAIN" currentMode then
          selectGainAdjustment trend userContext
        else
          {| adjustment := 0;
             newCalories := userContext.(currentCalories);
             reasoning := MaintenanceMode |}
    end.

End WithRulePack.

End ActionSelector.

(* ================================================================== *)
(** * engine/services/plan-builder.service.ts *)
(* ================================================================== *)

Module PlanBuilderService.

Record TDEEParams : Type := mkTDEEParams {
  weight : number;
  height : number;
  age : number;
  sex : string;
  activityLevel : string
}.

(** Estimate TDEE using the Mifflin-St Jeor equation. *)
Definition calculateTDEE (params : TDEEParams) : number :=
  let weight := params.(weight) in
  let height := params.(height) in
  let age := params.(age) in
  let sex := params.(sex) in
  let bmr :=
    if String.eqb sex "male" then
      10 * weight + 6.25 * height - 5 * age + 5
    else
      10 * weight + 6.25 * height - 5 * age - 161 in
  (* moderate activity for simplicity *)
  let activityMultiplier : number := 1.55 in
  Math_round (bmr * activityMultiplier).

End PlanBuilderService.

(* ================================================================== *)
(** * validators/safety.validator.ts: the constraints of a user *)
(* ================================================================== *)

Module SafetyLimits.

Import SafetyValidator.

Record SafetyConstraints : Type := mkSafetyConstraints {
  minCalories : number;
  maxDeficit : number;
  maxSurplus : number;
  minProtein : number;
  maxWeeklyWeightLoss : number
}.

(** Get safe constraints for a user. *)
Definition getSafetyConstraints (weight : number) (gender : Gender)
    (tdee : number) : SafetyConstraints :=
  {| minCalories := MIN_CALORIES gender;
     maxDeficit := MAX_ADJUSTMENTS_deficit;
     maxSurplus := MAX_ADJUSTMENTS_surplus;
     minProtein := weight * 1.6;
     maxWeeklyWeightLoss := weight * MAX_ADJUSTMENTS_weeklyWeightLoss |}.

End SafetyLimits.

(* ================================================================== *)
(** * engines/nutrition-plan-generator.engine.ts *)
(* ================================================================== *)

Module NutritionPlanGenerator.

Import SafetyValidator SafetyLimits.

(** The optional [mealsPerDay] of the input is [mealsPerDayOpt] here; the
    plan has a field of the same name. *)
Record NutritionPlanInput : Type := mkNutritionPlanInput {
  weight : number;
  height : number;
  age : number;
  gender : Gender;
  activityLevel : ActivityLevel;
  goal : Goal;
  dietaryPreferences : option (list string);
  mealsPerDayOpt : option number
}.

Record NutritionPlan : Type := mkNutritionPlan {
  (* calculated values *)
  bmr : number;
  tdee : number;
  targetCalories : number;
  protein : number;
  fat : number;
  carbs : number;
  (* metadata *)
  activityMultiplier : number;
  deficit : number;
  deficitPercentage : number;
  estimatedWeeklyWeightChange : number;
  (* meal planning *)
  mealsPerDay : number;
  caloriesPerMeal : number;
  (* safety validation *)
  validation : ValidationResult;
  (* safety constraints for reference *)
  safetyConstraints : SafetyConstraints
}.

(** Generate a complete nutrition plan. *)
Definition generateNutritionPlan (input : NutritionPlanInput)
    : NutritionPlan :=
  let weight := input.(weight) in
  let gender := input.(gender) in
  let activityLevel := input.(activityLevel) in
  let goal := input.(goal) in
  let mealsPerDay :=
    match input.(mealsPerDayOpt) with Some m => m | None => Fin 3 end in
  (* Step 1: TDEE *)
  let tdeeInput :=
    {| TdeeCalculator.weight := weight;
       TdeeCalculator.height := input.(height);
       TdeeCalculator.age := input.(age);
       TdeeCalculator.gender := gender;
       TdeeCalculator.activityLevel := activityLevel |} in
  let tdeeResult := TdeeCalculator.calculateTDEE tdeeInput in
  (* Step 2: target calories for the goal *)
  let energyInput :=
    {| EnergyBalance.tdee := tdeeResult.(TdeeCalculator.tdee);
       EnergyBalance.goal := goal;
       EnergyBalance.weight := weight |} in
  let energyResult := EnergyBalance.calculateTargetCalories energyInput in
  (* Step 3: macros *)
  let macroInput :=
    {| MacroCalculator.weight := weight;
       MacroCalculator.targetCalories :=
         energyResult.(EnergyBalance.targetCalories);
       MacroCalculator.goal := goal;
       MacroCalculator.activityLevel := activityLevel |} in
  let macroResult := MacroCalculator.calculateMacros macroInput in
  (* Step 4: safety validation *)
  let validation :=
    validateNutritionPlan energyResult.(EnergyBalance.targetCalories)
      macroResult.(MacroCalculator.protein) weight gender
      tdeeResult.(TdeeCalculator.tdee) goal in
  (* Step 5: safety constraints *)
  let safetyConstraints :=
    getSafetyConstraints weight gender tdeeResult.(TdeeCalculator.tdee) in
  (* Step 6: per-meal breakdown *)
  let caloriesPerMeal :=
    Math_round (energyResult.(EnergyBalance.targetCalories) / mealsPerDay) in
  {| bmr := tdeeResult.(TdeeCalculator.bmr);
     tdee := tdeeResult.(TdeeCalculator.tdee);
     targetCalories := energyResult.(EnergyBalance.targetCalories);
     protein := macroResult.(MacroCalculator.protein);
     fat := macroResult.(MacroCalculator.fat);
     carbs := macroResult.(MacroCalculator.carbs);
     activityMultiplier := tdeeResult.(TdeeCalculator.activityMultiplier);
     deficit := energyResult.(EnergyBalance.deficit);
     deficitPercentage := energyResult.(EnergyBalance.deficitPercentage);
     estimatedWeeklyWeightChange :=
       energyResult.(EnergyBalance.weeklyWeightChangeKg);
     mealsPerDay := mealsPerDay;
     caloriesPerMeal := caloriesPerMeal;
     validation := validation;
     safetyConstraints := safetyConstraints |}.

(** Adjust an existing nutrition plan based on progress. *)
Definition adjustNutritionPlan (currentPlan : NutritionPlan)
    (calorieAdjustment weight : number) (gender : Gender) (goal : Goal)
    : NutritionPlan :=
  let newTargetCalories := currentPlan.(targetCalories) + calorieAdjustment in
  (* macros for the new calorie target *)
  let macroInput :=
    {| MacroCalculator.weight := weight;
       MacroCalculator.targetCalories := newTargetCalories;
       MacroCalculator.goal := goal;
       MacroCalculator.activityLevel := moderate |} in
  let macroResult := MacroCalculator.calculateMacros macroInput in
  (* validate the new plan *)
  let validation :=
    validateNutritionPlan newTargetCalories
      macroResult.(MacroCalculator.protein) weight gender
      currentPlan.(tdee) goal in
  (* new deficit *)
  let newDeficit := currentPlan.(tdee) - newTargetCalories in
  let newDeficitPercentage := newDeficit / currentPlan.(tdee) in
  (* new weekly weight change *)
  let weeklyDeficit := newDeficit * 7 in
  let estimatedWeeklyWeightChange := toFixed2 (weeklyDeficit / 7700) in
  (* per-meal breakdown *)
  let caloriesPerMeal :=
    Math_round (newTargetCalories / currentPlan.(mealsPerDay)) in
  {| bmr := currentPlan.(bmr);
     tdee := currentPlan.(tdee);
     targetCalories := newTargetCalories;
     protein := macroResult.(MacroCalculator.protein);
     fat := macroResult.(MacroCalculator.fat);
     carbs := macroResult.(MacroCalculator.carbs);
     activityMultiplier := currentPlan.(activityMultiplier);
     deficit := newDeficit;
     deficitPercentage := newDeficitPercentage;
     estimatedWeeklyWeightChange := estimatedWeeklyWeightChange;
     mealsPerDay := currentPlan.(mealsPerDay);
     caloriesPerMeal := caloriesPerMeal;
     validation := validation;
     safetyConstraints := currentPlan.(safetyConstraints) |}.

End NutritionPlanGenerator.

(* ================================================================== *)
(** * engines/training-plan-generator.engine.ts *)
(* ================================================================== *)

Module TrainingPlanGenerator.

(** ['beginner' | 'intermediate' | 'advanced'] *)
Inductive ExperienceLevel : Type := beginner | intermediate | advanced.

(** ['gym' | 'home' | 'minimal'] *)
Inductive Equipment : Type := gym | home | minimal.

(** ['strength' | 'hypertrophy' | 'endurance' | 'general_fitness'] *)
Inductive TrainingGoal : Type :=
  strength | hypertrophy | endurance | general_fitness.

(** ['light' | 'moderate' | 'hard'] *)
Inductive Intensity : Type := light | moderate | hard.

Record TrainingPlanInput : Type := mkTrainingPlanInput {
  experienceLevel : ExperienceLevel;
  daysPerWeek : number;
  equipment : Equipment;
  goal : TrainingGoal;
  age : number;
  injuries : option (list string)
}.

(** A value of [PROGRAM_TEMPLATES]. *)
Record ProgramTemplate : Type := mkProgramTemplate {
  programId : string;
  programName : string;
  description : string;
  volume : number;  (* sets per muscle group per week *)
  intensity : Intensity;
  progressionScheme : string
}.

(** The warning texts of the training plan. *)
Inductive TrainingWarning : Type :=
| DaysReducedToFour      (* Days per week reduced to 4 due to minimal equipment *)
| VolumeReducedForAge    (* Volume reduced by 15% to accommodate recovery needs *)
| IntensityReducedForInjuries. (* Intensity reduced by 10% due to reported injuries *)

Record TrainingPlanResult : Type := mkTrainingPlanResult {
  result_programId : string;
  result_programName : string;
  result_description : string;
  initialVolume : number;
  initialIntensity : Intensity;
  volumeMultiplier : number;
  intensityMultiplier : number;
  result_daysPerWeek : number;
  isDeloadWeek : bool;
  deloadFrequency : number;
  result_progressionScheme : string;
  isValid : bool;
  warnings : list TrainingWarning
}.

(** A program key.  The source builds the string
    [`${experienceLevel}_${days}day`]; the pair it is built from stands
    for the string here, two keys being the same string exactly when the
    levels and the numbers are the same. *)
Definition ProgramKey : Type := (ExperienceLevel * number)%type.

(** [n] is the integer [k]. *)
Definition isDay (n : number) (k : Z) : bool :=
  match n with
  | Fin q => Qeq_bool q (inject_Z k)
  | _ => false
  end.

(** Program selection matrix: [PROGRAM_TEMPLATES[key]], absent for every
    key that is not one of the seven of the table. *)
Definition PROGRAM_TEMPLATES (key : ProgramKey) : option ProgramTemplate :=
  let '(level, days) := key in
  match level with
  | beginner =>
      if isDay days 3 then
        Some {| programId := "full_body_beginner";
                programName := "Beginner Full Body";
                description :=
                  "Full body workouts 3x per week for building foundation";
                volume := 12; intensity := moderate;
                progressionScheme := "linear" |}
      else if isDay days 4 then
        Some {| programId := "upper_lower_beginner";
                programName := "Beginner Upper/Lower Split";
                description := "Upper/lower split for balanced development";
                volume := 14; intensity := moderate;
                progressionScheme := "linear" |}
      else None
  | intermediate =>
      if isDay days 4 then
        Some {| programId := "upper_lower_intermediate";
                programName := "Intermediate Upper/Lower";
                description :=
                  "Progressive upper/lower split with periodization";
                volume := 16; intensity := hard;
                progressionScheme := "wave_loading" |}
      else if isDay days 5 then
        Some {| programId := "ppl_intermediate";
                programName := "Push/Pull/Legs";
                description := "Classic PPL split for muscle building";
                volume := 18; intensity := hard;
                progressionScheme := "double_progression" |}
      else if isDay days 6 then
        Some {| programId := "ppl_high_frequency";
                programName := "High-Frequency PPL";
                description := "PPL twice per week for advanced recovery";
                volume := 20; intensity := hard;
                progressionScheme := "daily_undulation" |}
      else None
  | advanced =>
      if isDay days 5 then
        Some {| programId := "powerbuilding_advanced";
                programName := "Powerbuilding Program";
                description := "Strength and hypertrophy combined";
                volume := 20; intensity := hard;
                progressionScheme := "block_periodization" |}
      else if isDay days 6 then
        Some {| programId := "arnold_split_advanced";
                programName := "Arnold Split";
                description :=
                  "High-volume chest/back, shoulders/arms, legs split";
                volume := 22; intensity := hard;
                progressionScheme := "daily_undulation" |}
      else None
  end.

Definition Equipment_eqb (a b : Equipment) : bool :=
  match a, b with
  | gym, gym | home, home | minimal, minimal => true
  | _, _ => false
  end.

Definition Intensity_eqb (a b : Intensity) : bool :=
  match a, b with
  | light, light | moderate, moderate | hard, hard => true
  | _, _ => false
  end.

(** Select the program for an input. *)
Definition selectTrainingProgram (input : TrainingPlanInput) : ProgramKey :=
  let experienceLevel := input.(experienceLevel) in
  let daysPerWeek := input.(daysPerWeek) in
  (* limit to 4 days for minimal equipment *)
  let adjustedDays :=
    if Equipment_eqb input.(equipment) minimal && (daysPerWeek >? 4)
    then Fin 4 else daysPerWeek in
  let programKey : ProgramKey := (experienceLevel, adjustedDays) in
  (* fallback logic *)
  match PROGRAM_TEMPLATES programKey with
  | Some _ => programKey
  | None =>
      match experienceLevel with
      | beginner =>
          if adjustedDays >=? 4 then (beginner, Fin 4) else (beginner, Fin 3)
      | intermediate =>
          if adjustedDays >=? 6 then (intermediate, Fin 6)
          else if adjustedDays >=? 5 then (intermediate, Fin 5)
          else (intermediate, Fin 4)
      | advanced =>
          if adjustedDays >=? 6 then (advanced, Fin 6) else (advanced, Fin 5)
      end
  end.

(** Generate the complete training plan.  Reading a field of an absent
    template is a [TypeError]. *)
Definition generateTrainingPlan (input : TrainingPlanInput)
    : Result TrainingPlanResult :=
  let daysPerWeek := input.(daysPerWeek) in
  let equipment := input.(equipment) in
  let goal := input.(goal) in
  let age := input.(age) in
  let injuries :=
    match input.(injuries) with Some l => l | None => [] end in
  let programKey := selectTrainingProgram input in
  match PROGRAM_TEMPLATES programKey with
  | None => Throw "TypeError: Cannot read properties of undefined"
  | Some template =>
      (* volume by age *)
      let volumeMultiplier : number :=
        if age >=? 50 then 0.85
        else if age >=? 40 then 0.9
        else 1.0 in
      (* intensity by injuries *)
      let intensityMultiplier : number :=
        if Array_length injuries >? 0 then 0.9 else 1.0 in
      (* volume and intensity by goal *)
      let '(volumeMultiplier, intensityMultiplier) :=
        match goal with
        | strength => (volumeMultiplier * 0.9, intensityMultiplier * 1.1)
        | hypertrophy => (volumeMultiplier * 1.1, intensityMultiplier)
        | endurance => (volumeMultiplier * 1.2, intensityMultiplier * 0.8)
        | general_fitness => (volumeMultiplier, intensityMultiplier)
        end in
      (* deload every 4 to 6 weeks *)
      let deloadFrequency : number :=
        if Intensity_eqb template.(intensity) hard then 4 else 6 in
      let warnings : list TrainingWarning := [] in
      let warnings :=
        push_if (Equipment_eqb equipment minimal && (daysPerWeek >? 4))
          DaysReducedToFour warnings in
      let warnings :=
        push_if ((age >=? 50) && (template.(volume) >? 18))
          VolumeReducedForAge warnings in
      let warnings :=
        push_if (Array_length injuries >? 0)
          IntensityReducedForInjuries warnings in
      Ok {| result_programId := template.(programId);
            result_programName := template.(programName);
            result_description := template.(description);
            initialVolume :=
              Math_round (template.(volume) * volumeMultiplier);
            initialIntensity := template.(intensity);
            volumeMultiplier := volumeMultiplier;
            intensityMultiplier := intensityMultiplier;
            result_daysPerWeek := daysPerWeek;
            isDeloadWeek := false;
            deloadFrequency := deloadFrequency;
            result_progressionScheme := template.(progressionScheme);
            isValid := true;
            warnings := warnings |}
  end.

(** ['stalling' | 'progressing' | 'regressing'] *)
Inductive ProgressIndicator : Type := stalling | progressing | regressing.

(** Adjust the training volume based on progress. *)
Definition adjustTrainingVolume (currentVolume : number)
    (progressIndicator : ProgressIndicator) : number :=
  match progressIndicator with
  | regressing => Math_round (currentVolume * 0.9)
  | stalling => Math_round (currentVolume * 1.05)
  | progressing => currentVolume
  end.

(** Is a deload week needed? *)
Definition shouldDeload (weeksSinceDeload deloadFrequency : number) : bool :=
  weeksSinceDeload >=? deloadFrequency.

End TrainingPlanGenerator.

(* ================================================================== *)
(** * Objects used as maps *)
(* ================================================================== *)

(** The properties that every object inherits from [Object.prototype].
    [obj[key]] for such a key is a function (an object for ['__proto__'])
    unless [obj] holds the key itself: a value that is truthy, that is
    [NaN] in arithmetic, and whose own properties are [undefined]. *)
Definition objectPrototypeKeys : list string :=
  [ "constructor"; "hasOwnProperty"; "isPrototypeOf";
    "propertyIsEnumerable"; "toLocaleString"; "toString"; "valueOf";
    "__proto__"; "__defineGetter__"; "__defineSetter__";
    "__lookupGetter__"; "__lookupSetter__" ]%string.

Definition inheritedKey (key : string) : bool :=
  existsb (String.eqb key) objectPrototypeKeys.

(* ================================================================== *)
(** * engine/services/signal-interpreter.service.ts *)
(* ================================================================== *)

Module SignalInterpreter.

Import ActionSelector.

Record SubjectiveSignals : Type := mkSubjectiveSignals {
  signal_energy : number;
  signal_hunger : number;
  signal_sleep : number;
  signal_stress : number
}.

(** A check-in.  [createdAt] is the time value of the [Date]. *)
Record CheckinData : Type := mkCheckinData {
  weight : number;
  waist : option number;
  energy : number;
  hunger : number;
  sleep : number;
  stress : number;
  adherence : string;
  events : list string;
  createdAt : Z
}.

(** [createdAt.getTime()] *)
Definition getTime (c : CheckinData) : number :=
  Fin (inject_Z c.(createdAt)).

(** The parts of [rule-pack-v1.json] that this service reads.  The two
    objects used as maps are given by the properties that they hold
    themselves, as functions from the key to the value:
    [adherenceMapping[key].score] and [eventImpact[key]], [None] for a key
    that the object does not hold. *)
Record RulePackView : Type := mkRulePackView {
  trendWindow : number;
  plateau_maxWeightChange : number;
  plateau_minAdherence : number;
  weight_adherence : number;
  weight_dataQuality : number;
  weight_eventImpact : number;
  adherenceMapping : string -> option number;
  eventImpact : string -> option number;
  risk_weight_energy : number;
  risk_weight_hunger : number;
  risk_weight_sleep : number;
  risk_weight_stress : number;
  low_action : string;
  moderate_min : number;
  moderate_action : string;
  high_min : number;
  high_action : string;
  critical_min : number;
  critical_action : string;
  recomp_minWaistDecrease : number
}.

Record TrendResult : Type := mkTrendResult {
  trend : Trend;
  avgWeightChange : number;
  confidence : number
}.

Record RiskResult : Type := mkRiskResult {
  riskLevel : RiskLevel;
  riskScore : number;
  action : string
}.

Definition Trend_eqb (a b : Trend) : bool :=
  match a, b with
  | decreasing, decreasing | stable, stable | increasing, increasing => true
  | _, _ => false
  end.

(** [xs[xs.length - 1]] of a non-empty array with first element [x]. *)
Definition Array_last {A : Type} (x : A) (xs : list A) : A := last xs x.

Section WithRulePack.

Variable rulePack : RulePackView.

(** [mapping ? mapping.score : 0.5]: an inherited member is truthy and
    has no [score], and [sum + undefined] is [NaN]. *)
Definition calculateAdherenceScore (checkins : list CheckinData) : number :=
  let adherenceScores :=
    map (fun c =>
           match rulePack.(adherenceMapping) c.(adherence) with
           | Some score => score
           | None => if inheritedKey c.(adherence) then NaN else Fin 0.5
           end) checkins in
  fold_left (fun sum score => sum + score) adherenceScores (Fin 0)
  / Array_length adherenceScores.

Definition calculateDataQualityScore (checkins : list CheckinData)
    : number :=
  let expectedCheckins := rulePack.(trendWindow) in
  let actualCheckins := Array_length checkins in
  if actualCheckins >=? expectedCheckins then 1.0
  else actualCheckins / expectedCheckins.

(** [eventImpact[event] || 0]: an inherited member is truthy, and
    subtracting it gives [NaN]. *)
Definition calculateEventImpactScore (checkins : list CheckinData)
    : number :=
  let score :=
    fold_left
      (fun score checkin =>
         fold_left
           (fun score event =>
              let impact :=
                match rulePack.(eventImpact) event with
                | Some i => or_else i 0
                | None => if inheritedKey event then NaN else Fin 0
                end in
              score - impact)
           checkin.(events) score)
      checkins (Fin 1.0) in
  Math_max 0 (Math_min 1 score).

(** Confidence score from adherence, data quality and events. *)
Definition calculateConfidence (checkins : list CheckinData) : number :=
  match checkins with
  | [] => 0
  | _ :: _ =>
      let adherenceScore := calculateAdherenceScore checkins in
      let dataQualityScore := calculateDataQualityScore checkins in
      let eventImpactScore := calculateEventImpactScore checkins in
      let confidence :=
        adherenceScore * rulePack.(weight_adherence)
        + dataQualityScore * rulePack.(weight_dataQuality)
        + eventImpactScore * rulePack.(weight_eventImpact) in
      Math_max 0 (Math_min 1 confidence)
  end.

(** Weight trend over the check-ins. *)
Definition analyzeTrend (checkins : list CheckinData) : TrendResult :=
  if Array_length checkins <? 2 then
    {| trend := stable; avgWeightChange := 0; confidence := 0 |}
  else
    (* oldest first *)
    let sorted := Array_sort (fun a b => getTime a - getTime b) checkins in
    match sorted with
    | first :: _ =>
        let firstWeight := first.(weight) in
        let lastWeight := (Array_last first sorted).(weight) in
        let weightChange := lastWeight - firstWeight in
        let plateauThreshold := rulePack.(plateau_maxWeightChange) in
        let trend :=
          if Math_abs weightChange <=? plateauThreshold then stable
          else if weightChange <? 0 then decreasing
          else increasing in
        let confidence := calculateConfidence checkins in
        {| trend := trend; avgWeightChange := weightChange;
           confidence := confidence |}
    | [] =>
        (* not reached: [sorted] has the length of [checkins] *)
        {| trend := stable; avgWeightChange := 0; confidence := 0 |}
    end.

(** Recovery risk from the subjective signals. *)
Definition assessRecoveryRisk (signals : SubjectiveSignals) : RiskResult :=
  let riskScore :=
    (10 - signals.(signal_energy)) * rulePack.(risk_weight_energy)
    + signals.(signal_hunger) * rulePack.(risk_weight_hunger)
    + (10 - signals.(signal_sleep)) * rulePack.(risk_weight_sleep)
    + signals.(signal_stress) * rulePack.(risk_weight_stress) in
  let '(riskLevel, action) :=
    if riskScore <? rulePack.(moderate_min) then
      (low, rulePack.(low_action))
    else if riskScore <? rulePack.(high_min) then
      (ActionSelector.moderate, rulePack.(moderate_action))
    else if riskScore <? rulePack.(critical_min) then
      (high, rulePack.(high_action))
    else (critical, rulePack.(critical_action)) in
  {| riskLevel := riskLevel; riskScore := riskScore; action := action |}.

(** Plateau: stable weight with high adherence. *)
Definition detectPlateau (checkins : list CheckinData) : bool :=
  if Array_length checkins <? rulePack.(trendWindow) then false
  else
    let result := analyzeTrend checkins in
    let avgAdherence := calculateAdherenceScore checkins in
    let minAdherence := rulePack.(plateau_minAdherence) / 100 in
    Trend_eqb result.(trend) stable
    && (Math_abs result.(avgWeightChange)
        <=? rulePack.(plateau_maxWeightChange))
    && (avgAdherence >=? minAdherence).

End WithRulePack.

End SignalInterpreter.

(* ================================================================== *)
(** * engine/services/plan-builder.service.ts: macros and programs *)
(* ================================================================== *)

Module PlanBuilderPlans.

(** [rulePack.goalSpecificDefaults[goal]?.proteinTarget], [None] when it
    is [undefined]: the goal has no entry, or its entry (or the inherited
    member of that name) has no protein target. *)
Definition ProteinTargets : Type := string -> option number.

Record Macros : Type := mkMacros {
  protein : number;
  fat : number;
  carbs : number
}.

(** Calculate macros from calories and goal. *)
Definition calculateMacros (proteinTarget : ProteinTargets)
    (calories weight : number) (goal : string) : Macros :=
  let proteinPerKg :=
    match proteinTarget goal with
    | Some t => or_else t 1.8
    | None => Fin 1.8
    end in
  let proteinGrams := weight * proteinPerKg in
  let proteinCalories := proteinGrams * 4 in
  (* fat: 1.0 g per kg of body weight *)
  let fatGrams := weight * 1.0 in
  let fatCalories := fatGrams * 9 in
  (* carbs: the remaining calories *)
  let remainingCalories := calories - proteinCalories - fatCalories in
  let carbGrams := Math_max 0 (remainingCalories / 4) in
  {| protein := proteinGrams; fat := fatGrams; carbs := carbGrams |}.

(** A value read from [programMap] or [descriptions]: a string, or the
    member of [Object.prototype] of the given name. *)
Inductive Member : Type :=
| Text (s : string)
| InheritedMember (key : string).

(** [table[key]] for an object literal with the given entries. *)
Definition lookup (table : list (string * string)) (key : string)
    : option Member :=
  match find (fun entry => String.eqb (fst entry) key) table with
  | Some entry => Some (Text (snd entry))
  | None => if inheritedKey key then Some (InheritedMember key) else None
  end.

(** [table[key] || fallback]; the empty string is falsy, an inherited
    member is truthy. *)
Definition lookup_or (table : list (string * string)) (key fallback : string)
    : Member :=
  match lookup table key with
  | Some (Text v) => if String.eqb v "" then Text fallback else Text v
  | Some (InheritedMember k) => InheritedMember k
  | None => Text fallback
  end.

Definition programMap : list (string * string) :=
  [ ("beginner"%string, "beginner_upper_lower"%string);
    ("intermediate"%string, "intermediate_ppl"%string);
    ("advanced"%string, "advanced_upper_lower"%string) ].

Definition descriptions : list (string * string) :=
  [ ("beginner_upper_lower"%string,
     "4-day Upper/Lower split for beginners"%string);
    ("intermediate_ppl"%string, "6-day Push/Pull/Legs split"%string);
    ("advanced_upper_lower"%string,
     "5-day Upper/Lower with specialization"%string) ].

(** [descriptions[programId] || 'Training program'].  An inherited member
    as [programId] is turned into the property key that is the text of
    the function (['[object Object]'] for ['__proto__']), which names no
    property. *)
Definition getProgramDescription (programId : Member) : Member :=
  match programId with
  | Text id => lookup_or descriptions id "Training program"
  | InheritedMember _ => Text "Training program"
  end.

Record TrainingProgram : Type := mkTrainingProgram {
  programId : Member;
  weekNumber : number;
  volumeMultiplier : number;
  intensityMultiplier : number;
  description : Member
}.

(** Build the training program for an experience level. *)
Definition buildTrainingProgram (experienceLevel : string)
    (weekNumber : number) : TrainingProgram :=
  let programId :=
    lookup_or programMap experienceLevel "beginner_upper_lower" in
  {| programId := programId;
     weekNumber := weekNumber;
     volumeMultiplier := 1.0;
     intensityMultiplier := 1.0;
     description := getProgramDescription programId |}.

End PlanBuilderPlans.

(* ================================================================== *)
(** * engines/adjustment.engine.ts: the array of the caller *)
(* ================================================================== *)

Module AdjustmentEngineInPlace.

Import AdjustmentEngine.

(** The outcome of a call: what it returns or throws, and the content of
    the caller's array [recentCheckIns] after the call. *)
Record Outcome : Type := mkOutcome {
  result : Result AdjustmentAnalysis;
  recentCheckInsAfter : list CheckInData
}.

(** [analyzeCheckInProgress] with its effect on the argument.
    [recentCheckIns.sort(...)] sorts the array it is called on and returns
    that same array, so the function reorders the array of its caller;
    with fewer than two check-ins it throws before the sort.  The result
    is the one of [AdjustmentEngine.analyzeCheckInProgress], which reads
    the sorted array and nothing else. *)
Definition analyzeCheckInProgress (recentCheckIns : list CheckInData)
    (expectedWeeklyChange : number) (goal : Goal) (currentCalories : number)
    (gender : Gender) : Outcome :=
  if Array_length recentCheckIns <? 2 then
    {| result := Throw "Need at least 2 check-ins to analyze progress";
       recentCheckInsAfter := recentCheckIns |}
  else
    (* most recent first, in place *)
    let sorted :=
      Array_sort (fun a b => getTime b - getTime a) recentCheckIns in
    {| result :=
         AdjustmentEngine.analyzeCheckInProgress recentCheckIns
           expectedWeeklyChange goal currentCalories gender;
       recentCheckInsAfter := sorted |}.

End AdjustmentEngineInPlace.

(* ================================================================== *)
(** * validators/adjustment.validator.ts: stall detection on binary64 *)
(* ================================================================== *)

(** [detectStall] on the numbers of the code: IEEE 754 binary64, with the
    operations of the kernel's primitive floats.  A decimal literal
    denotes the nearest binary64 value, as in the source. *)
Module Binary64.

Import PrimFloat.

#[local] Set Warnings "-inexact-float".

(** Two-argument [Math.max] and [Math.min]: [NaN] is contagious and [+0]
    is larger than [-0]. *)
Definition Math_max (x y : float) : float :=
  if is_nan x || is_nan y then nan
  else if ltb x y then y
  else if ltb y x then x
  else if get_sign x then y else x.

Definition Math_min (x y : float) : float :=
  if is_nan x || is_nan y then nan
  else if ltb x y then x
  else if ltb y x then y
  else if get_sign x then x else y.

(** [Math.max(...xs)] and [Math.min(...xs)]: with no argument they are
    [-Infinity] and [Infinity]. *)
Definition Math_max_list (xs : list float) : float :=
  fold_left Math_max xs neg_infinity.

Definition Math_min_list (xs : list float) : float :=
  fold_left Math_min xs infinity.

(** [xs.length] as a number. *)
Definition Array_length {A : Type} (xs : list A) : float :=
  of_uint63 (Uint63.of_Z (Z.of_nat (List.length xs))).

Definition detectStall (recentWeights : list float) (threshold : float)
    : bool :=
  if ltb (Array_length recentWeights) threshold then false
  else
    let maxWeight := Math_max_list recentWeights in
    let minWeight := Math_min_list recentWeights in
    let range := sub maxWeight minWeight in
    ltb range 0.3%float.

Definition detectStall_default (recentWeights : list float) : bool :=
  detectStall recentWeights 3%float.

(** Two histories that span 0.3 kg as decimals. *)
Definition from_80_to_80_3 : list float := [80; 80.3; 80.1; 80.2]%float.

Definition from_80_1_to_80_4 : list float := [80.1; 80.4; 80.2; 80.3]%float.

End Binary64.

(* ================================================================== *)
(** * Vocabulary of the properties *)
(* ================================================================== *)

(** The sex-specific calorie floor, kcal per day. *)
Definition sexFloor (gender : Gender) : Q :=
  match gender with
  | male => 1500
  | female => 1200
  end.

(** The weight-loss deficit that the 20 percent rule alone would give for
    an integer TDEE, and the muscle-gain surplus of the 8 percent rule. *)
Definition percentDeficit (tdee : Z) : Z :=
  (- Qfloor (inject_Z tdee * -0.20 + (1 # 2)))%Z.

Definition percentSurplus (tdee : Z) : Z :=
  Qfloor (inject_Z tdee * 0.08 + (1 # 2)).

(** The Mifflin-St Jeor value, not rounded. *)
Definition mifflinStJeor (weight height age : number) (isMale : bool)
    : number :=
  10 * weight + 6.25 * height - 5 * age + (if isMale then 5 else -161).

(** A check-in history, most recent first. *)
Definition mostRecentFirst
    (recentCheckIns : list AdjustmentEngine.CheckInData)
    : list AdjustmentEngine.CheckInData :=
  Array_sort
    (fun a b => AdjustmentEngine.getTime b - AdjustmentEngine.getTime a)
    recentCheckIns.

(** [a] was recorded no earlier than [b]. *)
Definition notEarlier (a b : AdjustmentEngine.CheckInData) : Prop :=
  (AdjustmentEngine.createdAt b <= AdjustmentEngine.createdAt a)%Z.

(** The recommendation that [analyzeCheckInProgress] obtains from
    [analyzeProgress] for the two most recent check-ins. *)
Definition recommendationFor
    (current previous : AdjustmentEngine.CheckInData)
    (expectedWeeklyChange : number) (goal : Goal)
    : AdjustmentValidator.AdjustmentRecommendation :=
  let weeks :=
    (AdjustmentEngine.getTime current - AdjustmentEngine.getTime previous)
    / AdjustmentEngine.MS_PER_WEEK in
  AdjustmentValidator.analyzeProgress
    {| AdjustmentValidator.currentWeight := AdjustmentEngine.weight current;
       AdjustmentValidator.previousWeight :=
         AdjustmentEngine.weight previous;
       AdjustmentValidator.weeksSinceLastCheckin := weeks;
       AdjustmentValidator.goal := goal |}
    expectedWeeklyChange.

(** Two check-ins one week apart, 80 kg and then 80.5 kg. *)
Definition twoCheckIns : list AdjustmentEngine.CheckInData :=
  [ {| AdjustmentEngine.weight := 80;
       AdjustmentEngine.createdAt := 0;
       AdjustmentEngine.energyLevel := None;
       AdjustmentEngine.hungerLevel := None;
       AdjustmentEngine.stressLevel := None |};
    {| AdjustmentEngine.weight := 80.5;
       AdjustmentEngine.createdAt := 604800000;
       AdjustmentEngine.energyLevel := None;
       AdjustmentEngine.hungerLevel := None;
       AdjustmentEngine.stressLevel := None |} ].

(** Four weekly check-ins whose weights lie within 0.25 kg. *)
Definition fourCheckIns : list AdjustmentEngine.CheckInData :=
  [ {| AdjustmentEngine.weight := 80;
       AdjustmentEngine.createdAt := 0;
       AdjustmentEngine.energyLevel := None;
       AdjustmentEngine.hungerLevel := None;
       AdjustmentEngine.stressLevel := None |};
    {| AdjustmentEngine.weight := 80.2;
       AdjustmentEngine.createdAt := 604800000;
       AdjustmentEngine.energyLevel := None;
       AdjustmentEngine.hungerLevel := None;
       AdjustmentEngine.stressLevel := None |};
    {| AdjustmentEngine.weight := 80.1;
       AdjustmentEngine.createdAt := 1209600000;
       AdjustmentEngine.energyLevel := None;
       AdjustmentEngine.hungerLevel := None;
       AdjustmentEngine.stressLevel := None |};
    {| AdjustmentEngine.weight := 80.25;
       AdjustmentEngine.createdAt := 1814400000;
       AdjustmentEngine.energyLevel := None;
       AdjustmentEngine.hungerLevel := None;
       AdjustmentEngine.stressLevel := None |} ].

(** A rule pack with the default calorie floors; the other values stand
    for those of [rule-pack-v1.json]. *)
Definition sampleRulePack : RulePackTypes.RulePack :=
  {| RulePackTypes.safetyConstraints :=
       {| RulePackTypes.calorieFloor :=
            {| RulePackTypes.female := 1200; RulePackTypes.male := 1500 |};
          RulePackTypes.maxDeficitPercent := 25;
          RulePackTypes.maxSurplusPercent := 15 |};
     RulePackTypes.trendAnalysis :=
       {| RulePackTypes.minimumConfidenceForAction := 0.6 |} |}.

(** A critical-risk request in a cut. *)
Definition criticalParams : ActionSelector.Params :=
  {| ActionSelector.trend := ActionSelector.decreasing;
     ActionSelector.riskLevel := ActionSelector.critical;
     ActionSelector.confidence := 0.9;
     ActionSelector.currentMode := "CUT_ACTIVE";
     ActionSelector.userContext :=
       {| ActionSelector.currentCalories := 2000;
          ActionSelector.tdee := 2500;
          ActionSelector.weight := 80;
          ActionSelector.sex := "male";
          ActionSelector.goal := "weight_loss" |} |}.

(** The outcomes of the progress analysis: goal, pattern and
    recommended calorie change. *)
Definition progressOutcomes
    : list (Goal * AdjustmentValidator.Pattern * number) :=
  [ (weight_loss, AdjustmentValidator.too_fast, Fin 200);
    (weight_loss, AdjustmentValidator.too_slow, Fin (-200));
    (weight_loss, AdjustmentValidator.reversed, Fin (-150));
    (weight_loss, AdjustmentValidator.on_track, Fin 0);
    (muscle_gain, AdjustmentValidator.too_fast, Fin (-100));
    (muscle_gain, AdjustmentValidator.too_slow, Fin 150);
    (muscle_gain, AdjustmentValidator.reversed, Fin 200);
    (muscle_gain, AdjustmentValidator.on_track, Fin 0);
    (maintenance, AdjustmentValidator.too_fast, Fin 100);
    (maintenance, AdjustmentValidator.too_slow, Fin (-100));
    (maintenance, AdjustmentValidator.on_track, Fin 0) ].

(** The calorie changes that occur in [progressOutcomes]. *)
Definition recommendedChanges : list Q :=
  [0; 200; -200; -150; -100; 150; 100]%Q.

(** [a] was recorded strictly later than [b]. *)
Definition strictlyLater (a b : AdjustmentEngine.CheckInData) : Prop :=
  (AdjustmentEngine.createdAt b < AdjustmentEngine.createdAt a)%Z.

(** The order of the activity levels. *)
Definition activityRank (level : ActivityLevel) : nat :=
  match level with
  | sedentary => 0
  | light => 1
  | moderate => 2
  | active => 3
  | very_active => 4
  end.

(** ['male'] and ['female'] as the strings of the plan builder. *)
Definition sexName (gender : Gender) : string :=
  match gender with
  | male => "male"
  | female => "female"
  end.

(** The training days after the limit for minimal equipment, and the days
    of the program that the fallback rules name for them. *)
Definition adjustedDays (input : TrainingPlanGenerator.TrainingPlanInput)
    : number :=
  if TrainingPlanGenerator.Equipment_eqb
       (TrainingPlanGenerator.equipment input) TrainingPlanGenerator.minimal
     && (TrainingPlanGenerator.daysPerWeek input >? 4)
  then Fin 4 else TrainingPlanGenerator.daysPerWeek input.

Definition programDays (level : TrainingPlanGenerator.ExperienceLevel)
    (days : number) : number :=
  match level with
  | TrainingPlanGenerator.beginner => if days >=? 4 then 4 else 3
  | TrainingPlanGenerator.intermediate =>
      if days >=? 6 then 6 else if days >=? 5 then 5 else 4
  | TrainingPlanGenerator.advanced => if days >=? 6 then 6 else 5
  end.




(** [a] was recorded no later than [b]. *)
Definition notLater (a b : SignalInterpreter.CheckinData) : Prop :=
  (SignalInterpreter.createdAt a <= SignalInterpreter.createdAt b)%Z.

(** The trend that [analyzeTrend] names for a change of weight. *)
Definition trendOf (plateauThreshold weightChange : number)
    : ActionSelector.Trend :=
  if Math_abs weightChange <=? plateauThreshold then ActionSelector.stable
  else if weightChange <? 0 then ActionSelector.decreasing
  else ActionSelector.increasing.


(** A number that is neither infinite nor [NaN]. *)
Definition isFinite (x : number) : Prop := exists q : Q, x = Fin q.

(** The rule pack holds finite numbers where the confidence score reads
    it directly. *)
Definition finiteConfidenceRules (rulePack : SignalInterpreter.RulePackView)
    : Prop :=
  isFinite (SignalInterpreter.trendWindow rulePack)
  /\ isFinite (SignalInterpreter.weight_adherence rulePack)
  /\ isFinite (SignalInterpreter.weight_dataQuality rulePack)
  /\ isFinite (SignalInterpreter.weight_eventImpact rulePack).

(** A key that a map of the rule pack holds with a finite value, or that
    no object holds. *)
Definition knownKey (table : string -> option number) (key : string)
    : Prop :=
  match table key with
  | Some value => isFinite value
  | None => inheritedKey key = false
  end.

(** The adherence levels and the events of the check-ins are known
    keys. *)
Definition knownSignals (rulePack : SignalInterpreter.RulePackView)
    (checkins : list SignalInterpreter.CheckinData) : Prop :=
  forall c, In c checkins ->
    knownKey (SignalInterpreter.adherenceMapping rulePack)
      (SignalInterpreter.adherence c)
    /\ forall event, In event (SignalInterpreter.events c) ->
         knownKey (SignalInterpreter.eventImpact rulePack) event.

(** The order of the risk levels. *)
Definition riskRank (level : ActionSelector.RiskLevel) : nat :=
  match level with
  | ActionSelector.low => 0
  | ActionSelector.moderate => 1
  | ActionSelector.high => 2
  | ActionSelector.critical => 3
  end.

(** The rule pack weighs the four signals by [we], [wh], [ws] and [wst]
    and has the thresholds [m], [h] and [c]. *)
Definition riskRules (rulePack : SignalInterpreter.RulePackView)
    (we wh ws wst m h c : Q) : Prop :=
  SignalInterpreter.risk_weight_energy rulePack = Fin we
  /\ SignalInterpreter.risk_weight_hunger rulePack = Fin wh
  /\ SignalInterpreter.risk_weight_sleep rulePack = Fin ws
  /\ SignalInterpreter.risk_weight_stress rulePack = Fin wst
  /\ SignalInterpreter.moderate_min rulePack = Fin m
  /\ SignalInterpreter.high_min rulePack = Fin h
  /\ SignalInterpreter.critical_min rulePack = Fin c.

(** A rule pack for the examples. *)
Definition sampleSignalRules : SignalInterpreter.RulePackView :=
  {| SignalInterpreter.trendWindow := 3;
     SignalInterpreter.plateau_maxWeightChange := 0.3;
     SignalInterpreter.plateau_minAdherence := 80;
     SignalInterpreter.weight_adherence := 0.5;
     SignalInterpreter.weight_dataQuality := 0.3;
     SignalInterpreter.weight_eventImpact := 0.2;
     SignalInterpreter.adherenceMapping :=
       (fun key =>
          if String.eqb key "high" then Some (Fin 1.0)
          else if String.eqb key "medium" then Some (Fin 0.7)
          else if String.eqb key "low" then Some (Fin 0.3)
          else None);
     SignalInterpreter.eventImpact :=
       (fun key =>
          if String.eqb key "illness" then Some (Fin 0.3)
          else if String.eqb key "travel" then Some (Fin 0.2)
          else None);
     SignalInterpreter.risk_weight_energy := 0.3;
     SignalInterpreter.risk_weight_hunger := 0.2;
     SignalInterpreter.risk_weight_sleep := 0.3;
     SignalInterpreter.risk_weight_stress := 0.2;
     SignalInterpreter.low_action := "continue";
     SignalInterpreter.moderate_min := 3;
     SignalInterpreter.moderate_action := "monitor";
     SignalInterpreter.high_min := 5;
     SignalInterpreter.high_action := "hold";
     SignalInterpreter.critical_min := 7;
     SignalInterpreter.critical_action := "increase";
     SignalInterpreter.recomp_minWaistDecrease := 1 |}.

(** Three weekly check-ins, passed newest first. *)
Definition threeSignals : list SignalInterpreter.CheckinData :=
  [ SignalInterpreter.mkCheckinData 79.5 None 6 5 7 4 "high" []
      1209600000;
    SignalInterpreter.mkCheckinData 80.2 None 6 5 7 4 "medium" ["travel"%string]
      604800000;
    SignalInterpreter.mkCheckinData 80 None 6 5 7 4 "high" [] 0 ].

(** The programs of the plan builder with their descriptions. *)
Definition builderPrograms : list (string * string) :=
  [ ("beginner_upper_lower"%string,
     "4-day Upper/Lower split for beginners"%string);
    ("intermediate_ppl"%string, "6-day Push/Pull/Legs split"%string);
    ("advanced_upper_lower"%string,
     "5-day Upper/Lower with specialization"%string) ].


(* ================================================================== *)
(** * Facts about numbers *)
(* ================================================================== *)

Section NumberFacts.

Lemma Qltb_spec (x y : Q) : reflect (x < y)%Q (Qltb x y).
Proof.
  unfold Qltb. destruct (Qle_bool y x) eqn:E; constructor.
  - apply Qle_bool_iff in E. lra.
  - assert (~ (y <= x)%Q) by (rewrite <- Qle_bool_iff; congruence). lra.
Qed.

Lemma Qleb_spec (x y : Q) : reflect (x <= y)%Q (Qle_bool x y).
Proof.
  destruct (Qle_bool x y) eqn:E; constructor.
  - now apply Qle_bool_iff.
  - rewrite <- Qle_bool_iff. congruence.
Qed.

Lemma Qeqb_spec (x y : Q) : reflect (x == y)%Q (Qeq_bool x y).
Proof.
  destruct (Qeq_bool x y) eqn:E; constructor.
  - now apply Qeq_bool_iff.
  - rewrite <- Qeq_bool_iff. congruence.
Qed.

Lemma Qsign_spec (q : Q) :
  match Qsign q with
  | Lt => (0 < q)%Q
  | Eq => (q == 0)%Q
  | Gt => (q < 0)%Q
  end.
Proof.
  unfold Qsign. destruct (0 ?= q)%Q eqn:E.
  - apply Qeq_alt in E. lra.
  - now apply Qlt_alt in E.
  - now apply Qgt_alt in E.
Qed.

(** [Math.round] of a rational lies within one half of it. *)
Lemma round_bounds (q : Q) :
  (q - (1 # 2) < inject_Z (Qfloor (q + (1 # 2))) <= q + (1 # 2))%Q.
Proof.
  pose proof (Qfloor_le (q + (1 # 2))) as Hle.
  pose proof (Qlt_floor (q + (1 # 2))) as Hlt.
  rewrite inject_Z_plus in Hlt. change (inject_Z 1) with 1%Q in Hlt.
  lra.
Qed.

(** Rounding an integer leaves it unchanged. *)
Lemma round_integer (z : Z) : Qfloor (inject_Z z + (1 # 2)) = z.
Proof.
  pose proof (round_bounds (inject_Z z)) as [Hlo Hhi].
  set (r := Qfloor (inject_Z z + (1 # 2))) in *.
  assert (Hlo' : (inject_Z (z + -1) < inject_Z r)%Q).
  { rewrite inject_Z_plus. change (inject_Z (-1)) with (-1)%Q. lra. }
  assert (Hhi' : (inject_Z r < inject_Z (z + 1))%Q).
  { rewrite inject_Z_plus. change (inject_Z 1) with 1%Q. lra. }
  rewrite <- Zlt_Qlt in Hlo', Hhi'. lia.
Qed.

(** A comparison that succeeds is not contradicted by its converse. *)
Lemma leb_true_ltb_false (x y : number) :
  (x <=? y) = true -> (y <? x) = false.
Proof.
  destruct x as [a| | |], y as [b| | |]; simpl; try congruence.
  destruct (Qleb_spec a b), (Qltb_spec b a); try congruence. lra.
Qed.

End NumberFacts.

(** Case analysis on the next rational comparison of the goal. *)
Ltac case_cmp :=
  match goal with
  | |- context [Qltb ?a ?b] => destruct (Qltb_spec a b)
  | |- context [Qle_bool ?a ?b] => destruct (Qleb_spec a b)
  | |- context [Qeq_bool ?a ?b] => destruct (Qeqb_spec a b)
  end.

(* ================================================================== *)
(** * Energy balance: the absolute caps on deficit and surplus *)
(* ================================================================== *)

Section EnergyBalanceFacts.

Import EnergyBalance.

#[local] Arguments Qplus : simpl never.
#[local] Arguments Qmult : simpl never.
#[local] Arguments Qopp : simpl never.
#[local] Arguments Qabs : simpl never.
#[local] Arguments Qfloor : simpl never.
#[local] Arguments inject_Z : simpl never.
#[local] Arguments Qle_bool : simpl never.

Lemma inject_Z_pos (z : Z) : (0 < z)%Z -> (0 < inject_Z z)%Q.
Proof. intros H. change 0%Q with (inject_Z 0). now rewrite <- Zlt_Qlt. Qed.

Lemma round_sum_integers (a b c : Z) :
  (a + b = c)%Z ->
  Math_round (Fin (inject_Z a + inject_Z b)) = Fin (inject_Z c).
Proof.
  intros <-. simpl. do 2 f_equal.
  rewrite <- (round_integer (a + b)). rewrite inject_Z_plus. reflexivity.
Qed.

(** For an integer TDEE the target is the TDEE less the smaller of the
    percentage deficit and the cap. *)
Lemma targetCalories_weight_loss_integer (z : Z) (w : number) :
  targetCalories
    (calculateTargetCalories
       {| tdee := inject_Z z; goal := weight_loss; weight := w |})
  = Fin (inject_Z (z - Z.min (percentDeficit z) 500)).
Proof.
  unfold calculateTargetCalories, percentDeficit. simpl.
  set (d := Qfloor (inject_Z z * -0.20 + (1 # 2))).
  change (- (500))%Q with (inject_Z (-500)).
  destruct (Qleb_spec (inject_Z d) (inject_Z (-500))) as [H|H];
    rewrite <- Zle_Qle in H; cbv iota; apply round_sum_integers; lia.
Qed.

Lemma targetCalories_muscle_gain_integer (z : Z) (w : number) :
  targetCalories
    (calculateTargetCalories
       {| tdee := inject_Z z; goal := muscle_gain; weight := w |})
  = Fin (inject_Z (z + Z.min (percentSurplus z) 300)).
Proof.
  unfold calculateTargetCalories, percentSurplus. simpl.
  set (d := Qfloor (inject_Z z * 0.08 + (1 # 2))).
  change (300)%Q with (inject_Z 300).
  destruct (Qleb_spec (inject_Z d) (inject_Z 300)) as [H|H];
    rewrite <- Zle_Qle in H; cbv iota; apply round_sum_integers; lia.
Qed.

Lemma percentDeficit_nonneg (z : Z) : (0 < z)%Z -> (0 <= percentDeficit z)%Z.
Proof.
  intros Hz. unfold percentDeficit. apply inject_Z_pos in Hz.
  pose proof (Qfloor_le (inject_Z z * -0.20 + (1 # 2))) as Hle.
  assert (H1 : (inject_Z (Qfloor (inject_Z z * -0.20 + (1 # 2)))
                < inject_Z 1)%Q).
  { change (inject_Z 1) with 1%Q. lra. }
  rewrite <- Zlt_Qlt in H1. lia.
Qed.

Lemma percentSurplus_nonneg (z : Z) : (0 < z)%Z -> (0 <= percentSurplus z)%Z.
Proof.
  intros Hz. unfold percentSurplus. apply inject_Z_pos in Hz.
  pose proof (Qlt_floor (inject_Z z * 0.08 + (1 # 2))) as Hlt.
  assert (H1 : (inject_Z 0
                < inject_Z (Qfloor (inject_Z z * 0.08 + (1 # 2)) + 1))%Q).
  { change (inject_Z 0) with 0%Q. lra. }
  rewrite <- Zlt_Qlt in H1. lia.
Qed.

(** For every finite positive TDEE, integer or not, the signed [deficit]
    field respects the caps; the rounded target then lies within half a
    kcal of TDEE + deficit. *)
Lemma deficit_field_weight_loss (q : Q) (w : number) :
  (0 < q)%Q ->
  exists d t : Q,
    deficit (calculateTargetCalories
               {| tdee := q; goal := weight_loss; weight := w |}) = Fin d
    /\ targetCalories
         (calculateTargetCalories
            {| tdee := q; goal := weight_loss; weight := w |}) = Fin t
    /\ (-500 <= d <= 0)%Q
    /\ (q - t < 500 + (1 # 2))%Q.
Proof.
  intros Hq. unfold calculateTargetCalories. simpl.
  pose proof (round_bounds (q * -0.20)) as [_ Hhi].
  set (d := Qfloor (q * -0.20 + (1 # 2))) in *.
  assert (Hd : (inject_Z d <= 0)%Q).
  { assert (H1 : (inject_Z d < inject_Z 1)%Q).
    { change (inject_Z 1) with 1%Q. lra. }
    rewrite <- Zlt_Qlt in H1. change 0%Q with (inject_Z 0).
    rewrite <- Zle_Qle. lia. }
  destruct (Qleb_spec (inject_Z d) (- (500))) as [H|H]; cbv iota;
    do 2 eexists; (split; [reflexivity|]); (split; [reflexivity|]);
    (split; [lra|]);
    match goal with
    | |- context [Qfloor (?x + (1 # 2))] =>
        pose proof (round_bounds x) as [Hlo' _]
    end; lra.
Qed.

Lemma deficit_field_muscle_gain (q : Q) (w : number) :
  (0 < q)%Q ->
  exists d t : Q,
    deficit (calculateTargetCalories
               {| tdee := q; goal := muscle_gain; weight := w |}) = Fin d
    /\ targetCalories
         (calculateTargetCalories
            {| tdee := q; goal := muscle_gain; weight := w |}) = Fin t
    /\ (0 <= d <= 300)%Q
    /\ (t - q <= 300 + (1 # 2))%Q.
Proof.
  intros Hq. unfold calculateTargetCalories. simpl.
  pose proof (round_bounds (q * 0.08)) as [Hlo _].
  set (d := Qfloor (q * 0.08 + (1 # 2))) in *.
  assert (Hd : (0 <= inject_Z d)%Q).
  { assert (H1 : (inject_Z (-1) < inject_Z d)%Q).
    { change (inject_Z (-1)) with (-1)%Q. lra. }
    rewrite <- Zlt_Qlt in H1. change 0%Q with (inject_Z 0).
    rewrite <- Zle_Qle. lia. }
  destruct (Qleb_spec (inject_Z d) 300) as [H|H]; cbv iota;
    do 2 eexists; (split; [reflexivity|]); (split; [reflexivity|]);
    (split; [lra|]);
    match goal with
    | |- context [Qfloor (?x + (1 # 2))] =>
        pose proof (round_bounds x) as [_ Hhi']
    end; lra.
Qed.

(** C1 (as amended).  For every integer TDEE > 0 and any weight,
    [calculateTargetCalories] applies the percentage of the goal and the
    absolute cap, and the tighter one wins: for [weight_loss] the deficit
    TDEE - targetCalories is the smaller of the rounded 20 percent deficit
    and 500, so it never exceeds 500 kcal; for [muscle_gain] the surplus
    targetCalories - TDEE is the smaller of the rounded 8 percent surplus
    and 300, so it never exceeds 300 kcal.  For every TDEE > 0, integer or
    not, the signed [deficit] field stays within [-500, 0] for
    [weight_loss] and within [0, 300] for [muscle_gain], and the rounding
    of the target moves TDEE - targetCalories and targetCalories - TDEE at
    most half a kcal past the cap.  For [weight_loss] at TDEE = 2759 the
    target is 2259. *)
Theorem target_calories_respect_caps :
  (forall (z : Z) (w : number),
      (0 < z)%Z ->
      (exists t : Z,
          targetCalories
            (calculateTargetCalories
               {| tdee := inject_Z z; goal := weight_loss; weight := w |})
          = Fin (inject_Z t)
          /\ (z - t = Z.min (percentDeficit z) 500)%Z
          /\ (0 <= z - t <= 500)%Z)
      /\ (exists t : Z,
          targetCalories
            (calculateTargetCalories
               {| tdee := inject_Z z; goal := muscle_gain; weight := w |})
          = Fin (inject_Z t)
          /\ (t - z = Z.min (percentSurplus z) 300)%Z
          /\ (0 <= t - z <= 300)%Z))
  /\ (forall (q : Q) (w : number),
      (0 < q)%Q ->
      (exists d t : Q,
          deficit
            (calculateTargetCalories
               {| tdee := q; goal := weight_loss; weight := w |}) = Fin d
          /\ targetCalories
               (calculateTargetCalories
                  {| tdee := q; goal := weight_loss; weight := w |}) = Fin t
          /\ (-500 <= d <= 0)%Q
          /\ (q - t < 500 + (1 # 2))%Q)
      /\ (exists d t : Q,
          deficit
            (calculateTargetCalories
               {| tdee := q; goal := muscle_gain; weight := w |}) = Fin d
          /\ targetCalories
               (calculateTargetCalories
                  {| tdee := q; goal := muscle_gain; weight := w |}) = Fin t
          /\ (0 <= d <= 300)%Q
          /\ (t - q <= 300 + (1 # 2))%Q))
  /\ (forall w : number,
      targetCalories
        (calculateTargetCalories
           {| tdee := 2759; goal := weight_loss; weight := w |})
      = Fin 2259).
Proof.
  split; [|split].
  - intros z w Hz. split.
    + exists (z - Z.min (percentDeficit z) 500)%Z.
      pose proof (percentDeficit_nonneg Hz).
      split; [apply targetCalories_weight_loss_integer | lia].
    + exists (z + Z.min (percentSurplus z) 300)%Z.
      pose proof (percentSurplus_nonneg Hz).
      split; [apply targetCalories_muscle_gain_integer | lia].
  - intros q w Hq. split.
    + now apply deficit_field_weight_loss.
    + now apply deficit_field_muscle_gain.
  - intros w. reflexivity.
Qed.

Lemma target_calories_respect_caps_witness :
  ((0 < 2759)%Z
   /\ exists t : Z,
       targetCalories
         (calculateTargetCalories
            {| tdee := inject_Z 2759; goal := weight_loss; weight := 80 |})
       = Fin (inject_Z t)
       /\ (2759 - t = Z.min (percentDeficit 2759) 500)%Z
       /\ (0 <= 2759 - t <= 500)%Z)
  /\ ((0 < 3000.25)%Q
      /\ exists d t : Q,
          deficit
            (calculateTargetCalories
               {| tdee := 3000.25; goal := weight_loss; weight := 80 |})
          = Fin d
          /\ targetCalories
               (calculateTargetCalories
                  {| tdee := 3000.25; goal := weight_loss; weight := 80 |})
             = Fin t
          /\ (-500 <= d <= 0)%Q
          /\ (3000.25 - t < 500 + (1 # 2))%Q).
Proof.
  destruct target_calories_respect_caps as (Hinteger & Hany & _).
  split; (split; [reflexivity|]).
  - apply (Hinteger 2759%Z 80). reflexivity.
  - apply (Hany 3000.25%Q 80). reflexivity.
Defined.

(** At the fractional TDEE 3000.25 the rounded target is 2500, which
    lies 500.25 kcal below the TDEE. *)
Lemma fractional_tdee_exceeds_cap :
  targetCalories
    (calculateTargetCalories
       {| tdee := 3000.25; goal := weight_loss; weight := 80 |})
  = Fin 2500
  /\ (0 < 3000.25)%Q
  /\ ~ (3000.25 - 2500 <= 500)%Q.
Proof.
  split; [reflexivity|]. split; [reflexivity|].
  intros H. apply H. reflexivity.
Qed.

(** Check-in driven adjustment of the calorie target. *)
Lemma adjustCalories_within_tolerance (currentCalories actualWeightChange
    expectedWeightChange : number) (goal : Goal) :
  (Math_abs (actualWeightChange - expectedWeightChange) <? 0.2) = true ->
  adjustCalories currentCalories actualWeightChange expectedWeightChange goal
  = currentCalories.
Proof. intros H. unfold adjustCalories. now rewrite H. Qed.

(** C6.  For every current calorie value, every goal and every actual and
    expected weekly weight change with |actual - expected| < 0.2 kg per
    week, [adjustCalories] returns the current calories unchanged. *)
Theorem adjustCalories_deadband (currentCalories : number)
    (actual expected : Q) (goal : Goal) :
  (Qabs (actual - expected) < 0.2)%Q ->
  adjustCalories currentCalories actual expected goal = currentCalories.
Proof.
  intros H. apply adjustCalories_within_tolerance. simpl.
  destruct (Qltb_spec (Qabs (actual + - expected)) 0.2) as [|Hn];
    [reflexivity | contradiction].
Qed.

Lemma adjustCalories_deadband_witness :
  (Qabs (-0.5 - -0.6) < 0.2)%Q
  /\ adjustCalories 2000 (-0.5)%Q (-0.6)%Q weight_loss = Fin 2000.
Proof.
  split; [reflexivity|].
  apply (@adjustCalories_deadband 2000 (-0.5) (-0.6) weight_loss).
  reflexivity.
Defined.

End EnergyBalanceFacts.

(* ================================================================== *)
(** * Safety validator: the calorie floor *)
(* ================================================================== *)

Section SafetyFacts.

Import SafetyValidator.

Lemma push_if_in {A : Type} (b : bool) (v w : A) (xs : list A) :
  In v xs -> In v (push_if b w xs).
Proof.
  unfold push_if. destruct b; [|trivial]. intros H. apply in_or_app. now left.
Qed.

Lemma is_nil_false_of_in {A : Type} (v : A) (xs : list A) :
  In v xs -> is_nil xs = false.
Proof. destruct xs; [contradiction | reflexivity]. Qed.

Lemma MIN_CALORIES_sexFloor (gender : Gender) :
  MIN_CALORIES gender = Fin (sexFloor gender).
Proof. destruct gender; reflexivity. Qed.

(** The first check decides whether the floor violation is reported; the
    later checks only append. *)
Lemma floor_violation_reported (calories protein weight : number)
    (gender : Gender) (tdee : number) (goal : Goal) :
  (calories <? MIN_CALORIES gender) = true ->
  In (CaloriesBelowMinimum calories (MIN_CALORIES gender))
     (violations
        (validateNutritionPlan calories protein weight gender tdee goal)).
Proof.
  intros H. unfold validateNutritionPlan. cbn [violations]. rewrite H.
  set (first := push_if true _ []).
  assert (Hin : In (CaloriesBelowMinimum calories (MIN_CALORIES gender))
                  first) by (simpl; auto).
  clearbody first.
  destruct (Goal_eqb goal weight_loss), (Goal_eqb goal muscle_gain);
    repeat apply push_if_in; exact Hin.
Qed.

Lemma valid_plan_passes_floor_check (calories protein weight : number)
    (gender : Gender) (tdee : number) (goal : Goal) :
  isValid (validateNutritionPlan calories protein weight gender tdee goal)
  = true ->
  (calories <? MIN_CALORIES gender) = false.
Proof.
  intros Hvalid.
  destruct (calories <? MIN_CALORIES gender) eqn:E; [|reflexivity].
  pose proof (floor_violation_reported calories protein weight gender tdee
                goal E) as Hin.
  apply is_nil_false_of_in in Hin.
  unfold validateNutritionPlan in *. cbn [isValid violations] in *.
  congruence.
Qed.

(** C2 (as amended).  For every plan checked by [validateNutritionPlan]
    (any calories, protein, weight, gender, TDEE and goal): if the
    calories are below the sex-specific floor (1500 male, 1200 female) the
    result contains the floor violation and [isValid] is false;
    conversely, whenever [isValid] is true and the calories are not
    [NaN], the calories are at least that floor. *)
Theorem calorie_floor_violation (calories protein weight : number)
    (gender : Gender) (tdee : number) (goal : Goal) :
  let result :=
    validateNutritionPlan calories protein weight gender tdee goal in
  ((calories <? sexFloor gender) = true ->
     In (CaloriesBelowMinimum calories (sexFloor gender)) (violations result)
     /\ isValid result = false)
  /\ (isValid result = true -> calories <> NaN ->
      (calories >=? sexFloor gender) = true).
Proof.
  intros result. split.
  - intros Hlt. rewrite <- MIN_CALORIES_sexFloor in *.
    pose proof (floor_violation_reported calories protein weight gender
                  tdee goal Hlt) as Hin.
    split; [exact Hin|].
    apply is_nil_false_of_in in Hin. exact Hin.
  - intros Hvalid Hnan. apply valid_plan_passes_floor_check in Hvalid.
    rewrite MIN_CALORIES_sexFloor in Hvalid. unfold geb.
    destruct calories as [c| | |]; simpl in *;
      try reflexivity; try discriminate; [|now contradiction Hnan].
    destruct (Qltb_spec c (sexFloor gender)); [discriminate|].
    destruct (Qleb_spec (sexFloor gender) c); [reflexivity | lra].
Qed.

Lemma calorie_floor_violation_witness :
  ((Fin 1400 <? sexFloor male) = true
   /\ In (CaloriesBelowMinimum 1400 1500)
        (violations
           (validateNutritionPlan 1400 160 80 male 1900 weight_loss))
   /\ isValid (validateNutritionPlan 1400 160 80 male 1900 weight_loss)
      = false)
  /\ (isValid (validateNutritionPlan 1600 160 80 male 2000 weight_loss)
      = true
      /\ Fin 1600 <> NaN
      /\ (Fin 1600 >=? sexFloor male) = true).
Proof.
  split.
  - split; [reflexivity|].
    apply (calorie_floor_violation 1400 160 80 male 1900 weight_loss).
    reflexivity.
  - split; [reflexivity|]. split; [discriminate|].
    apply (calorie_floor_violation 1600 160 80 male 2000 weight_loss);
      [reflexivity | discriminate].
Defined.

(** A plan whose calories are [NaN] passes every check, the floor check
    included: each check is a comparison, and every comparison with [NaN]
    is false.  The plan is valid although its calories are not at or above
    the floor. *)
Lemma nan_calories_pass_the_floor_check :
  isValid (validateNutritionPlan NaN 160 80 male 2000 weight_loss) = true
  /\ violations (validateNutritionPlan NaN 160 80 male 2000 weight_loss)
     = []
  /\ (NaN >=? sexFloor male) = false.
Proof. repeat split. Qed.

End SafetyFacts.

(* ================================================================== *)
(** * Macro calculator: carbohydrates and the 5 percent check *)
(* ================================================================== *)

Section MacroFacts.

Import MacroCalculator.

#[local] Arguments Qplus : simpl never.
#[local] Arguments Qmult : simpl never.
#[local] Arguments Qopp : simpl never.
#[local] Arguments Qminus : simpl never.
#[local] Arguments Qdiv : simpl never.
#[local] Arguments Qfloor : simpl never.
#[local] Arguments inject_Z : simpl never.
#[local] Arguments Qle_bool : simpl never.
#[local] Arguments Qabs : simpl never.

Lemma Qdiv_4 (x : Q) : (x / 4 == x * (1 # 4))%Q.
Proof. reflexivity. Qed.

Lemma calculateProtein_finite (w : Q) (g : Goal) :
  exists p : Q, calculateProtein w g = Fin p.
Proof. destruct g; eexists; reflexivity. Qed.

Lemma calculateFat_finite (w : Q) (g : Goal) :
  exists f : Q, calculateFat w g = Fin f.
Proof. destruct g; eexists; reflexivity. Qed.

(** Carbohydrates fill what protein and fat leave of the target, to the
    nearest gram, and are zero when nothing is left. *)
Lemma calculateCarbs_finite (T p f : Q) :
  exists c : Q,
    calculateCarbs T p f = Fin c
    /\ (0 <= c)%Q
    /\ (0 <= T - p * 4 - f * 9 ->
        T - p * 4 - f * 9 - 2 < c * 4 <= T - p * 4 - f * 9 + 2)%Q
    /\ (T - p * 4 - f * 9 < 0 -> c == 0)%Q.
Proof.
  unfold calculateCarbs. simpl.
  pose proof (round_bounds ((T + - (p * 4) + - (f * 9)) / 4)) as [Hlo Hhi].
  pose proof (Qdiv_4 (T + - (p * 4) + - (f * 9))) as Hdiv.
  set (k := Qfloor ((T + - (p * 4) + - (f * 9)) / 4 + (1 # 2))) in *.
  assert (Hint : (T - p * 4 - f * 9 < 0 -> inject_Z k <= 0)%Q).
  { intros Hr.
    assert (H1 : (inject_Z k < inject_Z 1)%Q).
    { change (inject_Z 1) with 1%Q. lra. }
    rewrite <- Zlt_Qlt in H1. change 0%Q with (inject_Z 0).
    rewrite <- Zle_Qle. lia. }
  destruct (Qleb_spec 0 (inject_Z k)) as [H|H]; eexists;
    (split; [reflexivity|]); (split; [lra|]); split; intros Hr;
    try specialize (Hint Hr); try lra.
Qed.

Lemma validateMacros_finite (p f c T : Q) :
  validateMacros
    {| protein := p; fat := f; carbs := c;
       proteinCalories := Fin p * 4; fatCalories := Fin f * 9;
       carbsCalories := Fin c * 4 |} T
  = Qle_bool (Qabs (p * 4 + f * 9 + c * 4 + - T)) (T * 0.05).
Proof. reflexivity. Qed.

(** C3 (as amended).  For every input with weight > 0 and
    targetCalories > 0 and each of the three goals, [calculateMacros]
    returns finite gram values with carbohydrates never negative.  For a
    target of at least 40 kcal, [validateMacros] accepts the result
    exactly when the calories of protein and fat do not exceed the target
    by more than 5 percent (protein x 4 + fat x 9 <= 1.05 x
    targetCalories); beyond that the carbohydrates are clamped at zero
    and the check fails. *)
Theorem macros_reconstruct_target (w T : Q) (g : Goal) (a : ActivityLevel) :
  (0 < w)%Q -> (0 < T)%Q ->
  let result :=
    calculateMacros
      {| weight := w; targetCalories := T; goal := g; activityLevel := a |} in
  exists p f c : Q,
    protein result = Fin p /\ fat result = Fin f /\ carbs result = Fin c
    /\ (0 <= c)%Q
    /\ ((40 <= T)%Q ->
        (validateMacros result T = true <-> (p * 4 + f * 9 <= T * 1.05)%Q)).
Proof.
  intros Hw HT result. unfold result, calculateMacros.
  cbn [weight targetCalories goal protein fat carbs].
  destruct (calculateProtein_finite w g) as [p ->].
  destruct (calculateFat_finite w g) as [f ->].
  destruct (calculateCarbs_finite T p f) as [c (-> & Hc & Hfit & Hover)].
  exists p, f, c. repeat split; trivial.
  - rewrite validateMacros_finite. intros Hvalid.
    apply Qle_bool_iff, Qabs_Qle_condition in Hvalid. lra.
  - rewrite validateMacros_finite. intros Hle.
    apply Qle_bool_iff, Qabs_Qle_condition.
    destruct (Qlt_le_dec (T - p * 4 - f * 9) 0) as [Hneg|Hpos].
    + assert (c == 0)%Q by (apply Hover; exact Hneg). lra.
    + specialize (Hfit Hpos). lra.
Qed.

Lemma macros_reconstruct_target_witness :
  (0 < 80)%Q /\ (0 < 2000)%Q
  /\ exists p f c : Q,
       protein
         (calculateMacros
            {| weight := 80; targetCalories := 2000; goal := weight_loss;
               activityLevel := moderate |}) = Fin p
       /\ fat
            (calculateMacros
               {| weight := 80; targetCalories := 2000; goal := weight_loss;
                  activityLevel := moderate |}) = Fin f
       /\ carbs
            (calculateMacros
               {| weight := 80; targetCalories := 2000; goal := weight_loss;
                  activityLevel := moderate |}) = Fin c
       /\ (0 <= c)%Q
       /\ ((40 <= 2000)%Q ->
           (validateMacros
              (calculateMacros
                 {| weight := 80; targetCalories := 2000;
                    goal := weight_loss; activityLevel := moderate |}) 2000
            = true
            <-> (p * 4 + f * 9 <= 2000 * 1.05)%Q)).
Proof.
  split; [reflexivity|]. split; [reflexivity|].
  apply (@macros_reconstruct_target 80 2000 weight_loss moderate);
    reflexivity.
Defined.

(** The valid input of the test suite, 100 kg at 1500 kcal for weight
    loss: protein and fat alone carry 1770 kcal, the carbohydrates are
    clamped at zero and the 5 percent check fails. *)
Lemma macros_exceed_low_target :
  (0 < 100)%Q /\ (0 < 1500)%Q
  /\ protein
       (calculateMacros
          {| weight := 100; targetCalories := 1500; goal := weight_loss;
             activityLevel := sedentary |}) = Fin 240
  /\ fat
       (calculateMacros
          {| weight := 100; targetCalories := 1500; goal := weight_loss;
             activityLevel := sedentary |}) = Fin 90
  /\ carbs
       (calculateMacros
          {| weight := 100; targetCalories := 1500; goal := weight_loss;
             activityLevel := sedentary |}) = Fin 0
  /\ validateMacros
       (calculateMacros
          {| weight := 100; targetCalories := 1500; goal := weight_loss;
             activityLevel := sedentary |}) 1500 = false.
Proof. vm_compute. repeat split; reflexivity. Qed.

End MacroFacts.

(* ================================================================== *)
(** * Progress analysis for the weight-loss goal *)
(* ================================================================== *)

Section ProgressFacts.

Import AdjustmentValidator.

#[local] Arguments Qplus : simpl never.
#[local] Arguments Qmult : simpl never.
#[local] Arguments Qopp : simpl never.
#[local] Arguments Qminus : simpl never.
#[local] Arguments Qfloor : simpl never.
#[local] Arguments inject_Z : simpl never.
#[local] Arguments Qle_bool : simpl never.
#[local] Arguments Qabs : simpl never.

(** The weight-loss branch compares the distance to the expected change
    before it looks at the sign: a change more than 0.3 kg per week above
    the expected one is [too_slow] with the full 200 kcal decrease, gain of
    weight or not. *)
Lemma weight_loss_above_expected_is_too_slow (actual expected : Q) :
  (expected + 0.3 < actual)%Q ->
  pattern (analyzeWeightLossProgress actual expected) = too_slow
  /\ recommendedCalorieChange (analyzeWeightLossProgress actual expected)
     = Fin (-200).
Proof.
  intros H. unfold analyzeWeightLossProgress. simpl.
  repeat (case_cmp; simpl); try lra; split; try reflexivity.
  exfalso.
  match goal with Hn : ~ (_ <= Qabs _)%Q |- _ => apply Hn end.
  apply Qabs_case; intros; lra.
Qed.

(** [reversed] is returned exactly for a non-negative change that lies
    within 0.3 kg per week of the expected one. *)
Lemma weight_loss_reversed_iff (actual expected : Q) :
  pattern (analyzeWeightLossProgress actual expected) = reversed
  <-> (expected - 0.3 <= actual <= expected + 0.3 /\ 0 <= actual)%Q.
Proof.
  unfold analyzeWeightLossProgress. simpl.
  repeat (case_cmp; simpl); split; intros; try discriminate; try lra;
    reflexivity.
Qed.

(** When it is returned, [reversed] carries the fixed decrease. *)
Lemma weight_loss_reversed_change (actual expected : number) :
  pattern (analyzeWeightLossProgress actual expected) = reversed ->
  recommendedCalorieChange (analyzeWeightLossProgress actual expected)
  = Fin (-150).
Proof.
  unfold analyzeWeightLossProgress.
  repeat match goal with
         | |- context [if ?c then _ else _] => destruct c
         end; cbn [pattern recommendedCalorieChange];
    intros; try discriminate; reflexivity.
Qed.

(** C4.  The claim: for the weight-loss goal, whenever
    |actual - expected| > 0.2 kg per week and the actual weekly change is
    >= 0, [analyzeProgress] returns pattern [reversed] with
    recommendedCalorieChange = -150.  The code at 80.0 kg -> 80.5 kg in one
    week against an expected -0.5 kg per week: the difference is 1.0 and
    the change is a gain, yet the result is [too_slow] with -200. *)
Theorem gain_during_cut_is_too_slow :
  let progressData :=
    {| currentWeight := 80.5; previousWeight := 80;
       weeksSinceLastCheckin := 1; goal := weight_loss |} in
  let actual : Q := ((80.5 - 80) / 1)%Q in
  let expected : Q := (-0.5)%Q in
  (0.2 < Qabs (actual - expected))%Q
  /\ (0 <= actual)%Q
  /\ pattern (analyzeProgress progressData expected) = too_slow
  /\ recommendedCalorieChange (analyzeProgress progressData expected)
     = Fin (-200).
Proof.
  vm_compute. repeat split; discriminate.
Qed.

(** A recommendation that asks for no adjustment recommends no change,
    whatever the numbers are. *)
Lemma no_adjustment_no_change (progressData : ProgressData)
    (expectedWeeklyChange : number) :
  let recommendation := analyzeProgress progressData expectedWeeklyChange in
  shouldAdjust recommendation = false ->
  recommendedCalorieChange recommendation = Fin 0.
Proof.
  unfold analyzeProgress, analyzeWeightLossProgress,
    analyzeMuscleGainProgress, analyzeMaintenanceProgress.
  cbv zeta.
  repeat match goal with
         | |- context [if ?c then _ else _] => destruct c
         | |- context [match goal ?p with _ => _ end] => destruct (goal p)
         end; cbn [shouldAdjust recommendedCalorieChange];
    intros; try discriminate; reflexivity.
Qed.

End ProgressFacts.

(* ================================================================== *)
(** * Sorting the check-in history *)
(* ================================================================== *)

Section SortFacts.
Import AdjustmentEngine.
#[local] Arguments inject_Z : simpl never.
#[local] Arguments Qplus : simpl never.
#[local] Arguments Qopp : simpl never.
#[local] Arguments Qle_bool : simpl never.

Lemma Array_insert_Permutation {A : Type} (cmp : A -> A -> number) (x : A)
    (xs : list A) :
  Permutation (x :: xs) (Array_insert cmp x xs).
Proof.
  induction xs as [|y xs IH]; simpl; [reflexivity|].
  destruct (cmp y x <? 0); [|reflexivity].
  rewrite perm_swap. now apply perm_skip.
Qed.

Lemma Array_sort_Permutation {A : Type} (cmp : A -> A -> number)
    (xs : list A) :
  Permutation xs (Array_sort cmp xs).
Proof.
  induction xs as [|x xs IH]; simpl; [reflexivity|].
  rewrite <- Array_insert_Permutation. now apply perm_skip.
Qed.

(** The comparator of the engine puts the later check-in first. *)
Lemma later_first (x y : CheckInData) :
  (getTime x - getTime y <? 0) = (createdAt x <? createdAt y)%Z.
Proof.
  unfold getTime. simpl.
  destruct (Qltb_spec (inject_Z (createdAt x) + - inject_Z (createdAt y)) 0)
    as [H|H]; symmetry; [apply Z.ltb_lt | apply Z.ltb_ge].
  - assert (H' : (inject_Z (createdAt x) < inject_Z (createdAt y))%Q) by lra.
    now rewrite <- Zlt_Qlt in H'.
  - assert (H' : (inject_Z (createdAt y) <= inject_Z (createdAt x))%Q) by lra.
    now rewrite <- Zle_Qle in H'.
Qed.

Lemma insert_keeps_order (x : CheckInData) (xs : list CheckInData) :
  Sorted notEarlier xs ->
  Sorted notEarlier (Array_insert (fun a b => getTime b - getTime a) x xs).
Proof.
  induction 1 as [|y ys Hsorted IH Hhd]; cbn [Array_insert].
  - repeat constructor.
  - rewrite later_first. destruct (Z.ltb_spec (createdAt x) (createdAt y)).
    + constructor; [exact IH|].
      destruct ys as [|z zs]; cbn [Array_insert].
      * constructor. unfold notEarlier. lia.
      * rewrite later_first.
        destruct (Z.ltb_spec (createdAt x) (createdAt z));
          constructor; unfold notEarlier; try lia.
        now inversion Hhd.
    + constructor; [now constructor|]. constructor. unfold notEarlier. lia.
Qed.

Lemma mostRecentFirst_sorted (recentCheckIns : list CheckInData) :
  Sorted notEarlier (mostRecentFirst recentCheckIns).
Proof.
  unfold mostRecentFirst.
  induction recentCheckIns as [|x xs IH]; simpl; [constructor|].
  now apply insert_keeps_order.
Qed.

Lemma mostRecentFirst_Permutation (recentCheckIns : list CheckInData) :
  Permutation recentCheckIns (mostRecentFirst recentCheckIns).
Proof. apply Array_sort_Permutation. Qed.

End SortFacts.

(* ================================================================== *)
(** * Adjustment engine: the safety check on the recommendation *)
(* ================================================================== *)

Section EngineFacts.

Import AdjustmentValidator SafetyValidator AdjustmentEngine.

#[local] Arguments inject_Z : simpl never.

Lemma Array_insert_length {A : Type} (cmp : A -> A -> number) (x : A)
    (xs : list A) :
  List.length (Array_insert cmp x xs) = S (List.length xs).
Proof.
  induction xs as [|y xs IH]; simpl; [reflexivity|].
  destruct (cmp y x <? 0); simpl; congruence.
Qed.

Lemma Array_sort_length {A : Type} (cmp : A -> A -> number) (xs : list A) :
  List.length (Array_sort cmp xs) = List.length xs.
Proof.
  induction xs as [|x xs IH]; simpl; [reflexivity|].
  rewrite Array_insert_length. congruence.
Qed.

Lemma Array_length_ltb {A : Type} (xs : list A) (n : Z) :
  (Array_length xs <? Fin (inject_Z n)) = (Z.of_nat (List.length xs) <? n)%Z.
Proof.
  unfold Array_length. simpl.
  destruct (Qltb_spec (inject_Z (Z.of_nat (List.length xs))) (inject_Z n))
    as [H|H]; rewrite <- Zlt_Qlt in H; symmetry;
    [apply Z.ltb_lt | apply Z.ltb_ge]; lia.
Qed.

Lemma Array_length_lt_2 {A : Type} (xs : list A) :
  (Array_length xs <? 2) = true <-> (List.length xs < 2)%nat.
Proof.
  change (Fin 2) with (Fin (inject_Z 2)). rewrite Array_length_ltb.
  rewrite Z.ltb_lt. lia.
Qed.

Lemma Array_length_lt_3 {A : Type} (xs : list A) :
  (Array_length xs <? 3) = true <-> (List.length xs < 3)%nat.
Proof.
  change (Fin 3) with (Fin (inject_Z 3)). rewrite Array_length_ltb.
  rewrite Z.ltb_lt. lia.
Qed.

Lemma mostRecentFirst_two (recentCheckIns : list CheckInData) :
  (2 <= List.length recentCheckIns)%nat ->
  exists current previous rest,
    mostRecentFirst recentCheckIns = current :: previous :: rest.
Proof.
  intros Hlen. unfold mostRecentFirst.
  pose proof (Array_sort_length (fun a b => getTime b - getTime a)
                recentCheckIns) as Hsort.
  destruct (Array_sort _ recentCheckIns) as [|current [|previous rest]];
    simpl in Hsort; try lia.
  now exists current, previous, rest.
Qed.

(** With at least two check-ins the analysis returns, and its stall flag
    is [detectStall] on the weights of the four most recent check-ins. *)
Lemma analysis_stall_flag (recentCheckIns : list CheckInData)
    (expectedWeeklyChange : number) (goal : Goal) (currentCalories : number)
    (gender : Gender) :
  (2 <= List.length recentCheckIns)%nat ->
  exists analysis,
    analyzeCheckInProgress recentCheckIns expectedWeeklyChange goal
      currentCalories gender = Ok analysis
    /\ isStalled analysis
       = detectStall_default
           (map weight (firstn 4 (mostRecentFirst recentCheckIns))).
Proof.
  intros Hlen.
  destruct (mostRecentFirst_two recentCheckIns Hlen)
    as (current & previous & rest & Hsorted).
  unfold analyzeCheckInProgress.
  destruct (Array_length recentCheckIns <? 2) eqn:Hshort.
  { apply Array_length_lt_2 in Hshort. lia. }
  rewrite Hsorted. unfold mostRecentFirst in Hsorted. rewrite Hsorted.
  eexists. split; reflexivity.
Qed.

(** With fewer than two check-ins the analysis throws. *)
Lemma analysis_needs_two_checkins (recentCheckIns : list CheckInData)
    (expectedWeeklyChange : number) (goal : Goal) (currentCalories : number)
    (gender : Gender) :
  (List.length recentCheckIns < 2)%nat ->
  analyzeCheckInProgress recentCheckIns expectedWeeklyChange goal
    currentCalories gender
  = Throw "Need at least 2 check-ins to analyze progress".
Proof.
  intros Hlen. apply Array_length_lt_2 in Hlen.
  unfold analyzeCheckInProgress. now rewrite Hlen.
Qed.

(** C7.  For every call to [analyzeCheckInProgress] with at least 2
    check-ins the analysis returns, and whenever the recommended calorie
    change fails the safety validator's adjustment check
    ([validateAdjustment] of currentCalories against currentCalories plus
    the recommendation) the returned [nutritionAdjustment] equals
    sign(recommendation) x 100: it is clamped to 100 kcal in the
    recommended direction.  When the check passes the recommendation is
    returned as it is. *)
Theorem unsafe_adjustment_is_clamped (recentCheckIns : list CheckInData)
    (expectedWeeklyChange : number) (goal : Goal) (currentCalories : number)
    (gender : Gender) :
  (2 <= List.length recentCheckIns)%nat ->
  exists current previous rest analysis,
    mostRecentFirst recentCheckIns = current :: previous :: rest
    /\ analyzeCheckInProgress recentCheckIns expectedWeeklyChange goal
         currentCalories gender = Ok analysis
    /\ let recommendation :=
         recommendationFor current previous expectedWeeklyChange goal in
       let change := recommendedCalorieChange recommendation in
       let validation :=
         validateAdjustment currentCalories (currentCalories + change)
           gender in
       AdjustmentEngine.pattern analysis
       = AdjustmentValidator.pattern recommendation
       /\ (isValid validation = false ->
           nutritionAdjustment analysis = Math_sign change * 100)
       /\ (isValid validation = true ->
           nutritionAdjustment analysis = change).
Proof.
  intros Hlen.
  destruct (mostRecentFirst_two recentCheckIns Hlen)
    as (current & previous & rest & Hsorted).
  exists current, previous, rest.
  unfold analyzeCheckInProgress.
  destruct (Array_length recentCheckIns <? 2) eqn:Hshort.
  { apply Array_length_lt_2 in Hshort. lia. }
  pose proof Hsorted as Hsorted'.
  unfold mostRecentFirst in Hsorted'. rewrite Hsorted'.
  eexists. split; [exact Hsorted|]. split; [reflexivity|].
  cbn [nutritionAdjustment AdjustmentEngine.pattern].
  fold (recommendationFor current previous expectedWeeklyChange goal).
  pose proof (no_adjustment_no_change
    {| AdjustmentValidator.currentWeight := weight current;
       AdjustmentValidator.previousWeight := weight previous;
       weeksSinceLastCheckin :=
         (getTime current - getTime previous) / MS_PER_WEEK;
       AdjustmentValidator.goal := goal |} expectedWeeklyChange) as Hzero.
  fold (recommendationFor current previous expectedWeeklyChange goal)
    in Hzero.
  cbv zeta in Hzero.
  set (recommendation :=
         recommendationFor current previous expectedWeeklyChange goal) in *.
  cbv zeta.
  destruct (shouldAdjust recommendation).
  - split; [reflexivity|].
    split; intros Hv; rewrite Hv; reflexivity.
  - rewrite (Hzero eq_refl).
    split; [reflexivity|]. split; intros _; reflexivity.
Qed.

Lemma unsafe_adjustment_is_clamped_witness :
  (2 <= List.length twoCheckIns)%nat
  /\ exists current previous rest analysis,
      mostRecentFirst twoCheckIns = current :: previous :: rest
      /\ analyzeCheckInProgress twoCheckIns (-0.5)%Q weight_loss 1550 male
         = Ok analysis
      /\ AdjustmentEngine.pattern analysis
         = AdjustmentValidator.pattern
             (recommendationFor current previous (-0.5)%Q weight_loss)
      /\ (isValid
            (validateAdjustment 1550
               (1550
                + recommendedCalorieChange
                    (recommendationFor current previous (-0.5)%Q
                       weight_loss))
               male) = false ->
          nutritionAdjustment analysis
          = Math_sign
              (recommendedCalorieChange
                 (recommendationFor current previous (-0.5)%Q weight_loss))
            * 100)
      /\ (isValid
            (validateAdjustment 1550
               (1550
                + recommendedCalorieChange
                    (recommendationFor current previous (-0.5)%Q
                       weight_loss))
               male) = true ->
          nutritionAdjustment analysis
          = recommendedCalorieChange
              (recommendationFor current previous (-0.5)%Q weight_loss)).
Proof.
  split; [simpl; lia|].
  apply (@unsafe_adjustment_is_clamped twoCheckIns (-0.5)%Q weight_loss 1550
           male).
  simpl; lia.
Defined.

(** The same history evaluated: a gain of 0.5 kg in a cut at 1550 kcal
    for a man.  The recommendation of -200 kcal would fall below the floor
    of 1500 kcal, so the adjustment returned is -100 kcal. *)
Example unsafe_adjustment_example :
  exists analysis,
    analyzeCheckInProgress twoCheckIns (-0.5)%Q weight_loss 1550 male
    = Ok analysis
    /\ AdjustmentEngine.pattern analysis = too_slow
    /\ nutritionAdjustment analysis = Fin (-100)
    /\ isStalled analysis = false.
Proof. eexists. split; [reflexivity|]. vm_compute. repeat split. Qed.

End EngineFacts.

(* ================================================================== *)
(** * Stall detection *)
(* ================================================================== *)

Section StallFacts.

Import AdjustmentValidator AdjustmentEngine.

#[local] Arguments Qplus : simpl never.
#[local] Arguments Qopp : simpl never.
#[local] Arguments Qle_bool : simpl never.
#[local] Arguments inject_Z : simpl never.

(** [Math.max] and [Math.min] over finite weights, started from a finite
    value, return one of the values met, and it bounds all of them. *)
Lemma fold_max_finite (ws : list Q) (acc : Q) :
  exists m : Q,
    fold_left Math_max (map Fin ws) (Fin acc) = Fin m
    /\ (m = acc \/ In m ws)
    /\ (acc <= m)%Q
    /\ (forall x : Q, In x ws -> (x <= m)%Q).
Proof.
  revert acc. induction ws as [|w ws IH]; intros acc; simpl.
  - exists acc. repeat split; auto; try lra. contradiction.
  - case_cmp;
      [destruct (IH w) as (m & -> & Hm & Hacc & Hall)
      | destruct (IH acc) as (m & -> & Hm & Hacc & Hall)];
      exists m; (split; [reflexivity|]);
      (split; [destruct Hm; subst; simpl; auto|]);
      (split; [lra|]); intros x [<-|Hx]; try lra; now apply Hall.
Qed.

Lemma fold_min_finite (ws : list Q) (acc : Q) :
  exists m : Q,
    fold_left Math_min (map Fin ws) (Fin acc) = Fin m
    /\ (m = acc \/ In m ws)
    /\ (m <= acc)%Q
    /\ (forall x : Q, In x ws -> (m <= x)%Q).
Proof.
  revert acc. induction ws as [|w ws IH]; intros acc; simpl.
  - exists acc. repeat split; auto; try lra. contradiction.
  - case_cmp;
      [destruct (IH acc) as (m & -> & Hm & Hacc & Hall)
      | destruct (IH w) as (m & -> & Hm & Hacc & Hall)];
      exists m; (split; [reflexivity|]);
      (split; [destruct Hm; subst; simpl; auto|]);
      (split; [lra|]); intros x [<-|Hx]; try lra; now apply Hall.
Qed.

Lemma Math_max_list_finite (w : Q) (ws : list Q) :
  exists m : Q,
    Math_max_list (map Fin (w :: ws)) = Fin m
    /\ In m (w :: ws)
    /\ (forall x : Q, In x (w :: ws) -> (x <= m)%Q).
Proof.
  unfold Math_max_list. simpl.
  destruct (fold_max_finite ws w) as (m & -> & Hm & Hacc & Hall).
  exists m. split; [reflexivity|]. split.
  - destruct Hm; auto.
  - intros x [<-|Hx]; [exact Hacc | now apply Hall].
Qed.

Lemma Math_min_list_finite (w : Q) (ws : list Q) :
  exists m : Q,
    Math_min_list (map Fin (w :: ws)) = Fin m
    /\ In m (w :: ws)
    /\ (forall x : Q, In x (w :: ws) -> (m <= x)%Q).
Proof.
  unfold Math_min_list. simpl.
  destruct (fold_min_finite ws w) as (m & -> & Hm & Hacc & Hall).
  exists m. split; [reflexivity|]. split.
  - destruct Hm; auto.
  - intros x [<-|Hx]; [exact Hacc | now apply Hall].
Qed.

(** On exact numbers, three or more finite weights are a stall exactly when
    any two of them differ by less than 0.3 kg. *)
Lemma close_weights_stall (ws : list Q) :
  (3 <= List.length ws)%nat ->
  detectStall_default (map Fin ws) = true
  <-> (forall x y : Q, In x ws -> In y ws -> (x - y < 0.3)%Q).
Proof.
  intros Hlen. unfold detectStall_default, detectStall.
  destruct ws as [|w ws]; [simpl in Hlen; lia|].
  assert (Hthree : (Array_length (map Fin (w :: ws)) <? 3) = false).
  { destruct (Array_length (map Fin (w :: ws)) <? 3) eqn:E; [|reflexivity].
    apply Array_length_lt_3 in E. rewrite length_map in E. lia. }
  rewrite Hthree.
  destruct (Math_max_list_finite w ws) as (hi & -> & Hhi & Hmax).
  destruct (Math_min_list_finite w ws) as (lo & -> & Hlo & Hmin).
  simpl. destruct (Qltb_spec (hi + - lo) 0.3) as [Hy|Hn]; split.
  - intros _ x y Hx Hy'. specialize (Hmax x Hx). specialize (Hmin y Hy'). lra.
  - reflexivity.
  - discriminate.
  - intros Hspan. specialize (Hspan hi lo Hhi Hlo). lra.
Qed.

Lemma short_weights_no_stall (recentWeights : list number) :
  (List.length recentWeights < 3)%nat ->
  detectStall_default recentWeights = false.
Proof.
  intros Hlen. unfold detectStall_default, detectStall.
  apply Array_length_lt_3 in Hlen. now rewrite Hlen.
Qed.

(** C8 (as amended).  For every list of four most recent weights whose
    span is strictly below 0.3 kg (any two of the weights differ by less
    than 0.3 kg), [detectStall] with its default threshold returns true,
    and [analyzeCheckInProgress] reports [isStalled = true] for every
    history with these four most recent weights, whatever the expected
    change, the goal, the calories and the sex are, hence whatever pattern
    it classifies.  Nothing is stated for a span of exactly 0.3 kg, where
    the binary rounding of the subtraction decides in the code. *)
Theorem four_close_weights_stall (ws : list Q) :
  List.length ws = 4%nat ->
  (forall x y : Q, In x ws -> In y ws -> (x - y < 0.3)%Q) ->
  detectStall_default (map Fin ws) = true
  /\ forall (recentCheckIns : list CheckInData)
       (expectedWeeklyChange : number) (goal : Goal)
       (currentCalories : number) (gender : Gender),
       map weight (firstn 4 (mostRecentFirst recentCheckIns))
       = map Fin ws ->
       exists analysis,
         analyzeCheckInProgress recentCheckIns expectedWeeklyChange goal
           currentCalories gender = Ok analysis
         /\ isStalled analysis = true.
Proof.
  intros Hlen Hspan.
  assert (Hstall : detectStall_default (map Fin ws) = true).
  { apply close_weights_stall; [lia | exact Hspan]. }
  split; [exact Hstall|].
  intros recentCheckIns expectedWeeklyChange goal currentCalories
    gender Hws.
  assert (Hmany : (2 <= List.length recentCheckIns)%nat).
  { apply (f_equal (@List.length number)) in Hws.
    rewrite !length_map, length_firstn, Hlen in Hws.
    unfold mostRecentFirst in Hws. rewrite Array_sort_length in Hws. lia. }
  destruct (analysis_stall_flag recentCheckIns expectedWeeklyChange goal
              currentCalories gender Hmany) as (analysis & Hok & Hflag).
  exists analysis. split; [exact Hok|]. rewrite Hflag, Hws. exact Hstall.
Qed.

Lemma four_close_weights_stall_witness :
  List.length [80.0; 80.2; 80.1; 80.25]%Q = 4%nat
  /\ (forall x y : Q,
        In x [80.0; 80.2; 80.1; 80.25]%Q ->
        In y [80.0; 80.2; 80.1; 80.25]%Q -> (x - y < 0.3)%Q)
  /\ detectStall_default (map Fin [80.0; 80.2; 80.1; 80.25]%Q) = true.
Proof.
  assert (Hspan : forall x y : Q,
             In x [80.0; 80.2; 80.1; 80.25]%Q ->
             In y [80.0; 80.2; 80.1; 80.25]%Q -> (x - y < 0.3)%Q).
  { intros x y Hx Hy. simpl in Hx, Hy.
    repeat (destruct Hx as [<-|Hx]; [|]); try contradiction;
      repeat (destruct Hy as [<-|Hy]; [|]); try contradiction;
      reflexivity. }
  split; [reflexivity|]. split; [exact Hspan|].
  apply (@four_close_weights_stall [80.0; 80.2; 80.1; 80.25]%Q);
    [reflexivity | exact Hspan].
Defined.

(** Four weights that lie within a 0.3 kg range, from 80.1 kg to 80.4 kg,
    and no stall is reported: on exact numbers the span is 0.3 kg and not
    below it, on binary64 it computes to 0.30000000000001137. *)
Lemma span_of_exactly_0_3_is_no_stall :
  List.length [80.1; 80.4; 80.2; 80.3]%Q = 4%nat
  /\ (forall x y : Q,
        In x [80.1; 80.4; 80.2; 80.3]%Q -> In y [80.1; 80.4; 80.2; 80.3]%Q ->
        (x - y <= 0.3)%Q)
  /\ detectStall_default (map Fin [80.1; 80.4; 80.2; 80.3]%Q) = false
  /\ Binary64.detectStall_default Binary64.from_80_1_to_80_4 = false.
Proof.
  split; [reflexivity|]. split; [|split; reflexivity].
  intros x y Hx Hy. simpl in Hx, Hy.
  repeat (destruct Hx as [<-|Hx]; [|]); try contradiction;
    repeat (destruct Hy as [<-|Hy]; [|]); try contradiction; discriminate.
Qed.

(** On binary64 a span of 0.3 kg falls on either side of the test:
    80.3 - 80 computes to 0.29999999999999716, a stall, and 80.4 - 80.1 to
    0.30000000000001137, none.  On exact numbers neither history is a
    stall. *)
Example span_of_0_3_rounds_both_ways :
  Binary64.detectStall_default Binary64.from_80_to_80_3 = true
  /\ Binary64.detectStall_default Binary64.from_80_1_to_80_4 = false
  /\ detectStall_default (map Fin [80; 80.3; 80.1; 80.2]%Q) = false
  /\ detectStall_default (map Fin [80.1; 80.4; 80.2; 80.3]%Q) = false.
Proof. repeat split. Qed.

(** The stall flag and the pattern vary independently: the same four
    check-ins are stalled and [too_slow] for a cut, stalled and [on_track]
    for a gain of 0.25 kg per week. *)
Example stall_with_two_patterns :
  (exists analysis,
      analyzeCheckInProgress fourCheckIns (-0.5)%Q weight_loss 2200 male
      = Ok analysis
      /\ isStalled analysis = true
      /\ AdjustmentEngine.pattern analysis = too_slow)
  /\ (exists analysis,
      analyzeCheckInProgress fourCheckIns 0.25%Q muscle_gain 2800 male
      = Ok analysis
      /\ isStalled analysis = true
      /\ AdjustmentEngine.pattern analysis = on_track).
Proof.
  split; eexists; (split; [reflexivity|]); vm_compute; split; reflexivity.
Qed.

(** C10.  For every list of fewer than 3 weights, [detectStall] with its
    default threshold of 3 returns false; in particular the analysis of
    exactly two check-ins returns with [isStalled = false], however close
    the two weights are. *)
Theorem short_history_is_no_stall :
  (forall recentWeights : list number,
      (List.length recentWeights < 3)%nat ->
      detectStall_default recentWeights = false)
  /\ (forall (recentCheckIns : list CheckInData)
        (expectedWeeklyChange : number) (goal : Goal)
        (currentCalories : number) (gender : Gender),
        List.length recentCheckIns = 2%nat ->
        exists analysis,
          analyzeCheckInProgress recentCheckIns expectedWeeklyChange goal
            currentCalories gender = Ok analysis
          /\ isStalled analysis = false).
Proof.
  split; [exact short_weights_no_stall|].
  intros recentCheckIns expectedWeeklyChange goal currentCalories gender
    Hlen.
  destruct (analysis_stall_flag recentCheckIns expectedWeeklyChange goal
              currentCalories gender) as (analysis & Hok & Hflag); [lia|].
  exists analysis. split; [exact Hok|]. rewrite Hflag.
  apply short_weights_no_stall.
  rewrite length_map, length_firstn. unfold mostRecentFirst.
  rewrite Array_sort_length. lia.
Qed.

Lemma short_history_is_no_stall_witness :
  ((List.length [Fin 80; Fin 80] < 3)%nat
   /\ detectStall_default [Fin 80; Fin 80] = false)
  /\ (List.length twoCheckIns = 2%nat
      /\ exists analysis,
          analyzeCheckInProgress twoCheckIns (-0.5)%Q weight_loss 2000 male
          = Ok analysis
          /\ isStalled analysis = false).
Proof.
  destruct short_history_is_no_stall as [Hweights Hhistory].
  split; split.
  - simpl; lia.
  - apply Hweights. simpl; lia.
  - reflexivity.
  - apply Hhistory. reflexivity.
Defined.

End StallFacts.

(* ================================================================== *)
(** * Action selector: the critical-risk override *)
(* ================================================================== *)

Section ActionFacts.

Import RulePackTypes ActionSelector.

(** C5.  For every input to [selectCalorieAdjustment] whose confidence is
    at least the rule pack's minimum confidence for action: if the risk
    level is [critical], the returned adjustment is the maximum increase,
    +200 kcal, whatever the current mode, the trend and the goal are; the
    new calories are the guarded current calories plus 200. *)
Theorem critical_risk_overrides (rulePack : RulePack) (params : Params) :
  (confidence params >=? minimumConfidenceForAction (trendAnalysis rulePack))
  = true ->
  riskLevel params = critical ->
  adjustment (selectCalorieAdjustment rulePack params) = Fin 200
  /\ reasoning (selectCalorieAdjustment rulePack params)
     = CriticalRecoveryRisk
  /\ newCalories (selectCalorieAdjustment rulePack params)
     = applyGuardrails rulePack
         (currentCalories (userContext params) + 200) (userContext params).
Proof.
  intros Hconf Hrisk. unfold selectCalorieAdjustment.
  unfold geb in Hconf. rewrite (leb_true_ltb_false _ _ Hconf), Hrisk.
  repeat split.
Qed.

Lemma critical_risk_overrides_witness :
  (confidence criticalParams
     >=? minimumConfidenceForAction (trendAnalysis sampleRulePack)) = true
  /\ riskLevel criticalParams = critical
  /\ adjustment (selectCalorieAdjustment sampleRulePack criticalParams)
     = Fin 200.
Proof.
  split; [reflexivity|]. split; [reflexivity|].
  apply (@critical_risk_overrides sampleRulePack criticalParams);
    reflexivity.
Defined.

(** Below the minimum confidence nothing changes, critical risk or not. *)
Lemma low_confidence_no_change (rulePack : RulePack) (params : Params) :
  (confidence params <? minimumConfidenceForAction (trendAnalysis rulePack))
  = true ->
  adjustment (selectCalorieAdjustment rulePack params) = Fin 0
  /\ newCalories (selectCalorieAdjustment rulePack params)
     = currentCalories (userContext params).
Proof.
  intros Hconf. unfold selectCalorieAdjustment. rewrite Hconf. now split.
Qed.

End ActionFacts.

(* ================================================================== *)
(** * TDEE of the plan builder *)
(* ================================================================== *)

Section TdeeFacts.

(** C9.  For every input (any weight, height, age, sex and activity
    level), [PlanBuilderService.calculateTDEE] returns
    round(BMR x 1.55), with BMR the Mifflin-St Jeor value: the result does
    not depend on the activity level, so the five-level multiplier table
    is never applied here, whereas [calculateTDEE] of the TDEE calculator
    multiplies its BMR by the table entry of the activity level. *)
Theorem plan_builder_tdee_ignores_activity
    (params : PlanBuilderService.TDEEParams) :
  PlanBuilderService.calculateTDEE params
  = Math_round
      (mifflinStJeor (PlanBuilderService.weight params)
         (PlanBuilderService.height params) (PlanBuilderService.age params)
         (String.eqb (PlanBuilderService.sex params) "male")
       * 1.55)
  /\ (forall level : string,
        PlanBuilderService.calculateTDEE
          {| PlanBuilderService.weight := PlanBuilderService.weight params;
             PlanBuilderService.height := PlanBuilderService.height params;
             PlanBuilderService.age := PlanBuilderService.age params;
             PlanBuilderService.sex := PlanBuilderService.sex params;
             PlanBuilderService.activityLevel := level |}
        = PlanBuilderService.calculateTDEE params)
  /\ (forall input : TdeeCalculator.TDEEInput,
        TdeeCalculator.tdee (TdeeCalculator.calculateTDEE input)
        = Math_round
            (TdeeCalculator.calculateBMR input
             * TdeeCalculator.ACTIVITY_MULTIPLIERS
                 (TdeeCalculator.activityLevel input))).
Proof.
  split; [|split].
  - unfold PlanBuilderService.calculateTDEE, mifflinStJeor. cbv zeta.
    destruct (String.eqb (PlanBuilderService.sex params) "male");
      reflexivity.
  - intros level. reflexivity.
  - intros input. unfold TdeeCalculator.calculateTDEE. cbv zeta.
    cbn [TdeeCalculator.tdee].
    destruct (TdeeCalculator.activityLevel input); reflexivity.
Qed.

(** The concrete scenario of the specification: 80 kg, 180 cm, 30 years,
    male.  The TDEE calculator gives BMR 1780 and, at moderate activity,
    TDEE 2759; the plan builder gives 2759 for a sedentary person as well,
    where the calculator gives 2136. *)
Example tdee_scenario :
  TdeeCalculator.calculateTDEE
    {| TdeeCalculator.weight := 80; TdeeCalculator.height := 180;
       TdeeCalculator.age := 30; TdeeCalculator.gender := male;
       TdeeCalculator.activityLevel := moderate |}
  = {| TdeeCalculator.bmr := 1780; TdeeCalculator.tdee := 2759;
       TdeeCalculator.activityMultiplier := 1.55 |}
  /\ TdeeCalculator.tdee
       (TdeeCalculator.calculateTDEE
          {| TdeeCalculator.weight := 80; TdeeCalculator.height := 180;
             TdeeCalculator.age := 30; TdeeCalculator.gender := male;
             TdeeCalculator.activityLevel := sedentary |})
     = Fin 2136
  /\ PlanBuilderService.calculateTDEE
       {| PlanBuilderService.weight := 80;
          PlanBuilderService.height := 180;
          PlanBuilderService.age := 30;
          PlanBuilderService.sex := "male";
          PlanBuilderService.activityLevel := "sedentary" |}
     = Fin 2759.
Proof. repeat split. Qed.

End TdeeFacts.

(* ================================================================== *)
(** * Progress analysis: the outcomes for the three goals *)
(* ================================================================== *)

Section ProgressOutcomeFacts.

Import AdjustmentValidator.

#[local] Arguments Qplus : simpl never.
#[local] Arguments Qmult : simpl never.
#[local] Arguments Qopp : simpl never.
#[local] Arguments Qminus : simpl never.
#[local] Arguments Qdiv : simpl never.
#[local] Arguments Qfloor : simpl never.
#[local] Arguments inject_Z : simpl never.
#[local] Arguments Qle_bool : simpl never.
#[local] Arguments Qeq_bool : simpl never.
#[local] Arguments Qabs : simpl never.

(** Outside the band of 0.3 kg per week the proportional change
    [min(200, |difference| * 1100)] is always the full 200 kcal. *)
Lemma proportional_change_is_capped (actual expected : number) :
  (actual <? expected - 0.3) = true \/ (actual >? expected + 0.3) = true ->
  Math_round (Math_min 200 (Math_abs ((actual - expected) * 1100)))
  = Fin 200.
Proof.
  unfold gtb.
  destruct actual as [a| | |], expected as [e| | |]; simpl;
    intros [H|H]; try discriminate; try reflexivity.
  - destruct (Qltb_spec a (e + - (0.3))) as [Hlt|]; [|discriminate].
    destruct (Qleb_spec 200 (Qabs ((a + - e) * 1100))) as [|Hn];
      [reflexivity|].
    exfalso. apply Hn. apply Qabs_case; intros; lra.
  - destruct (Qltb_spec (e + 0.3) a) as [Hlt|]; [|discriminate].
    destruct (Qleb_spec 200 (Qabs ((a + - e) * 1100))) as [|Hn];
      [reflexivity|].
    exfalso. apply Hn. apply Qabs_case; intros; lra.
Qed.

Lemma weight_loss_outcomes (actual expected : number) :
  let r := analyzeWeightLossProgress actual expected in
  In (weight_loss, pattern r, recommendedCalorieChange r) progressOutcomes
  /\ shouldAdjust r
     = negb (AdjustmentEngine.Pattern_eqb (pattern r) on_track).
Proof.
  unfold analyzeWeightLossProgress. cbv zeta.
  destruct (actual <? expected - 0.3) eqn:Hfast.
  { cbn [pattern recommendedCalorieChange shouldAdjust].
    rewrite proportional_change_is_capped by (now left).
    split; [simpl; auto | reflexivity]. }
  destruct (actual >? expected + 0.3) eqn:Hslow.
  { cbn [pattern recommendedCalorieChange shouldAdjust].
    rewrite proportional_change_is_capped by (now right).
    split; [simpl; auto | reflexivity]. }
  destruct (actual >=? 0); (split; [simpl; auto 10 | reflexivity]).
Qed.

Lemma muscle_gain_outcomes (actual expected : number) :
  let r := analyzeMuscleGainProgress actual expected in
  In (muscle_gain, pattern r, recommendedCalorieChange r) progressOutcomes
  /\ shouldAdjust r
     = negb (AdjustmentEngine.Pattern_eqb (pattern r) on_track).
Proof.
  unfold analyzeMuscleGainProgress. cbv zeta.
  destruct (actual >? expected + 0.3);
    [split; [simpl; auto 10 | reflexivity]|].
  destruct (actual <? expected - 0.2);
    [split; [simpl; auto 10 | reflexivity]|].
  destruct (actual <=? -0.2); (split; [simpl; auto 10 | reflexivity]).
Qed.

Lemma maintenance_outcomes (actual : number) :
  let r := analyzeMaintenanceProgress actual in
  In (maintenance, pattern r, recommendedCalorieChange r) progressOutcomes
  /\ shouldAdjust r
     = negb (AdjustmentEngine.Pattern_eqb (pattern r) on_track).
Proof.
  unfold analyzeMaintenanceProgress. cbv zeta.
  destruct (Math_abs actual <=? 0.3);
    [split; [simpl; auto 15 | reflexivity]|].
  destruct (actual <? - Fin 0.3); (split; [simpl; auto 15 | reflexivity]).
Qed.

Lemma analyzeProgress_outcome (progressData : ProgressData)
    (expectedWeeklyChange : number) :
  let r := analyzeProgress progressData expectedWeeklyChange in
  In (goal progressData, pattern r, recommendedCalorieChange r)
     progressOutcomes
  /\ shouldAdjust r
     = negb (AdjustmentEngine.Pattern_eqb (pattern r) on_track).
Proof.
  unfold analyzeProgress. cbv zeta.
  destruct (Math_abs _ <=? 0.2).
  - split; [|reflexivity].
    destruct (goal progressData); simpl; auto 15.
  - destruct (goal progressData).
    + apply weight_loss_outcomes.
    + apply maintenance_outcomes.
    + apply muscle_gain_outcomes.
Qed.

(** The recommended change is one of seven finite values. *)
Lemma analyzeProgress_change (progressData : ProgressData)
    (expectedWeeklyChange : number) :
  exists change : Q,
    recommendedCalorieChange
      (analyzeProgress progressData expectedWeeklyChange) = Fin change
    /\ In change recommendedChanges.
Proof.
  destruct (analyzeProgress_outcome progressData expectedWeeklyChange)
    as [Hin _].
  cbv zeta in Hin. simpl in Hin.
  repeat (destruct Hin as [Hin|Hin];
          [injection Hin as _ _ <-; eexists; split; [reflexivity|];
           simpl; auto 10|]).
  contradiction.
Qed.

(** X1.  Whatever numbers it is given, [analyzeProgress] returns one of
    eleven outcomes: for [weight_loss] too_fast with +200, too_slow with
    -200, reversed with -150 or on_track with 0 (the proportional formula
    min(200, |difference| x 1100) never yields less than 200); for
    [muscle_gain] too_fast with -100, too_slow with +150, reversed with
    +200 or on_track with 0; for [maintenance] too_fast with +100,
    too_slow with -100 or on_track with 0.  [shouldAdjust] is false
    exactly for on_track, and the pattern is never [stalled]. *)
Theorem progress_outcomes (progressData : ProgressData)
    (expectedWeeklyChange : number) :
  let r := analyzeProgress progressData expectedWeeklyChange in
  In (goal progressData, pattern r, recommendedCalorieChange r)
     progressOutcomes
  /\ shouldAdjust r
     = negb (AdjustmentEngine.Pattern_eqb (pattern r) on_track)
  /\ pattern r <> stalled.
Proof.
  destruct (analyzeProgress_outcome progressData expectedWeeklyChange)
    as [Hin Hadjust].
  cbv zeta in *. repeat split; trivial.
  intros Hstalled. rewrite Hstalled in Hin.
  simpl in Hin. repeat (destruct Hin as [Hin|Hin]; [discriminate|]).
  exact Hin.
Qed.

Lemma weeklyChange_finite (cw pw weeks : Q) :
  ~ (weeks == 0)%Q ->
  (Fin cw - Fin pw) / Fin weeks = Fin ((cw + - pw) / weeks).
Proof.
  intros Hweeks. simpl.
  destruct (Qeqb_spec weeks 0); [contradiction | reflexivity].
Qed.

Ltac split_abs :=
  repeat match goal with
         | H : (Qabs _ <= _)%Q |- _ => apply Qabs_Qle_condition in H
         | H : ~ (Qabs ?x <= ?y)%Q |- _ =>
             assert (~ (- y <= x <= y)%Q)
               by (rewrite <- Qabs_Qle_condition; exact H);
             clear H
         | |- context [(Qabs ?x <= ?y)%Q] =>
             rewrite (Qabs_Qle_condition x y)
         end.

(** X2.  For the muscle-gain goal and a finite weekly change [a] (weeks
    not zero) against the expected change [e]: a change above e + 0.3 is
    too_fast with -100 kcal; a change below e - 0.2 is too_slow with
    +150 kcal, weight lost or not; a change with 0.2 < a - e < 0.3 and
    a < -0.2 is reversed with +200 kcal; and [reversed] is returned only
    when 0.2 <= a - e <= 0.3 and a <= -0.2, which requires an expected
    change of -0.4 kg per week or less, so it is never returned for an
    expected gain.  Nothing is stated on the thresholds themselves, where
    the binary rounding of the code decides. *)
Theorem muscle_gain_progress (cw pw weeks e : Q) :
  ~ (weeks == 0)%Q ->
  let a := ((cw - pw) / weeks)%Q in
  let r :=
    analyzeProgress
      {| currentWeight := cw; previousWeight := pw;
         weeksSinceLastCheckin := weeks; goal := muscle_gain |} e in
  ((e + 0.3 < a)%Q ->
     pattern r = too_fast /\ recommendedCalorieChange r = Fin (-100))
  /\ ((a < e - 0.2)%Q ->
     pattern r = too_slow /\ recommendedCalorieChange r = Fin 150)
  /\ ((0.2 < a - e < 0.3)%Q -> (a < -0.2)%Q ->
     pattern r = reversed /\ recommendedCalorieChange r = Fin 200)
  /\ (pattern r = reversed ->
      (0.2 <= a - e <= 0.3)%Q /\ (a <= -0.2)%Q /\ (e <= -0.4)%Q).
Proof.
  intros Hweeks a r. unfold r, analyzeProgress.
  cbn [currentWeight previousWeight weeksSinceLastCheckin goal].
  rewrite (weeklyChange_finite cw pw Hweeks).
  change ((cw + - pw) / weeks)%Q with a. clearbody a.
  unfold analyzeMuscleGainProgress, gtb. simpl.
  repeat (case_cmp; simpl); split_abs;
    repeat split; intros; try discriminate; try reflexivity; try lra.
Qed.

Lemma muscle_gain_progress_witness :
  ~ (1 == 0)%Q
  /\ (0.3 + 0.3 < (80.9 - 80) / 1)%Q
  /\ pattern
       (analyzeProgress
          {| currentWeight := 80.9; previousWeight := 80;
             weeksSinceLastCheckin := 1; goal := muscle_gain |} 0.3%Q)
     = too_fast
  /\ recommendedCalorieChange
       (analyzeProgress
          {| currentWeight := 80.9; previousWeight := 80;
             weeksSinceLastCheckin := 1; goal := muscle_gain |} 0.3%Q)
     = Fin (-100).
Proof.
  split; [discriminate|]. split; [reflexivity|].
  apply (@muscle_gain_progress 80.9 80 1 0.3); [discriminate | reflexivity].
Defined.

(** X3.  For the maintenance goal and a finite weekly change [a] (weeks
    not zero) against the expected change [e]: the result is on_track
    with 0 kcal when a is within less than 0.2 of e or within less than
    0.3 of zero, and it is on_track only when a is within 0.2 of e or
    within 0.3 of zero; beyond the tolerance a loss of more than 0.3 kg
    per week is too_fast with +100 kcal and a gain of more than 0.3 kg
    per week is too_slow with -100 kcal, so the correction always opposes
    the change of weight.  Nothing is stated on the thresholds
    themselves, where the binary rounding of the code decides. *)
Theorem maintenance_progress (cw pw weeks e : Q) :
  ~ (weeks == 0)%Q ->
  let a := ((cw - pw) / weeks)%Q in
  let r :=
    analyzeProgress
      {| currentWeight := cw; previousWeight := pw;
         weeksSinceLastCheckin := weeks; goal := maintenance |} e in
  ((Qabs (a - e) < 0.2 \/ Qabs a < 0.3)%Q ->
     pattern r = on_track /\ recommendedCalorieChange r = Fin 0)
  /\ (pattern r = on_track -> (Qabs (a - e) <= 0.2 \/ Qabs a <= 0.3)%Q)
  /\ ((0.2 < Qabs (a - e))%Q -> (a < -0.3)%Q ->
      pattern r = too_fast /\ recommendedCalorieChange r = Fin 100)
  /\ ((0.2 < Qabs (a - e))%Q -> (0.3 < a)%Q ->
      pattern r = too_slow /\ recommendedCalorieChange r = Fin (-100)).
Proof.
  intros Hweeks a r. unfold r, analyzeProgress.
  cbn [currentWeight previousWeight weeksSinceLastCheckin goal].
  rewrite (weeklyChange_finite cw pw Hweeks).
  change ((cw + - pw) / weeks)%Q with a. clearbody a.
  unfold analyzeMaintenanceProgress. simpl.
  assert (Hgt : forall x y : Q, (y < Qabs x <-> ~ (- y <= x <= y))%Q).
  { intros x y. rewrite <- Qabs_Qle_condition. split; intros; lra. }
  assert (Hlt : forall x y : Q, (Qabs x < y <-> (- y < x < y))%Q).
  { intros x y. apply Qabs_Qlt_condition. }
  rewrite !Hgt, !Hlt.
  repeat (case_cmp; simpl); split_abs;
    repeat split; intros; try discriminate; try reflexivity; try lra;
    try tauto.
Qed.

Lemma maintenance_progress_witness :
  ~ (1 == 0)%Q
  /\ (0.2 < Qabs ((80.5 - 80) / 1 - 0))%Q
  /\ (0.3 < (80.5 - 80) / 1)%Q
  /\ pattern
       (analyzeProgress
          {| currentWeight := 80.5; previousWeight := 80;
             weeksSinceLastCheckin := 1; goal := maintenance |} 0%Q)
     = too_slow
  /\ recommendedCalorieChange
       (analyzeProgress
          {| currentWeight := 80.5; previousWeight := 80;
             weeksSinceLastCheckin := 1; goal := maintenance |} 0%Q)
     = Fin (-100).
Proof.
  split; [discriminate|]. split; [reflexivity|]. split; [reflexivity|].
  destruct (@maintenance_progress 80.5 80 1 0) as (_ & _ & _ & H);
    [discriminate|].
  apply H; reflexivity.
Defined.

End ProgressOutcomeFacts.

(* ================================================================== *)
(** * The adjustment engine and the safety of its adjustments *)
(* ================================================================== *)

Section AdjustmentSafetyFacts.

Import AdjustmentValidator SafetyValidator AdjustmentEngine.

#[local] Arguments Qplus : simpl never.
#[local] Arguments Qmult : simpl never.
#[local] Arguments Qopp : simpl never.
#[local] Arguments Qminus : simpl never.
#[local] Arguments Qdiv : simpl never.
#[local] Arguments Qfloor : simpl never.
#[local] Arguments inject_Z : simpl never.
#[local] Arguments Qle_bool : simpl never.
#[local] Arguments Qeq_bool : simpl never.
#[local] Arguments Qabs : simpl never.

(** Validity of a step between two finite calorie values. *)
Lemma validateAdjustment_valid_iff (cur new : Q) (gender : Gender) :
  isValid (validateAdjustment cur new gender) = true
  <-> (Qabs (new - cur) <= 200 /\ sexFloor gender <= new)%Q.
Proof.
  unfold validateAdjustment, push_if, gtb. cbn [isValid].
  rewrite MIN_CALORIES_sexFloor. simpl.
  change (new + - cur)%Q with (new - cur)%Q.
  destruct (Qltb_spec 200 (Qabs (new - cur))),
    (Qltb_spec new (sexFloor gender)); simpl;
    split; intros; try discriminate; try reflexivity; lra.
Qed.

Lemma validateAdjustment_warns_iff (cur new : Q) (gender : Gender) :
  SafetyValidator.warnings (validateAdjustment cur new gender) <> []
  <-> (150 <= Qabs (new - cur) <= 200)%Q.
Proof.
  unfold validateAdjustment, push_if, geb. cbn [SafetyValidator.warnings].
  simpl. change (new + - cur)%Q with (new - cur)%Q.
  destruct (Qleb_spec 150 (Qabs (new - cur))),
    (Qleb_spec (Qabs (new - cur)) 200); simpl;
    split; intros; try discriminate; try congruence; lra.
Qed.

Lemma recommended_change_bound (change : Q) :
  In change recommendedChanges -> (Qabs change <= 200)%Q.
Proof.
  simpl. intros H.
  repeat (destruct H as [<-|H]; [discriminate|]). contradiction.
Qed.

Lemma step_size (cur change : Q) : (cur + change - cur == change)%Q.
Proof. ring. Qed.

(** X4.  Every calorie change that [analyzeProgress] recommends is a
    finite value of at most 200 kcal in size, so [validateAdjustment]
    never rejects the step for its size when the current calories are a
    whole number, as [calculateTargetCalories] returns them: the
    recommended step is then valid exactly when the new calories are at
    or above the floor for the sex (1500 male, 1200 female), and it
    carries the large-adjustment warning exactly when the change is
    150 kcal or more in size.  Fractional calories are left out: there
    the code subtracts with binary rounding, and a step of 200 kcal can
    measure more than 200. *)
Theorem recommendation_fails_only_at_floor (progressData : ProgressData)
    (expectedWeeklyChange : number) (currentCalories : Z)
    (gender : Gender) :
  exists change : Q,
    recommendedCalorieChange
      (analyzeProgress progressData expectedWeeklyChange) = Fin change
    /\ (Qabs change <= 200)%Q
    /\ (isValid
          (validateAdjustment (inject_Z currentCalories)
             (Fin (inject_Z currentCalories) + Fin change) gender) = true
        <-> (sexFloor gender <= inject_Z currentCalories + change)%Q)
    /\ (SafetyValidator.warnings
          (validateAdjustment (inject_Z currentCalories)
             (Fin (inject_Z currentCalories) + Fin change) gender) <> []
        <-> (150 <= Qabs change)%Q).
Proof.
  destruct (analyzeProgress_change progressData expectedWeeklyChange)
    as (change & Hchange & Hin).
  pose proof (recommended_change_bound Hin) as Hbound.
  exists change. split; [exact Hchange|]. split; [exact Hbound|].
  change (Fin (inject_Z currentCalories) + Fin change)
    with (Fin (inject_Z currentCalories + change)).
  rewrite validateAdjustment_valid_iff, validateAdjustment_warns_iff.
  rewrite step_size. split; split; intros; try lra; tauto.
Qed.

(** The adjustment that the analysis returns, read off the code. *)
Lemma analysis_adjustment (recentCheckIns : list CheckInData)
    (expectedWeeklyChange : number) (goal : Goal) (currentCalories : number)
    (gender : Gender) :
  (2 <= List.length recentCheckIns)%nat ->
  exists current previous rest analysis,
    mostRecentFirst recentCheckIns = current :: previous :: rest
    /\ analyzeCheckInProgress recentCheckIns expectedWeeklyChange goal
         currentCalories gender = Ok analysis
    /\ AdjustmentEngine.pattern analysis
       = AdjustmentValidator.pattern
           (recommendationFor current previous expectedWeeklyChange goal)
    /\ weeklyWeightChange analysis
       = (weight current - weight previous)
         / ((getTime current - getTime previous) / MS_PER_WEEK)
    /\ nutritionAdjustment analysis
       = let recommendation :=
           recommendationFor current previous expectedWeeklyChange goal in
         let change := recommendedCalorieChange recommendation in
         if shouldAdjust recommendation then
           if negb (isValid (validateAdjustment currentCalories
                               (currentCalories + change) gender))
           then Math_sign change * 100
           else change
         else change.
Proof.
  intros Hlen.
  destruct (mostRecentFirst_two recentCheckIns Hlen)
    as (current & previous & rest & Hsorted).
  exists current, previous, rest.
  unfold analyzeCheckInProgress.
  destruct (Array_length recentCheckIns <? 2) eqn:Hshort.
  { apply Array_length_lt_2 in Hshort. lia. }
  pose proof Hsorted as Hsorted'.
  unfold mostRecentFirst in Hsorted'. rewrite Hsorted'.
  eexists. split; [exact Hsorted|]. split; [reflexivity|].
  repeat split.
Qed.

(** X5.  With at least two check-ins and finite current calories,
    [analyzeCheckInProgress] returns a finite nutrition adjustment of at
    most 200 kcal in size, whatever the weights and dates.  The adjusted
    calories are not guaranteed to be valid: [validateAdjustment] accepts
    them exactly when they are at or above the floor for the sex, which
    the fallback of 100 kcal does not ensure. *)
Theorem final_adjustment_is_bounded (recentCheckIns : list CheckInData)
    (expectedWeeklyChange : number) (goal : Goal) (cur : Q)
    (gender : Gender) :
  (2 <= List.length recentCheckIns)%nat ->
  exists (analysis : AdjustmentAnalysis) (adjustment : Q),
    analyzeCheckInProgress recentCheckIns expectedWeeklyChange goal cur
      gender = Ok analysis
    /\ nutritionAdjustment analysis = Fin adjustment
    /\ (Qabs adjustment <= 200)%Q
    /\ (isValid
          (validateAdjustment cur (Fin cur + Fin adjustment) gender) = true
        <-> (sexFloor gender <= cur + adjustment)%Q).
Proof.
  intros Hlen.
  destruct (analysis_adjustment recentCheckIns expectedWeeklyChange goal
              cur gender Hlen)
    as (current & previous & rest & analysis & _ & Hok & _ & _ & Hadj).
  exists analysis. cbv zeta in Hadj. unfold recommendationFor in Hadj.
  match type of Hadj with
  | context [analyzeProgress ?pd ?e] =>
      destruct (analyzeProgress_change pd e) as (change & Hchange & Hin);
      rewrite Hchange in Hadj; destruct (shouldAdjust (analyzeProgress pd e))
  end.
  - destruct (isValid _) in Hadj; cbn [negb] in Hadj.
    + exists change. split; [exact Hok|]. split; [exact Hadj|].
      pose proof (recommended_change_bound Hin) as Hbound.
      split; [exact Hbound|].
      change (Fin cur + Fin change) with (Fin (cur + change)).
      rewrite validateAdjustment_valid_iff, step_size.
      split; intros; try lra; tauto.
    + simpl in Hin.
      repeat (destruct Hin as [<-|Hin];
              [eexists; split; [exact Hok|]; split; [exact Hadj|];
               split; [discriminate|];
               match goal with
               | |- context [validateAdjustment _ (Fin ?c + Fin ?a)] =>
                   change (Fin c + Fin a) with (Fin (c + a))
               end;
               rewrite validateAdjustment_valid_iff, step_size;
               split; intros; try lra;
               split; [discriminate | tauto]|]).
      contradiction.
  - exists change. split; [exact Hok|]. split; [exact Hadj|].
    pose proof (recommended_change_bound Hin) as Hbound.
    split; [exact Hbound|].
    change (Fin cur + Fin change) with (Fin (cur + change)).
    rewrite validateAdjustment_valid_iff, step_size.
    split; intros; try lra; tauto.
Qed.

Lemma final_adjustment_is_bounded_witness :
  (2 <= List.length twoCheckIns)%nat
  /\ exists (analysis : AdjustmentAnalysis) (adjustment : Q),
      analyzeCheckInProgress twoCheckIns (-0.5)%Q weight_loss 1550%Q male
      = Ok analysis
      /\ nutritionAdjustment analysis = Fin adjustment
      /\ (Qabs adjustment <= 200)%Q
      /\ (isValid
            (validateAdjustment 1550%Q (Fin 1550 + Fin adjustment) male)
          = true
          <-> (sexFloor male <= 1550 + adjustment)%Q).
Proof.
  split; [simpl; lia|].
  apply (@final_adjustment_is_bounded twoCheckIns (-0.5)%Q weight_loss 1550
           male).
  simpl; lia.
Defined.

(** The fallback can leave the calories below the floor: at 1550 kcal a
    man's recommendation of -200 kcal is replaced by -100 kcal, and 1450
    kcal is still rejected by [validateAdjustment]. *)
Example fallback_below_floor :
  exists analysis,
    analyzeCheckInProgress twoCheckIns (-0.5)%Q weight_loss 1550 male
    = Ok analysis
    /\ nutritionAdjustment analysis = Fin (-100)
    /\ isValid (validateAdjustment 1550
                  (1550 + nutritionAdjustment analysis) male) = false.
Proof. eexists. split; [reflexivity|]. vm_compute. split; reflexivity. Qed.

Lemma on_track_no_change (progressData : ProgressData)
    (expectedWeeklyChange : number) :
  let r := analyzeProgress progressData expectedWeeklyChange in
  AdjustmentValidator.pattern r = on_track ->
  recommendedCalorieChange r = Fin 0 /\ shouldAdjust r = false.
Proof.
  intros r Hpattern.
  destruct (analyzeProgress_outcome progressData expectedWeeklyChange)
    as [Hin Hadjust].
  cbv zeta in Hin, Hadjust. fold r in Hin, Hadjust.
  rewrite Hpattern in Hin, Hadjust. split; [|exact Hadjust].
  simpl in Hin.
  repeat (destruct Hin as [Hin|Hin];
          [first [discriminate Hin | injection Hin; intros; congruence]|]).
  contradiction.
Qed.

(** X6.  With at least two check-ins the analysis returns a result, and
    when its pattern is on_track the nutrition adjustment is 0 kcal and
    [shouldAdjustNutrition] is the stall flag alone: a stalled history
    that is on track is marked for a nutrition adjustment of zero.  For
    every other pattern [shouldAdjustNutrition] is true. *)
Theorem on_track_analysis (recentCheckIns : list CheckInData)
    (expectedWeeklyChange : number) (goal : Goal) (currentCalories : number)
    (gender : Gender) :
  (2 <= List.length recentCheckIns)%nat ->
  exists analysis,
    analyzeCheckInProgress recentCheckIns expectedWeeklyChange goal
      currentCalories gender = Ok analysis
    /\ (AdjustmentEngine.pattern analysis = on_track ->
        nutritionAdjustment analysis = Fin 0
        /\ shouldAdjustNutrition analysis = isStalled analysis)
    /\ (AdjustmentEngine.pattern analysis <> on_track ->
        shouldAdjustNutrition analysis = true).
Proof.
  intros Hlen.
  destruct (mostRecentFirst_two recentCheckIns Hlen)
    as (current & previous & rest & Hsorted).
  unfold analyzeCheckInProgress.
  destruct (Array_length recentCheckIns <? 2) eqn:Hshort.
  { apply Array_length_lt_2 in Hshort. lia. }
  unfold mostRecentFirst in Hsorted. rewrite Hsorted.
  eexists. split; [reflexivity|].
  cbn [AdjustmentEngine.pattern nutritionAdjustment shouldAdjustNutrition
       isStalled].
  match goal with
  | |- context [analyzeProgress ?pd ?e] =>
      pose proof (on_track_no_change pd e) as Hon;
      pose proof (analyzeProgress_outcome pd e) as [_ Hadjust];
      cbv zeta in Hon, Hadjust;
      set (r := analyzeProgress pd e) in *
  end.
  split.
  - intros Hpattern. destruct (Hon Hpattern) as [Hchange Hno].
    rewrite Hno, Hchange. split; reflexivity.
  - intros Hpattern. rewrite Hadjust.
    destruct (AdjustmentValidator.pattern r); try reflexivity.
    now contradiction Hpattern.
Qed.

Lemma on_track_analysis_witness :
  (2 <= List.length fourCheckIns)%nat
  /\ exists analysis,
      analyzeCheckInProgress fourCheckIns 0.25%Q muscle_gain 2800 male
      = Ok analysis
      /\ (AdjustmentEngine.pattern analysis = on_track ->
          nutritionAdjustment analysis = Fin 0
          /\ shouldAdjustNutrition analysis = isStalled analysis)
      /\ (AdjustmentEngine.pattern analysis <> on_track ->
          shouldAdjustNutrition analysis = true).
Proof.
  split; [simpl; lia|].
  apply (@on_track_analysis fourCheckIns 0.25%Q muscle_gain 2800 male).
  simpl; lia.
Defined.

(** X7.  Two check-ins recorded at the same instant with the same finite
    weight give a weekly change of 0 / 0 = NaN.  For the maintenance
    goal every comparison with NaN is false, so the analysis falls
    through to the last branch: it reports an unintentional gain
    (pattern too_slow) and returns an adjustment of -100 kcal, although
    the weight did not change. *)
Theorem same_instant_same_weight (c1 c2 : CheckInData) (w : Q)
    (expectedWeeklyChange currentCalories : number) (gender : Gender) :
  createdAt c1 = createdAt c2 ->
  weight c1 = Fin w -> weight c2 = Fin w ->
  exists analysis,
    analyzeCheckInProgress [c1; c2] expectedWeeklyChange maintenance
      currentCalories gender = Ok analysis
    /\ weeklyWeightChange analysis = NaN
    /\ AdjustmentEngine.pattern analysis = too_slow
    /\ nutritionAdjustment analysis = Fin (-100).
Proof.
  intros Htime Hw1 Hw2.
  destruct (@analysis_adjustment [c1; c2] expectedWeeklyChange maintenance
              currentCalories gender)
    as (current & previous & rest & analysis & Hsorted & Hok & Hpat & Hweek
        & Hadj); [simpl; lia|].
  assert (Hcur : current = c1 /\ previous = c2).
  { unfold mostRecentFirst in Hsorted. cbn [Array_sort Array_insert] in Hsorted.
    unfold getTime in Hsorted. rewrite Htime in Hsorted.
    replace (Fin (inject_Z (createdAt c2)) - Fin (inject_Z (createdAt c2))
             <? 0) with false in Hsorted.
    - now injection Hsorted as <- <-.
    - simpl. destruct (Qltb_spec (inject_Z (createdAt c2)
                                  + - inject_Z (createdAt c2)) 0);
        [lra | reflexivity]. }
  destruct Hcur as [-> ->].
  assert (Hnan : (weight c1 - weight c2)
                 / ((getTime c1 - getTime c2) / MS_PER_WEEK) = NaN).
  { unfold getTime, MS_PER_WEEK. rewrite Htime, Hw1, Hw2. simpl.
    pose proof (Qsign_spec (w + - w)) as Hsign.
    repeat match goal with
           | |- context [Qeq_bool ?a ?b] => destruct (Qeqb_spec a b)
           end;
      destruct (Qsign (w + - w)); try reflexivity; try lra;
      match goal with
      | H : (1000 * 60 * 60 * 24 * 7 == 0)%Q |- _ => discriminate H
      | H : ~ (_ / _ == 0)%Q |- _ => exfalso; apply H; field; discriminate
      end. }
  assert (Hrec : recommendationFor c1 c2 expectedWeeklyChange maintenance
                 = {| shouldAdjust := true;
                      AdjustmentValidator.reason := UnintentionalGain NaN;
                      recommendedCalorieChange := -100;
                      AdjustmentValidator.pattern := too_slow |}).
  { unfold recommendationFor, analyzeProgress.
    cbn [AdjustmentValidator.currentWeight AdjustmentValidator.previousWeight
         weeksSinceLastCheckin AdjustmentValidator.goal].
    rewrite Hnan. reflexivity. }
  exists analysis. split; [exact Hok|].
  rewrite Hweek, Hpat, Hadj, Hnan, Hrec. cbv zeta.
  cbn [shouldAdjust recommendedCalorieChange AdjustmentValidator.pattern].
  repeat split. destruct (isValid _); reflexivity.
Qed.

Lemma same_instant_same_weight_witness :
  createdAt (mkCheckInData 80 0 None None None)
  = createdAt (mkCheckInData 80 0 None None None)
  /\ weight (mkCheckInData 80 0 None None None) = Fin 80
  /\ exists analysis,
      analyzeCheckInProgress
        [mkCheckInData 80 0 None None None;
         mkCheckInData 80 0 None None None] 0%Q maintenance 2000 male
      = Ok analysis
      /\ weeklyWeightChange analysis = NaN
      /\ AdjustmentEngine.pattern analysis = too_slow
      /\ nutritionAdjustment analysis = Fin (-100).
Proof.
  split; [reflexivity|]. split; [reflexivity|].
  apply (@same_instant_same_weight (mkCheckInData 80 0 None None None)
           (mkCheckInData 80 0 None None None) 80 0%Q 2000 male);
    reflexivity.
Defined.

End AdjustmentSafetyFacts.

(* ================================================================== *)
(** * The adjustment engine and the order of the check-ins *)
(* ================================================================== *)

Section OrderFacts.

Import AdjustmentEngine.

Lemma sorted_distinct_is_strict (l : list CheckInData) :
  Sorted notEarlier l ->
  NoDup (map createdAt l) ->
  StronglySorted strictlyLater l.
Proof.
  intros Hsorted Hnodup.
  apply Sorted_StronglySorted in Hsorted;
    [|intros x y z; unfold notEarlier; lia].
  induction Hsorted as [|a l Hsorted IH Hall]; [constructor|].
  simpl in Hnodup. inversion Hnodup as [|k ks Hnotin Hrest]; subst.
  constructor; [now apply IH|].
  rewrite Forall_forall in *. intros b Hb.
  specialize (Hall b Hb). unfold notEarlier in Hall. unfold strictlyLater.
  assert (createdAt b <> createdAt a).
  { intros Heq. apply Hnotin. rewrite <- Heq. now apply in_map. }
  lia.
Qed.

(** Two strictly sorted arrangements of the same check-ins are equal. *)
Lemma strictly_sorted_unique (l1 l2 : list CheckInData) :
  StronglySorted strictlyLater l1 ->
  StronglySorted strictlyLater l2 ->
  Permutation l1 l2 ->
  l1 = l2.
Proof.
  intros H1. revert l2.
  induction H1 as [|a l1 Hs1 IH Hall1]; intros l2 H2 Hperm.
  - apply Permutation_nil in Hperm. now subst.
  - destruct H2 as [|b l2 Hs2 Hall2].
    + apply Permutation_sym, Permutation_nil in Hperm. discriminate.
    + assert (Hab : a = b).
      { assert (Ha : In a (b :: l2))
          by (eapply Permutation_in; [exact Hperm | now left]).
        assert (Hb : In b (a :: l1))
          by (eapply Permutation_in;
              [apply Permutation_sym; exact Hperm | now left]).
        destruct Ha as [Ha|Ha]; [now subst|].
        destruct Hb as [Hb|Hb]; [now subst|].
        rewrite Forall_forall in Hall1, Hall2.
        specialize (Hall1 b Hb). specialize (Hall2 a Ha).
        unfold strictlyLater in *. lia. }
      subst b. f_equal. apply IH; [exact Hs2|].
      eapply Permutation_cons_inv. exact Hperm.
Qed.

Lemma mostRecentFirst_canonical (cs cs' : list CheckInData) :
  Permutation cs cs' ->
  NoDup (map createdAt cs) ->
  mostRecentFirst cs = mostRecentFirst cs'.
Proof.
  intros Hperm Hnodup.
  assert (Hnodup' : NoDup (map createdAt cs')).
  { eapply Permutation_NoDup; [|exact Hnodup]. now apply Permutation_map. }
  apply strictly_sorted_unique.
  - apply sorted_distinct_is_strict; [apply mostRecentFirst_sorted|].
    eapply Permutation_NoDup; [|exact Hnodup].
    apply Permutation_map, mostRecentFirst_Permutation.
  - apply sorted_distinct_is_strict; [apply mostRecentFirst_sorted|].
    eapply Permutation_NoDup; [|exact Hnodup'].
    apply Permutation_map, mostRecentFirst_Permutation.
  - rewrite <- (mostRecentFirst_Permutation cs).
    rewrite <- (mostRecentFirst_Permutation cs'). exact Hperm.
Qed.

Lemma short_permutation_is_equal (cs cs' : list CheckInData) :
  Permutation cs cs' -> (List.length cs < 2)%nat -> cs = cs'.
Proof.
  intros Hperm Hlen.
  destruct cs as [|a [|b l]]; simpl in Hlen; try lia.
  - apply Permutation_nil in Hperm. now subst.
  - apply Permutation_length_1_inv in Hperm. now subst.
Qed.

(** X8.  [analyzeCheckInProgress] sorts the array of its caller in place.
    When the check-ins carry pairwise different timestamps, the outcome
    of a call (its result, and the order in which it leaves the caller's
    array) does not depend on the order in which they are passed; with
    two check-ins or more the caller's array holds the same check-ins
    afterwards, sorted by date, most recent first. *)
Theorem analysis_ignores_input_order (cs cs' : list CheckInData)
    (expectedWeeklyChange : number) (goal : Goal) (currentCalories : number)
    (gender : Gender) :
  Permutation cs cs' ->
  NoDup (map createdAt cs) ->
  AdjustmentEngineInPlace.analyzeCheckInProgress cs expectedWeeklyChange
    goal currentCalories gender
  = AdjustmentEngineInPlace.analyzeCheckInProgress cs' expectedWeeklyChange
      goal currentCalories gender
  /\ ((2 <= List.length cs)%nat ->
      let after :=
        AdjustmentEngineInPlace.recentCheckInsAfter
          (AdjustmentEngineInPlace.analyzeCheckInProgress cs
             expectedWeeklyChange goal currentCalories gender) in
      Sorted notEarlier after /\ Permutation cs after).
Proof.
  intros Hperm Hnodup.
  unfold AdjustmentEngineInPlace.analyzeCheckInProgress.
  assert (Hlen : Array_length cs' = Array_length cs).
  { unfold Array_length. now rewrite (Permutation_length Hperm). }
  rewrite Hlen.
  destruct (Array_length cs <? 2) eqn:Hshort.
  - apply Array_length_lt_2 in Hshort.
    pose proof (short_permutation_is_equal Hperm Hshort) as <-.
    split; [reflexivity | intros; lia].
  - pose proof (mostRecentFirst_canonical Hperm Hnodup) as Hsorted.
    unfold mostRecentFirst in Hsorted. rewrite Hsorted.
    assert (Hvalue :
              analyzeCheckInProgress cs expectedWeeklyChange goal
                currentCalories gender
              = analyzeCheckInProgress cs' expectedWeeklyChange goal
                  currentCalories gender).
    { unfold analyzeCheckInProgress. rewrite Hlen, Hsorted. reflexivity. }
    rewrite Hvalue. split; [reflexivity|].
    intros _. cbn [AdjustmentEngineInPlace.recentCheckInsAfter].
    rewrite <- Hsorted. split.
    + apply mostRecentFirst_sorted.
    + apply mostRecentFirst_Permutation.
Qed.

Lemma analysis_ignores_input_order_witness :
  Permutation twoCheckIns (rev twoCheckIns)
  /\ NoDup (map createdAt twoCheckIns)
  /\ AdjustmentEngineInPlace.analyzeCheckInProgress twoCheckIns (-0.5)%Q
       weight_loss 2000 male
     = AdjustmentEngineInPlace.analyzeCheckInProgress (rev twoCheckIns)
         (-0.5)%Q weight_loss 2000 male
  /\ AdjustmentEngineInPlace.recentCheckInsAfter
       (AdjustmentEngineInPlace.analyzeCheckInProgress twoCheckIns (-0.5)%Q
          weight_loss 2000 male)
     = rev twoCheckIns.
Proof.
  assert (Hperm : Permutation twoCheckIns (rev twoCheckIns))
    by apply Permutation_rev.
  assert (Hnodup : NoDup (map createdAt twoCheckIns)).
  { simpl. repeat constructor; simpl; intuition discriminate. }
  split; [exact Hperm|]. split; [exact Hnodup|].
  split; [|reflexivity].
  apply (@analysis_ignores_input_order twoCheckIns (rev twoCheckIns));
    assumption.
Defined.

End OrderFacts.

(* ================================================================== *)
(** * The calculators: steps, differences and bounds *)
(* ================================================================== *)

Section CalculatorFacts.

#[local] Arguments Qplus : simpl never.
#[local] Arguments Qmult : simpl never.
#[local] Arguments Qopp : simpl never.
#[local] Arguments Qminus : simpl never.
#[local] Arguments Qdiv : simpl never.
#[local] Arguments Qfloor : simpl never.
#[local] Arguments inject_Z : simpl never.
#[local] Arguments Qle_bool : simpl never.
#[local] Arguments Qeq_bool : simpl never.
#[local] Arguments Qabs : simpl never.

(** [Math.round] is monotone, and does not fall below an integer that
    its argument reaches. *)
Lemma round_monotone (x y : Q) :
  (x <= y)%Q -> (Qfloor (x + (1 # 2)) <= Qfloor (y + (1 # 2)))%Z.
Proof. intros H. apply Qfloor_resp_le. lra. Qed.


(** X9.  [adjustCalories] never applies its proportional formula: once
    the actual weekly change differs from the expected one by more than
    0.2 kg, the rounded difference x 1100 is more than 220 in size and is
    limited to 200.  The result is the current calories + 200 when the
    actual change is above the expected one and the current calories
    - 200 when it is below, for every goal: a weight loss slower than
    expected raises the calories.  Nothing is stated for a difference of
    exactly 0.2 kg, where the binary rounding of the subtraction decides
    in the code. *)
Theorem adjustCalories_steps (currentCalories actual expected : Q)
    (goal : Goal) :
  (0.2 < Qabs (actual - expected))%Q ->
  EnergyBalance.adjustCalories currentCalories actual expected goal
  = Fin (currentCalories + (if Qltb expected actual then 200 else -200)).
Proof.
  intros H. unfold EnergyBalance.adjustCalories. simpl.
  change (actual + - expected)%Q with (actual - expected)%Q.
  pose proof (round_bounds ((actual - expected) * 1100)) as [Hlo Hhi].
  destruct (Qltb_spec (Qabs (actual - expected)) 0.2) as [Hn|_];
    [exfalso; lra|].
  assert (Hcases : (expected + 0.2 < actual
                    \/ actual < expected - 0.2)%Q).
  { revert H. apply Qabs_case; intros; lra. }
  destruct (Qltb_spec expected actual) as [Hgt|Hle];
    repeat (case_cmp; try (exfalso; lra)); try reflexivity.
Qed.

Lemma adjustCalories_steps_witness :
  (0.2 < Qabs (-0.2 - -0.5))%Q
  /\ EnergyBalance.adjustCalories 2000%Q (-0.2)%Q (-0.5)%Q weight_loss
     = Fin (2000 + 200).
Proof.
  split; [reflexivity|].
  apply (@adjustCalories_steps 2000 (-0.2) (-0.5) weight_loss). reflexivity.
Defined.

(** X10.  For the same finite weight, height and age, [calculateBMR]
    gives a man exactly 166 kcal more than a woman: the rounding does
    not disturb the difference of the two constants 5 and -161. *)
Theorem bmr_sex_difference (w h a : Q) (l1 l2 : ActivityLevel) :
  exists b : Z,
    TdeeCalculator.calculateBMR
      (TdeeCalculator.mkTDEEInput w h a female l1) = Fin (inject_Z b)
    /\ TdeeCalculator.calculateBMR
         (TdeeCalculator.mkTDEEInput w h a male l2)
       = Fin (inject_Z (b + 166)).
Proof.
  unfold TdeeCalculator.calculateBMR. simpl.
  eexists. split; [reflexivity|]. do 2 f_equal.
  match goal with
  | |- Qfloor (?x + (1 # 2)) = (Qfloor (?y + (1 # 2)) + 166)%Z =>
      pose proof (round_bounds x) as [Hxl Hxh];
      pose proof (round_bounds y) as [Hyl Hyh];
      set (zx := Qfloor (x + (1 # 2))) in *;
      set (zy := Qfloor (y + (1 # 2))) in *
  end.
  assert (H1 : (inject_Z (zy + 165) < inject_Z zx)%Q).
  { rewrite inject_Z_plus. change (inject_Z 165) with 165%Q. lra. }
  assert (H2 : (inject_Z zx < inject_Z (zy + 167))%Q).
  { rewrite inject_Z_plus. change (inject_Z 167) with 167%Q. lra. }
  rewrite <- Zlt_Qlt in H1, H2. lia.
Qed.

(** X11.  When the rounded BMR is not negative, the TDEE of
    [calculateTDEE] is at least the BMR and does not decrease from one
    activity level to the next higher one (sedentary, light, moderate,
    active, very_active). *)
Theorem tdee_grows_with_activity (weight height age : number)
    (gender : Gender) (l1 l2 : ActivityLevel) :
  let input1 := TdeeCalculator.mkTDEEInput weight height age gender l1 in
  let input2 := TdeeCalculator.mkTDEEInput weight height age gender l2 in
  (0 <=? TdeeCalculator.calculateBMR input1) = true ->
  (activityRank l1 <= activityRank l2)%nat ->
  (TdeeCalculator.calculateBMR input1
   <=? TdeeCalculator.tdee (TdeeCalculator.calculateTDEE input1)) = true
  /\ (TdeeCalculator.tdee (TdeeCalculator.calculateTDEE input1)
      <=? TdeeCalculator.tdee (TdeeCalculator.calculateTDEE input2)) = true.
Proof.
  intros input1 input2. unfold input1, input2.
  unfold TdeeCalculator.calculateTDEE, TdeeCalculator.calculateBMR.
  cbn [TdeeCalculator.weight TdeeCalculator.height TdeeCalculator.age
       TdeeCalculator.gender TdeeCalculator.activityLevel
       TdeeCalculator.tdee].
  match goal with
  | |- context [Math_round (add ?x ?y)] => generalize (add x y)
  end.
  intros [x| | |]; simpl; try discriminate.
  - set (b := Qfloor (x + (1 # 2))).
    destruct (Qleb_spec 0 (inject_Z b)) as [Hb|]; [|discriminate].
    intros _ Hrank.
    assert (Hround : forall m : Q,
               (1 <= m)%Q -> (b <= Qfloor (inject_Z b * m + (1 # 2)))%Z).
    { intros m Hm. rewrite <- (round_integer b) at 1.
      apply round_monotone. nra. }
    assert (Hmono : forall m n : Q,
               (m <= n)%Q ->
               (Qfloor (inject_Z b * m + (1 # 2))
                <= Qfloor (inject_Z b * n + (1 # 2)))%Z).
    { intros m n Hmn. apply round_monotone. nra. }
    destruct l1, l2; simpl in Hrank; try lia; simpl;
      (split; apply Qle_bool_iff; rewrite <- Zle_Qle;
       [apply Hround | apply Hmono]; lra).
  - intros _ _. destruct l1, l2; split; reflexivity.
Qed.

Lemma tdee_grows_with_activity_witness :
  (0 <=? TdeeCalculator.calculateBMR
           (TdeeCalculator.mkTDEEInput 80 180 30 male sedentary)) = true
  /\ (activityRank sedentary <= activityRank moderate)%nat
  /\ (TdeeCalculator.calculateBMR
        (TdeeCalculator.mkTDEEInput 80 180 30 male sedentary)
      <=? TdeeCalculator.tdee
            (TdeeCalculator.calculateTDEE
               (TdeeCalculator.mkTDEEInput 80 180 30 male sedentary)))
     = true
  /\ (TdeeCalculator.tdee
        (TdeeCalculator.calculateTDEE
           (TdeeCalculator.mkTDEEInput 80 180 30 male sedentary))
      <=? TdeeCalculator.tdee
            (TdeeCalculator.calculateTDEE
               (TdeeCalculator.mkTDEEInput 80 180 30 male moderate)))
     = true.
Proof.
  split; [reflexivity|]. split; [simpl; lia|].
  apply (@tdee_grows_with_activity 80 180 30 male sedentary moderate);
    [reflexivity | simpl; lia].
Defined.

(** X12.  For every finite weight, height and age, the TDEE of the plan
    builder (unrounded BMR x 1.55, rounded once) and the TDEE of the TDEE
    calculator at moderate activity (rounded BMR x 1.55, rounded again)
    are whole numbers that differ by at most 1 kcal. *)
Theorem plan_builder_tdee_within_one (w h a : Q) (gender : Gender)
    (level : string) :
  exists p t : Z,
    PlanBuilderService.calculateTDEE
      (PlanBuilderService.mkTDEEParams w h a (sexName gender) level)
    = Fin (inject_Z p)
    /\ TdeeCalculator.tdee
         (TdeeCalculator.calculateTDEE
            (TdeeCalculator.mkTDEEInput w h a gender moderate))
       = Fin (inject_Z t)
    /\ (Z.abs (p - t) <= 1)%Z.
Proof.
  unfold PlanBuilderService.calculateTDEE, TdeeCalculator.calculateTDEE,
    TdeeCalculator.calculateBMR.
  destruct gender; simpl;
    (do 2 eexists; split; [reflexivity|]; split; [reflexivity|]);
    match goal with
    | |- (Z.abs (Qfloor (?x * 1.55 + (1 # 2))
                 - Qfloor (inject_Z (Qfloor (?y + (1 # 2))) * 1.55
                           + (1 # 2))) <= 1)%Z =>
        pose proof (round_bounds (x * 1.55)) as [Hpl Hph];
        pose proof (round_bounds y) as [Hbl Hbh];
        pose proof (round_bounds
                      (inject_Z (Qfloor (y + (1 # 2))) * 1.55)) as [Htl Hth];
        set (p := Qfloor (x * 1.55 + (1 # 2))) in *;
        set (b := Qfloor (y + (1 # 2))) in *;
        set (t := Qfloor (inject_Z b * 1.55 + (1 # 2))) in *
    end;
    (assert (H1 : (inject_Z (t + -2) < inject_Z p)%Q)
       by (rewrite inject_Z_plus; change (inject_Z (-2)) with (-2)%Q; lra));
    (assert (H2 : (inject_Z p < inject_Z (t + 2))%Q)
       by (rewrite inject_Z_plus; change (inject_Z 2) with 2%Q; lra));
    rewrite <- Zlt_Qlt in H1, H2; lia.
Qed.

(** [toFixed(2)] of a value that lies less than half a hundredth outside
    two bounds with two decimals lies between the bounds. *)
Lemma toFixed2_between (q : Q) (lo hi : Z) :
  (inject_Z lo * (1 # 100) - (1 # 200) < q
   < inject_Z hi * (1 # 100) + (1 # 200))%Q ->
  exists k : Q,
    toFixed2 (Fin q) = Fin k
    /\ (inject_Z lo * (1 # 100) <= k <= inject_Z hi * (1 # 100))%Q.
Proof.
  intros [Hlo Hhi]. unfold toFixed2.
  eexists. split; [reflexivity|].
  assert (Hdiv : forall x : Q, (x / 100 == x * (1 # 100))%Q)
    by (intros; reflexivity).
  pose proof (round_bounds (Qabs q * 100)) as [Hrl Hrh].
  set (n := Qfloor (Qabs q * 100 + (1 # 2))) in *.
  destruct (Qltb_spec q 0) as [Hneg|Hpos].
  - cbv iota. rewrite !Hdiv. rewrite (Qabs_neg q) in * by lra.
    assert (H1 : (inject_Z n < inject_Z (- lo + 1))%Q).
    { rewrite inject_Z_plus, inject_Z_opp. change (inject_Z 1) with 1%Q.
      lra. }
    assert (H2 : (inject_Z (-1) < inject_Z n)%Q).
    { change (inject_Z (-1)) with (-1)%Q. lra. }
    rewrite <- Zlt_Qlt in H1, H2.
    assert (H3 : (n <= - lo)%Z) by lia. assert (H4 : (0 <= n)%Z) by lia.
    assert (H5 : (lo <= 0)%Z) by lia.
    rewrite Zle_Qle in H3, H4. rewrite inject_Z_opp in H3.
    change (inject_Z 0) with 0%Q in H4.
    assert (H7 : (- inject_Z n * (1 # 100) <= 0)%Q) by lra.
    split; [lra|].
    destruct (Z_le_gt_dec 0 hi) as [Hh|Hh].
    + rewrite Zle_Qle in Hh. change (inject_Z 0) with 0%Q in Hh. lra.
    + assert (Hh' : (hi <= -1)%Z) by lia.
      rewrite Zle_Qle in Hh'. change (inject_Z (-1)) with (-1)%Q in Hh'.
      assert (H8 : (inject_Z (- hi + -1) < inject_Z n)%Q).
      { rewrite inject_Z_plus, inject_Z_opp.
        change (inject_Z (-1)) with (-1)%Q. lra. }
      rewrite <- Zlt_Qlt in H8.
      assert (H9 : (- hi <= n)%Z) by lia.
      rewrite Zle_Qle, inject_Z_opp in H9. lra.
  - cbv iota. rewrite !Hdiv. rewrite (Qabs_pos q) in * by lra.
    assert (H1 : (inject_Z n < inject_Z (hi + 1))%Q).
    { rewrite inject_Z_plus. change (inject_Z 1) with 1%Q. lra. }
    assert (H2 : (inject_Z (-1) < inject_Z n)%Q).
    { change (inject_Z (-1)) with (-1)%Q. lra. }
    rewrite <- Zlt_Qlt in H1, H2.
    assert (H3 : (n <= hi)%Z) by lia. assert (H4 : (0 <= n)%Z) by lia.
    rewrite Zle_Qle in H3, H4. change (inject_Z 0) with 0%Q in H4.
    split; [|lra].
    destruct (Z_le_gt_dec lo 0) as [Hl|Hl].
    + rewrite Zle_Qle in Hl. change (inject_Z 0) with 0%Q in Hl. lra.
    + assert (H8 : (inject_Z (lo + -1) < inject_Z n)%Q).
      { rewrite inject_Z_plus. change (inject_Z (-1)) with (-1)%Q. lra. }
      rewrite <- Zlt_Qlt in H8.
      assert (H9 : (lo <= n)%Z) by lia.
      rewrite Zle_Qle in H9. lra.
Qed.

(** X13.  For every finite TDEE > 0, the weekly weight change that
    [calculateTargetCalories] estimates lies between -0.45 and 0 kg for
    weight loss, is 0 for maintenance, and lies between 0 and 0.27 kg for
    muscle gain: the caps of 500 and 300 kcal bound it. *)
Theorem weekly_change_estimate (tdee : Q) (weight : number) :
  (0 < tdee)%Q ->
  exists loss keep gain : Q,
    EnergyBalance.weeklyWeightChangeKg
      (EnergyBalance.calculateTargetCalories
         (EnergyBalance.mkEnergyBalanceInput tdee weight_loss weight))
    = Fin loss
    /\ EnergyBalance.weeklyWeightChangeKg
         (EnergyBalance.calculateTargetCalories
            (EnergyBalance.mkEnergyBalanceInput tdee maintenance weight))
       = Fin keep
    /\ EnergyBalance.weeklyWeightChangeKg
         (EnergyBalance.calculateTargetCalories
            (EnergyBalance.mkEnergyBalanceInput tdee muscle_gain weight))
       = Fin gain
    /\ (-0.45 <= loss <= 0)%Q /\ (keep == 0)%Q /\ (0 <= gain <= 0.27)%Q.
Proof.
  intros Htdee.
  destruct (deficit_field_weight_loss weight Htdee)
    as (dl & _ & Hdl & _ & Hboundl & _).
  destruct (deficit_field_muscle_gain weight Htdee)
    as (dg & _ & Hdg & _ & Hboundg & _).
  assert (Hweekly : forall input,
             EnergyBalance.weeklyWeightChangeKg
               (EnergyBalance.calculateTargetCalories input)
             = toFixed2
                 (EnergyBalance.deficit
                    (EnergyBalance.calculateTargetCalories input)
                  * 7 / 7700)) by reflexivity.
  assert (Hdiv' : forall x : Q, (x / 7700 == x * (1 # 7700))%Q)
    by (intros; reflexivity).
  rewrite !Hweekly, Hdl, Hdg.
  destruct (@toFixed2_between (dl * 7 / 7700) (-45) 0) as (loss & Hl & Hlb).
  { rewrite Hdiv'. change (inject_Z (-45)) with (-45)%Q.
    change (inject_Z 0) with 0%Q. lra. }
  destruct (@toFixed2_between (dg * 7 / 7700) 0 27) as (gain & Hg & Hgb).
  { rewrite Hdiv'. change (inject_Z 27) with 27%Q.
    change (inject_Z 0) with 0%Q. lra. }
  assert (Hdk : EnergyBalance.deficit
                  (EnergyBalance.calculateTargetCalories
                     (EnergyBalance.mkEnergyBalanceInput tdee maintenance
                        weight))
                = Fin (inject_Z 0)).
  { unfold EnergyBalance.calculateTargetCalories. simpl. do 2 f_equal.
    rewrite <- (round_integer 0) at 2. apply Qfloor_comp.
    change (inject_Z 0) with 0%Q. ring. }
  rewrite Hdk.
  destruct (@toFixed2_between (inject_Z 0 * 7 / 7700) 0 0)
    as (keep & Hk & Hkb).
  { rewrite Hdiv'. change (inject_Z 0) with 0%Q. lra. }
  exists loss, keep, gain.
  change (inject_Z (-45)) with (-45)%Q in Hlb.
  change (inject_Z 27) with 27%Q in Hgb.
  change (inject_Z 0) with 0%Q in Hlb, Hgb, Hkb.
  split; [exact Hl|]. split; [exact Hk|]. split; [exact Hg|].
  split; [lra|]. split; lra.
Qed.

Lemma weekly_change_estimate_witness :
  (0 < 2759)%Q
  /\ exists loss keep gain : Q,
      EnergyBalance.weeklyWeightChangeKg
        (EnergyBalance.calculateTargetCalories
           (EnergyBalance.mkEnergyBalanceInput 2759%Q weight_loss 80))
      = Fin loss
      /\ EnergyBalance.weeklyWeightChangeKg
           (EnergyBalance.calculateTargetCalories
              (EnergyBalance.mkEnergyBalanceInput 2759%Q maintenance 80))
         = Fin keep
      /\ EnergyBalance.weeklyWeightChangeKg
           (EnergyBalance.calculateTargetCalories
              (EnergyBalance.mkEnergyBalanceInput 2759%Q muscle_gain 80))
         = Fin gain
      /\ (-0.45 <= loss <= 0)%Q /\ (keep == 0)%Q /\ (0 <= gain <= 0.27)%Q.
Proof.
  split; [reflexivity|].
  apply (@weekly_change_estimate 2759 80). reflexivity.
Defined.

End CalculatorFacts.

(* ================================================================== *)
(** * Nutrition plans: generation and adjustment *)
(* ================================================================== *)

Section NutritionPlanFacts.

Import SafetyValidator NutritionPlanGenerator.

#[local] Arguments Qplus : simpl never.
#[local] Arguments Qmult : simpl never.
#[local] Arguments Qopp : simpl never.
#[local] Arguments Qminus : simpl never.
#[local] Arguments Qdiv : simpl never.
#[local] Arguments Qfloor : simpl never.
#[local] Arguments inject_Z : simpl never.
#[local] Arguments Qle_bool : simpl never.
#[local] Arguments Qeq_bool : simpl never.
#[local] Arguments Qabs : simpl never.

Lemma Qdiv_7700 (x : Q) : (x / 7700 == x * (1 # 7700))%Q.
Proof. reflexivity. Qed.

(** Validity of a plan with finite numbers, check by check. *)
Lemma valid_plan_iff (calories protein weight tdee : Q) (gender : Gender)
    (goal : Goal) :
  isValid (validateNutritionPlan calories protein weight gender tdee goal)
  = true
  <-> ((sexFloor gender <= calories)%Q
       /\ (weight * 1.6 <= protein)%Q
       /\ (goal = weight_loss ->
           (tdee - calories <= 500)%Q /\ (tdee - calories <= 11 * weight)%Q)
       /\ (goal = muscle_gain -> (calories - tdee <= 300)%Q)).
Proof.
  unfold validateNutritionPlan, push_if, gtb. cbn [isValid].
  rewrite MIN_CALORIES_sexFloor.
  destruct goal; simpl;
    repeat (case_cmp; simpl);
    repeat match goal with
           | H : context [(_ / 7700)%Q] |- _ => rewrite Qdiv_7700 in H
           end;
    (split; [intros H; try discriminate H;
             repeat split; intros; try discriminate; lra
            | intros (H1 & H2 & H3 & H4);
              try reflexivity;
              try (destruct H3 as [H3 H3']; [reflexivity|]);
              try (specialize (H4 eq_refl));
              exfalso; lra]).
Qed.

Lemma plan_warnings_iff (calories protein weight tdee : Q) (gender : Gender)
    (goal : Goal) :
  SafetyValidator.warnings
    (validateNutritionPlan calories protein weight gender tdee goal) = []
  <-> (protein <= weight * 3.0)%Q.
Proof.
  unfold validateNutritionPlan, push_if, gtb.
  cbn [SafetyValidator.warnings]. simpl.
  case_cmp; simpl; split; intros; try discriminate; try reflexivity; lra.
Qed.

Lemma calculateProtein_bounds (w : Q) (goal : Goal) :
  (5 # 3 <= w)%Q ->
  exists p : Q,
    MacroCalculator.calculateProtein w goal = Fin p
    /\ (w * 1.6 <= p <= w * 3.0)%Q.
Proof.
  intros Hw. unfold MacroCalculator.calculateProtein.
  assert (E1 : ((1.8 + 2.2) / 2 == 2)%Q) by reflexivity.
  assert (E2 : ((1.6 + 2.2) / 2 == 1.9)%Q) by reflexivity.
  destruct goal; simpl; repeat (case_cmp; try discriminate);
    (eexists; split; [reflexivity|]);
    rewrite ?E1, ?E2;
    match goal with
    | |- context [Qfloor (?x + (1 # 2))] =>
        pose proof (round_bounds x) as [Hlo Hhi]
    end; lra.
Qed.

Lemma calculateTDEE_integer (w h a : Q) (gender : Gender)
    (level : ActivityLevel) :
  exists T : Z,
    TdeeCalculator.tdee
      (TdeeCalculator.calculateTDEE
         (TdeeCalculator.mkTDEEInput w h a gender level))
    = Fin (inject_Z T).
Proof. destruct gender, level; eexists; reflexivity. Qed.

Lemma targetCalories_maintenance_integer (z : Z) (w : number) :
  EnergyBalance.targetCalories
    (EnergyBalance.calculateTargetCalories
       (EnergyBalance.mkEnergyBalanceInput (inject_Z z) maintenance w))
  = Fin (inject_Z z).
Proof.
  unfold EnergyBalance.calculateTargetCalories. simpl.
  assert (Hzero : Qfloor (inject_Z z * 0 + (1 # 2)) = 0%Z).
  { rewrite <- (round_integer 0) at 2. apply Qfloor_comp.
    change (inject_Z 0) with 0%Q. ring. }
  rewrite Hzero. apply round_sum_integers. lia.
Qed.

(** The target of a plan for an integer TDEE, goal by goal. *)
Lemma targetCalories_integer (T : Z) (goal : Goal) (w : number) :
  exists t : Z,
    EnergyBalance.targetCalories
      (EnergyBalance.calculateTargetCalories
         (EnergyBalance.mkEnergyBalanceInput (inject_Z T) goal w))
    = Fin (inject_Z t)
    /\ match goal with
       | weight_loss => (T - t)%Z = Z.min (percentDeficit T) 500
       | maintenance => t = T
       | muscle_gain => (t - T)%Z = Z.min (percentSurplus T) 300
       end.
Proof.
  destruct goal.
  - eexists. split; [apply targetCalories_weight_loss_integer | lia].
  - eexists. split; [apply targetCalories_maintenance_integer | lia].
  - eexists. split; [apply targetCalories_muscle_gain_integer | lia].
Qed.

(** X14.  For finite weight (at least 5/3 kg), height and age,
    [generateNutritionPlan] returns a whole-number TDEE and target, its
    validation carries no warning, and of the six safety checks only two
    can fail: the plan is valid exactly when the target is at or above
    the floor for the sex and, for weight loss, the deficit is at most
    11 kcal per kg of body weight (the limit of 1 percent of body weight
    per week).  From a weight of 500/11 kg (about 45.5 kg) the plan is
    valid exactly when the target is at or above the floor. *)
Theorem generated_plan_validity (w h a : Q) (gender : Gender)
    (level : ActivityLevel) (goal : Goal)
    (preferences : option (list string)) (meals : option number) :
  (5 # 3 <= w)%Q ->
  let plan :=
    generateNutritionPlan
      (mkNutritionPlanInput w h a gender level goal preferences meals) in
  exists T t : Z,
    tdee plan = Fin (inject_Z T)
    /\ targetCalories plan = Fin (inject_Z t)
    /\ SafetyValidator.warnings (validation plan) = []
    /\ (isValid (validation plan) = true
        <-> (sexFloor gender <= inject_Z t)%Q
            /\ (goal = weight_loss -> (inject_Z (T - t) <= 11 * w)%Q))
    /\ ((500 # 11 <= w)%Q ->
        (isValid (validation plan) = true
         <-> (sexFloor gender <= inject_Z t)%Q)).
Proof.
  intros Hw plan.
  destruct (calculateTDEE_integer w h a gender level) as (T & HT).
  destruct (targetCalories_integer T goal w) as (t & Ht & Hgoal).
  destruct (calculateProtein_bounds goal Hw) as (p & Hp & Hpb).
  assert (Htdee : tdee plan = Fin (inject_Z T)) by exact HT.
  assert (Htarget : targetCalories plan = Fin (inject_Z t)).
  { unfold plan, generateNutritionPlan. cbn [targetCalories
      weight height age NutritionPlanGenerator.gender activityLevel
      NutritionPlanGenerator.goal].
    rewrite HT. exact Ht. }
  assert (Hvalidation :
            validation plan
            = validateNutritionPlan (targetCalories plan)
                (MacroCalculator.calculateProtein w goal) w gender
                (tdee plan) goal) by reflexivity.
  exists T, t. split; [exact Htdee|]. split; [exact Htarget|].
  rewrite Hvalidation, Htdee, Htarget, Hp.
  rewrite plan_warnings_iff, valid_plan_iff.
  assert (Hdiff : (inject_Z T - inject_Z t == inject_Z (T - t))%Q).
  { unfold Z.sub. rewrite inject_Z_plus, inject_Z_opp. ring. }
  assert (Hdiff' : (inject_Z t - inject_Z T == inject_Z (t - T))%Q).
  { unfold Z.sub. rewrite inject_Z_plus, inject_Z_opp. ring. }
  rewrite Hdiff, Hdiff'.
  assert (Hcap : goal = weight_loss -> (inject_Z (T - t) <= 500)%Q).
  { intros ->. change 500%Q with (inject_Z 500). rewrite <- Zle_Qle. lia. }
  assert (Hsur : goal = muscle_gain -> (inject_Z (t - T) <= 300)%Q).
  { intros ->. change 300%Q with (inject_Z 300). rewrite <- Zle_Qle. lia. }
  split; [lra|]. split; [|intros Hheavy].
  - split.
    + intros (Hfloor & _ & Hloss & _). split; [exact Hfloor|].
      intros Hg. now apply Hloss.
    + intros (Hfloor & Hloss). split; [exact Hfloor|]. split; [lra|].
      split; [|exact Hsur].
      intros Hg. split; [now apply Hcap | now apply Hloss].
  - split.
    + intros (Hfloor & _). exact Hfloor.
    + intros Hfloor. split; [exact Hfloor|]. split; [lra|].
      split; [|exact Hsur].
      intros Hg. specialize (Hcap Hg). split; [exact Hcap | lra].
Qed.

Lemma generated_plan_validity_witness :
  (5 # 3 <= 80)%Q
  /\ let plan :=
       generateNutritionPlan
         (mkNutritionPlanInput 80 180 30 male moderate weight_loss None
            None) in
     exists T t : Z,
       tdee plan = Fin (inject_Z T)
       /\ targetCalories plan = Fin (inject_Z t)
       /\ SafetyValidator.warnings (validation plan) = []
       /\ (isValid (validation plan) = true
           <-> (sexFloor male <= inject_Z t)%Q
               /\ (weight_loss = weight_loss ->
                   (inject_Z (T - t) <= 11 * 80)%Q))
       /\ ((500 # 11 <= 80)%Q ->
           (isValid (validation plan) = true
            <-> (sexFloor male <= inject_Z t)%Q)).
Proof.
  split; [discriminate|].
  apply (@generated_plan_validity 80 180 30 male moderate weight_loss None
           None).
  discriminate.
Defined.

Lemma percentDeficit_at_cap (T : Z) :
  (2498 <= T)%Z -> (500 <= percentDeficit T)%Z.
Proof.
  intros HT. unfold percentDeficit.
  pose proof (round_bounds (inject_Z T * -0.20)) as [_ Hhi].
  rewrite Zle_Qle in HT. change (inject_Z 2498) with 2498%Q in HT.
  assert (H : (inject_Z (Qfloor (inject_Z T * -0.20 + (1 # 2)))
               < inject_Z (-499))%Q).
  { change (inject_Z (-499)) with (-499)%Q. lra. }
  rewrite <- Zlt_Qlt in H. lia.
Qed.

(** X15.  A generated weight-loss plan whose TDEE is 2498 kcal or more
    has its deficit at the cap of 500 kcal, so [adjustNutritionPlan]
    marks every reduction of its calories as invalid, whatever the
    current weight and sex: the deficit of the adjusted plan exceeds
    500 kcal. *)
Theorem capped_plan_rejects_decrease (w h a : Q) (gender : Gender)
    (level : ActivityLevel) (preferences : option (list string))
    (meals : option number) (change currentWeight : Q)
    (currentGender : Gender) :
  let plan :=
    generateNutritionPlan
      (mkNutritionPlanInput w h a gender level weight_loss preferences
         meals) in
  (2498 <=? tdee plan) = true ->
  (change < 0)%Q ->
  isValid
    (validation
       (adjustNutritionPlan plan change currentWeight currentGender
          weight_loss))
  = false.
Proof.
  intros plan Hcap Hchange.
  destruct (calculateTDEE_integer w h a gender level) as (T & HT).
  destruct (targetCalories_integer T weight_loss w) as (t & Ht & Hgoal).
  destruct (calculateProtein_finite currentWeight weight_loss)
    as (p & Hp).
  assert (Htdee : tdee plan = Fin (inject_Z T)) by exact HT.
  assert (Htarget : targetCalories plan = Fin (inject_Z t)).
  { unfold plan, generateNutritionPlan. cbn [targetCalories
      weight height age NutritionPlanGenerator.gender activityLevel
      NutritionPlanGenerator.goal].
    rewrite HT. exact Ht. }
  assert (Hvalidation :
            validation
              (adjustNutritionPlan plan change currentWeight currentGender
                 weight_loss)
            = validateNutritionPlan (targetCalories plan + change)
                (MacroCalculator.calculateProtein currentWeight weight_loss)
                currentWeight currentGender (tdee plan) weight_loss)
    by reflexivity.
  rewrite Htdee in Hcap. simpl in Hcap.
  destruct (Qleb_spec 2498 (inject_Z T)) as [HT'|]; [|discriminate].
  change 2498%Q with (inject_Z 2498) in HT'. rewrite <- Zle_Qle in HT'.
  pose proof (percentDeficit_at_cap HT') as Hpd.
  assert (Hdef : (T - t)%Z = 500%Z) by lia.
  rewrite Hvalidation, Htdee, Htarget, Hp.
  change (Fin (inject_Z t) + Fin change) with (Fin (inject_Z t + change)).
  match goal with
  | |- ?v = false => destruct v eqn:Hvalid; [exfalso | reflexivity]
  end.
  apply valid_plan_iff in Hvalid.
  destruct Hvalid as (_ & _ & Hloss & _).
  destruct (Hloss eq_refl) as [Hloss' _].
  assert (Hdiff : (inject_Z T - inject_Z t == inject_Z (T - t))%Q).
  { unfold Z.sub. rewrite inject_Z_plus, inject_Z_opp. ring. }
  rewrite Hdef in Hdiff. change (inject_Z 500) with 500%Q in Hdiff. lra.
Qed.

Lemma capped_plan_rejects_decrease_witness :
  (2498 <=? tdee
             (generateNutritionPlan
                (mkNutritionPlanInput 80 180 30 male moderate weight_loss
                   None None))) = true
  /\ (-100 < 0)%Q
  /\ isValid
       (validation
          (adjustNutritionPlan
             (generateNutritionPlan
                (mkNutritionPlanInput 80 180 30 male moderate weight_loss
                   None None))
             (-100)%Q 80%Q male weight_loss))
     = false.
Proof.
  split; [reflexivity|]. split; [reflexivity|].
  apply (@capped_plan_rejects_decrease 80 180 30 male moderate None None
           (-100) 80 male); reflexivity.
Defined.

(** The signed [deficit] field of the generator for an integer TDEE: the
    target is the TDEE plus this field. *)
Lemma deficit_field_integer (T : Z) (goal : Goal) (w : number) :
  exists d : Z,
    EnergyBalance.deficit
      (EnergyBalance.calculateTargetCalories
         (EnergyBalance.mkEnergyBalanceInput (inject_Z T) goal w))
    = Fin (inject_Z d)
    /\ EnergyBalance.targetCalories
         (EnergyBalance.calculateTargetCalories
            (EnergyBalance.mkEnergyBalanceInput (inject_Z T) goal w))
       = Fin (inject_Z (T + d)).
Proof.
  unfold EnergyBalance.calculateTargetCalories.
  destruct goal; simpl.
  - change (- (500))%Q with (inject_Z (-500)).
    case_cmp; eexists; (split; [reflexivity|]);
      apply round_sum_integers; reflexivity.
  - eexists; (split; [reflexivity|]); apply round_sum_integers; reflexivity.
  - change 300%Q with (inject_Z 300).
    case_cmp; eexists; (split; [reflexivity|]);
      apply round_sum_integers; reflexivity.
Qed.

(** [toFixed(2)] is odd: it rounds the magnitude. *)
Lemma toFixed2_odd (x y : Q) :
  (y == - x)%Q ->
  exists k l : Q,
    toFixed2 (Fin x) = Fin k /\ toFixed2 (Fin y) = Fin l /\ (l == - k)%Q.
Proof.
  intros Hy. unfold toFixed2. do 2 eexists.
  split; [reflexivity|]. split; [reflexivity|]. cbv zeta.
  assert (Habs : (Qabs y == Qabs x)%Q) by (rewrite Hy; apply Qabs_opp).
  assert (Hn : Qfloor (Qabs y * 100 + (1 # 2))
               = Qfloor (Qabs x * 100 + (1 # 2))).
  { apply Qfloor_comp. rewrite Habs. reflexivity. }
  rewrite Hn.
  assert (Hdiv : forall z : Q, (z / 100 == z * (1 # 100))%Q)
    by (intros; reflexivity).
  destruct (Qltb_spec y 0), (Qltb_spec x 0); rewrite !Hdiv; try lra.
  assert (Hx : (x == 0)%Q) by lra.
  assert (Hzero : Qfloor (Qabs x * 100 + (1 # 2)) = 0%Z).
  { transitivity (Qfloor (inject_Z 0 + (1 # 2))); [|apply round_integer].
    apply Qfloor_comp. rewrite Hx. reflexivity. }
  rewrite Hzero. reflexivity.
Qed.

(** X16.  [adjustNutritionPlan] reports the deficit with the opposite
    sign of [generateNutritionPlan]: where the generated plan has the
    signed deficit d (negative for a weight loss), the plan adjusted by
    [change] kcal has the deficit -(d + change), and its estimated weekly
    weight change is the negative of what the generator's formula gives
    for d + change. *)
Theorem adjusted_plan_reverses_sign (w h a : Q) (gender : Gender)
    (level : ActivityLevel) (goal : Goal)
    (preferences : option (list string)) (meals : option number)
    (change : Q) (currentWeight : number) (currentGender : Gender)
    (currentGoal : Goal) :
  let plan :=
    generateNutritionPlan
      (mkNutritionPlanInput w h a gender level goal preferences meals) in
  let adjusted :=
    adjustNutritionPlan plan change currentWeight currentGender
      currentGoal in
  exists d d' e e' : Q,
    deficit plan = Fin d
    /\ deficit adjusted = Fin d'
    /\ (d' == - (d + change))%Q
    /\ toFixed2 (Fin ((d + change) * 7 / 7700)) = Fin e
    /\ estimatedWeeklyWeightChange adjusted = Fin e'
    /\ (e' == - e)%Q.
Proof.
  intros plan adjusted.
  destruct (calculateTDEE_integer w h a gender level) as (T & HT).
  destruct (deficit_field_integer T goal w) as (d & Hd & Ht).
  assert (Htdee : tdee plan = Fin (inject_Z T)) by exact HT.
  assert (Hdeficit : deficit plan = Fin (inject_Z d)).
  { unfold plan, generateNutritionPlan. cbn [deficit
      weight height age NutritionPlanGenerator.gender activityLevel
      NutritionPlanGenerator.goal].
    rewrite HT. exact Hd. }
  assert (Htarget : targetCalories plan = Fin (inject_Z (T + d))).
  { unfold plan, generateNutritionPlan. cbn [targetCalories
      weight height age NutritionPlanGenerator.gender activityLevel
      NutritionPlanGenerator.goal].
    rewrite HT. exact Ht. }
  assert (Hnew : deficit adjusted = tdee plan - (targetCalories plan + change))
    by reflexivity.
  assert (Hweekly : estimatedWeeklyWeightChange adjusted
                    = toFixed2 (deficit adjusted * 7 / 7700)) by reflexivity.
  rewrite Hweekly, Hnew, Htdee, Htarget, Hdeficit. simpl.
  destruct (Qeqb_spec 7700 0) as [H|_]; [discriminate H|].
  assert (Hd' : (inject_Z T + - (inject_Z (T + d) + change)
                 == - (inject_Z d + change))%Q).
  { rewrite inject_Z_plus. ring. }
  destruct (@toFixed2_odd ((inject_Z d + change) * 7 / 7700)
              ((inject_Z T + - (inject_Z (T + d) + change)) * 7 / 7700))
    as (e & e' & He & He' & Hee).
  { rewrite Hd'. field. }
  exists (inject_Z d), (inject_Z T + - (inject_Z (T + d) + change))%Q, e, e'.
  repeat split; try assumption; try reflexivity; try lra.
Qed.

End NutritionPlanFacts.

(* ================================================================== *)
(** * Training plans: program selection and volume *)
(* ================================================================== *)

Section TrainingFacts.

Import TrainingPlanGenerator.

#[local] Arguments Qplus : simpl never.
#[local] Arguments Qmult : simpl never.
#[local] Arguments Qopp : simpl never.
#[local] Arguments Qminus : simpl never.
#[local] Arguments Qdiv : simpl never.
#[local] Arguments Qfloor : simpl never.
#[local] Arguments inject_Z : simpl never.
#[local] Arguments Qle_bool : simpl never.
#[local] Arguments Qeq_bool : simpl never.
#[local] Arguments Qabs : simpl never.

(** A table entry is found exactly for the days that the fallback rules
    would name. *)
Lemma template_found (level : ExperienceLevel) (days : number)
    (template : ProgramTemplate) :
  PROGRAM_TEMPLATES (level, days) = Some template ->
  PROGRAM_TEMPLATES (level, programDays level days) = Some template.
Proof.
  unfold PROGRAM_TEMPLATES, programDays, isDay, geb.
  destruct days as [d| | |]; [|destruct level; discriminate..].
  change (inject_Z 3) with 3%Q. change (inject_Z 4) with 4%Q.
  change (inject_Z 5) with 5%Q. change (inject_Z 6) with 6%Q.
  cbn [leb].
  destruct level;
    repeat match goal with
           | |- context [Qeq_bool d ?k] => destruct (Qeqb_spec d k)
           end; try discriminate;
    repeat match goal with
           | |- context [Qle_bool ?k d] => destruct (Qleb_spec k d)
           end; try (exfalso; lra); intros H; exact H.
Qed.

Lemma fallback_template (level : ExperienceLevel) (days : number) :
  exists template,
    PROGRAM_TEMPLATES (level, programDays level days) = Some template.
Proof.
  unfold programDays.
  destruct level;
    repeat match goal with
           | |- context [if ?c then _ else _] => destruct c
           end; eexists; reflexivity.
Qed.

Lemma selected_program (input : TrainingPlanInput) :
  exists template,
    PROGRAM_TEMPLATES (selectTrainingProgram input) = Some template
    /\ PROGRAM_TEMPLATES
         (experienceLevel input,
          programDays (experienceLevel input) (adjustedDays input))
       = Some template.
Proof.
  unfold selectTrainingProgram. fold (adjustedDays input).
  destruct (PROGRAM_TEMPLATES (experienceLevel input, adjustedDays input))
    as [template|] eqn:Hfound.
  - exists template. split; [exact Hfound | now apply template_found].
  - destruct (fallback_template (experienceLevel input) (adjustedDays input))
      as (template & Htemplate).
    exists template. split; [|exact Htemplate].
    rewrite <- Htemplate. unfold programDays.
    destruct (experienceLevel input);
      repeat match goal with
             | |- context [if ?c then _ else _] => destruct c
             end; reflexivity.
Qed.

(** X17.  [selectTrainingProgram] always returns a key of the program
    table, for every input (fractional, out-of-range or non-finite days
    included): the program is the one that the fallback thresholds name
    for the days after the limit for minimal equipment, a table hit
    being consistent with them.  An advanced trainee with minimal
    equipment who asks for more than 4 days gets the 5-day advanced
    program. *)
Theorem program_selection (input : TrainingPlanInput) :
  exists template,
    PROGRAM_TEMPLATES (selectTrainingProgram input) = Some template
    /\ PROGRAM_TEMPLATES
         (experienceLevel input,
          programDays (experienceLevel input) (adjustedDays input))
       = Some template
    /\ (experienceLevel input = advanced ->
        equipment input = minimal ->
        (daysPerWeek input >? 4) = true ->
        programId template = "powerbuilding_advanced"%string).
Proof.
  destruct (selected_program input) as (template & Hsel & Hdays).
  exists template. split; [exact Hsel|]. split; [exact Hdays|].
  intros Hlevel Hequipment Hmany.
  unfold adjustedDays in Hdays.
  rewrite Hlevel, Hequipment, Hmany in Hdays.
  injection Hdays as <-. reflexivity.
Qed.

(** The volume of every template is one of six values between 12 and 22
    sets, and only the beginner programs are of moderate intensity. *)
Lemma template_range (level : ExperienceLevel) (days : number)
    (template : ProgramTemplate) :
  PROGRAM_TEMPLATES (level, days) = Some template ->
  In (volume template) [Fin 12; Fin 14; Fin 16; Fin 18; Fin 20; Fin 22]
  /\ intensity template
     = match level with beginner => moderate | _ => hard end.
Proof.
  unfold PROGRAM_TEMPLATES.
  destruct level;
    repeat match goal with
           | |- context [if ?c then _ else _] => destruct c
           end; intros H; try discriminate; injection H as <-;
    (split; [simpl; auto 10 | reflexivity]).
Qed.

(** X18.  [generateTrainingPlan] returns a plan for every input: the
    template is always found.  The initial volume is a whole number
    between 9 and 26 sets, the deload frequency is 6 weeks for beginners
    and 4 weeks otherwise, and [daysPerWeek] of the plan is the requested
    number even when the plan carries the warning that the days were
    reduced to 4, which is given exactly for minimal equipment with more
    than 4 requested days. *)
Theorem training_plan_is_generated (input : TrainingPlanInput) :
  exists (plan : TrainingPlanResult) (v : Z),
    generateTrainingPlan input = Ok plan
    /\ initialVolume plan = Fin (inject_Z v)
    /\ (9 <= v <= 26)%Z
    /\ deloadFrequency plan
       = (match experienceLevel input with
          | beginner => Fin 6
          | _ => Fin 4
          end)
    /\ result_daysPerWeek plan = daysPerWeek input
    /\ (In DaysReducedToFour (warnings plan) <->
        equipment input = minimal /\ (daysPerWeek input >? 4) = true).
Proof.
  destruct (selected_program input) as (template & Hsel & Hdays).
  apply template_range in Hdays. destruct Hdays as [Hrange Hintensity].
  unfold generateTrainingPlan. rewrite Hsel.
  assert (Hdeload : (if Intensity_eqb (intensity template) hard
                     then Fin 4 else Fin 6)
                    = match experienceLevel input with
                      | beginner => Fin 6
                      | _ => Fin 4
                      end).
  { rewrite Hintensity. destruct (experienceLevel input); reflexivity. }
  assert (Hwarn : forall (c1 c2 c3 : bool),
             In DaysReducedToFour
                (push_if c3 IntensityReducedForInjuries
                   (push_if c2 VolumeReducedForAge
                      (push_if c1 DaysReducedToFour [])))
             <-> c1 = true).
  { intros [|] [|] [|]; simpl; intuition discriminate. }
  assert (Hcond : Equipment_eqb (equipment input) minimal
                  && (daysPerWeek input >? 4) = true
                  <-> equipment input = minimal
                      /\ (daysPerWeek input >? 4) = true).
  { rewrite andb_true_iff. destruct (equipment input); simpl;
      intuition discriminate. }
  cbv zeta. simpl in Hrange.
  repeat (destruct Hrange as [Hrange|Hrange];
          [rewrite <- Hrange;
           destruct (goal input), (age input >=? 50), (age input >=? 40),
             (Array_length
                match injuries input with Some l => l | None => [] end
              >? 0);
           cbv beta iota;
           (eexists; eexists; split; [reflexivity|]);
           cbn [initialVolume deloadFrequency result_daysPerWeek warnings];
           rewrite Hwarn, Hcond, Hdeload;
           (split; [reflexivity|]);
           (split; [vm_compute; split; discriminate|]);
           (split; [reflexivity|]); (split; [reflexivity|]); reflexivity
          |]).
  contradiction.
Qed.

(** X19.  For a whole-number volume v >= 0, [adjustTrainingVolume]
    never lowers the volume when stalling and never raises it when
    regressing, and leaves it as it is when progressing.  The rounding
    absorbs small volumes: stalling changes nothing below 10 sets, and
    regressing changes nothing up to 5 sets. *)
Theorem adjustTrainingVolume_steps (v : Z) :
  (0 <= v)%Z ->
  exists up down : Z,
    adjustTrainingVolume (inject_Z v) stalling = Fin (inject_Z up)
    /\ adjustTrainingVolume (inject_Z v) regressing = Fin (inject_Z down)
    /\ adjustTrainingVolume (inject_Z v) progressing = Fin (inject_Z v)
    /\ (down <= v <= up)%Z
    /\ (up = v <-> v < 10)%Z
    /\ (down = v <-> v <= 5)%Z.
Proof.
  intros Hv. unfold adjustTrainingVolume. simpl.
  exists (Qfloor (inject_Z v * 1.05 + (1 # 2))),
    (Qfloor (inject_Z v * 0.9 + (1 # 2))).
  split; [reflexivity|]. split; [reflexivity|]. split; [reflexivity|].
  pose proof (round_bounds (inject_Z v * 1.05)) as [Hul Huh].
  pose proof (round_bounds (inject_Z v * 0.9)) as [Hdl Hdh].
  set (up := Qfloor (inject_Z v * 1.05 + (1 # 2))) in *.
  set (down := Qfloor (inject_Z v * 0.9 + (1 # 2))) in *.
  assert (Hv' : (0 <= inject_Z v)%Q).
  { change 0%Q with (inject_Z 0). now rewrite <- Zle_Qle. }
  assert (Hup : (v - 1 < up)%Z).
  { assert (H : (inject_Z (v + -1) < inject_Z up)%Q).
    { rewrite inject_Z_plus. change (inject_Z (-1)) with (-1)%Q. lra. }
    rewrite <- Zlt_Qlt in H. lia. }
  assert (Hdown : (down < v + 1)%Z).
  { rewrite Zlt_Qlt, inject_Z_plus. change (inject_Z 1) with 1%Q. lra. }
  assert (Hup_small : (v < 10 -> up < v + 1)%Z).
  { intros Hs. assert (Hs' : (v <= 9)%Z) by lia.
    rewrite Zle_Qle in Hs'. change (inject_Z 9) with 9%Q in Hs'.
    rewrite Zlt_Qlt, inject_Z_plus. change (inject_Z 1) with 1%Q. lra. }
  assert (Hup_large : (10 <= v -> v < up)%Z).
  { intros Hs. rewrite Zle_Qle in Hs. change (inject_Z 10) with 10%Q in Hs.
    rewrite Zlt_Qlt. lra. }
  assert (Hdown_small : (v <= 5 -> v - 1 < down)%Z).
  { intros Hs. rewrite Zle_Qle in Hs. change (inject_Z 5) with 5%Q in Hs.
    assert (H : (inject_Z (v + -1) < inject_Z down)%Q).
    { rewrite inject_Z_plus. change (inject_Z (-1)) with (-1)%Q. lra. }
    rewrite <- Zlt_Qlt in H. lia. }
  assert (Hdown_large : (6 <= v -> down < v)%Z).
  { intros Hs. rewrite Zle_Qle in Hs. change (inject_Z 6) with 6%Q in Hs.
    rewrite Zlt_Qlt. lra. }
  lia.
Qed.

Lemma adjustTrainingVolume_steps_witness :
  (0 <= 9)%Z
  /\ exists up down : Z,
      adjustTrainingVolume (inject_Z 9) stalling = Fin (inject_Z up)
      /\ adjustTrainingVolume (inject_Z 9) regressing = Fin (inject_Z down)
      /\ adjustTrainingVolume (inject_Z 9) progressing = Fin (inject_Z 9)
      /\ (down <= 9 <= up)%Z
      /\ (up = 9 <-> 9 < 10)%Z
      /\ (down = 9 <-> 9 <= 5)%Z.
Proof.
  split; [lia|]. apply (@adjustTrainingVolume_steps 9). lia.
Defined.

End TrainingFacts.

(* ================================================================== *)
(** * Action selection: guardrails and the sign of the adjustment *)
(* ================================================================== *)

Section GuardrailFacts.

Import RulePackTypes ActionSelector.

#[local] Arguments Qplus : simpl never.
#[local] Arguments Qmult : simpl never.
#[local] Arguments Qopp : simpl never.
#[local] Arguments Qminus : simpl never.
#[local] Arguments Qdiv : simpl never.
#[local] Arguments Qfloor : simpl never.
#[local] Arguments inject_Z : simpl never.
#[local] Arguments Qle_bool : simpl never.
#[local] Arguments Qeq_bool : simpl never.
#[local] Arguments Qabs : simpl never.



(** X21.  The adjustment of [selectCalorieAdjustment] is a finite value
    between -150 and +200 kcal for every rule pack and input.  It is
    negative only in a CUT mode with low or moderate recovery risk, a
    trend that is not decreasing and a confidence that is not below the
    minimum.  Whenever the adjustment is not zero, the new calories are
    the guarded sum of the current calories and the adjustment. *)
Theorem negative_adjustment_only_in_cut (rulePack : RulePack)
    (params : Params) :
  let selection := selectCalorieAdjustment rulePack params in
  exists change : Q,
    adjustment selection = Fin change
    /\ (-150 <= change <= 200)%Q
    /\ ((change < 0)%Q ->
        String.prefix "CUT" (currentMode params) = true
        /\ (riskLevel params = low \/ riskLevel params = moderate)
        /\ trend params <> decreasing
        /\ (confidence params
            <? minimumConfidenceForAction (trendAnalysis rulePack)) = false)
    /\ ((change == 0)%Q \/
        newCalories selection
        = applyGuardrails rulePack
            (currentCalories (userContext params) + Fin change)
            (userContext params)).
Proof.
  unfold selectCalorieAdjustment. cbv zeta.
  destruct (confidence params
            <? minimumConfidenceForAction (trendAnalysis rulePack));
    [exists 0%Q; repeat split; try lra; left; reflexivity|].
  destruct (riskLevel params) eqn:Hrisk, (trend params) eqn:Htrend;
    try (eexists; split; [reflexivity|]; split; [lra|];
         split; [intros; lra | (right; reflexivity) || (left; reflexivity)]);
    destruct (String.prefix "CUT" (currentMode params));
    try destruct (String.prefix "GAIN" (currentMode params));
    unfold selectCutAdjustment, selectGainAdjustment;
    cbn [adjustment newCalories];
    (eexists; split; [reflexivity|]; split; [lra|];
     split; [intros Hneg; try lra;
             repeat split; auto; discriminate
            | (right; reflexivity) || (left; reflexivity)]).
Qed.

End GuardrailFacts.

(* ================================================================== *)
(** * Signal interpretation: trend, plateau, confidence and risk *)
(* ================================================================== *)

Section TrendFacts.

Import ActionSelector SignalInterpreter.

#[local] Arguments Qplus : simpl never.
#[local] Arguments Qmult : simpl never.
#[local] Arguments Qopp : simpl never.
#[local] Arguments Qminus : simpl never.
#[local] Arguments Qdiv : simpl never.
#[local] Arguments Qfloor : simpl never.
#[local] Arguments inject_Z : simpl never.
#[local] Arguments Qle_bool : simpl never.
#[local] Arguments Qeq_bool : simpl never.
#[local] Arguments Qabs : simpl never.

Variable rulePack : RulePackView.

(** The comparator of the trend analysis puts the earlier check-in
    first. *)
Lemma earlier_first (x y : CheckinData) :
  (getTime x - getTime y <? 0) = (createdAt x <? createdAt y)%Z.
Proof.
  unfold getTime. simpl.
  destruct (Qltb_spec (inject_Z (createdAt x) + - inject_Z (createdAt y)) 0)
    as [H|H]; symmetry; [apply Z.ltb_lt | apply Z.ltb_ge].
  - assert (H' : (inject_Z (createdAt x) < inject_Z (createdAt y))%Q) by lra.
    now rewrite <- Zlt_Qlt in H'.
  - assert (H' : (inject_Z (createdAt y) <= inject_Z (createdAt x))%Q) by lra.
    now rewrite <- Zle_Qle in H'.
Qed.

Lemma insert_keeps_ascending (x : CheckinData) (xs : list CheckinData) :
  Sorted notLater xs ->
  Sorted notLater (Array_insert (fun a b => getTime a - getTime b) x xs).
Proof.
  induction 1 as [|y ys Hsorted IH Hhd]; cbn [Array_insert].
  - repeat constructor.
  - rewrite earlier_first. destruct (Z.ltb_spec (createdAt y) (createdAt x)).
    + constructor; [exact IH|].
      destruct ys as [|z zs]; cbn [Array_insert].
      * constructor. unfold notLater. lia.
      * rewrite earlier_first.
        destruct (Z.ltb_spec (createdAt z) (createdAt x));
          constructor; unfold notLater; try lia.
        now inversion Hhd.
    + constructor; [now constructor|]. constructor. unfold notLater. lia.
Qed.

Lemma oldest_first_sorted (checkins : list CheckinData) :
  StronglySorted notLater
    (Array_sort (fun a b => getTime a - getTime b) checkins).
Proof.
  apply Sorted_StronglySorted; [intros x y z; unfold notLater; lia|].
  induction checkins as [|x xs IH]; simpl; [constructor|].
  now apply insert_keeps_ascending.
Qed.

Lemma last_in {A : Type} (x d : A) (xs : list A) :
  In (last (x :: xs) d) (x :: xs).
Proof.
  destruct (exists_last (l := x :: xs)) as (l0 & z & Hlast); [discriminate|].
  rewrite Hlast, last_last. apply in_or_app. right. now left.
Qed.

Lemma last_is_latest (first : CheckinData) (sorted : list CheckinData) :
  StronglySorted notLater sorted ->
  forall c, In c sorted -> notLater c (last sorted first).
Proof.
  induction 1 as [|a l Hsorted IH Hall]; intros c Hc; [contradiction|].
  destruct l as [|b l'].
  - destruct Hc as [<-|[]]. unfold notLater. simpl. lia.
  - change (last (a :: b :: l') first) with (last (b :: l') first).
    destruct Hc as [<-|Hc]; [|now apply IH].
    rewrite Forall_forall in Hall. apply Hall. apply last_in.
Qed.

(** With two check-ins or more, the trend analysis reads the weights of
    the oldest and of the newest check-in and nothing else. *)
Lemma analyzeTrend_shape (checkins : list CheckinData) :
  (2 <= List.length checkins)%nat ->
  exists oldest newest,
    In oldest checkins /\ In newest checkins
    /\ (forall c, In c checkins -> notLater oldest c /\ notLater c newest)
    /\ analyzeTrend rulePack checkins
       = {| trend :=
              trendOf (plateau_maxWeightChange rulePack)
                (weight newest - weight oldest);
            avgWeightChange := weight newest - weight oldest;
            confidence := calculateConfidence rulePack checkins |}.
Proof.
  intros Hlen. unfold analyzeTrend.
  destruct (Array_length checkins <? 2) eqn:Hshort.
  { apply Array_length_lt_2 in Hshort. lia. }
  pose proof (oldest_first_sorted checkins) as Hsorted.
  pose proof (Array_sort_Permutation (fun a b => getTime a - getTime b)
                checkins) as Hperm.
  pose proof (Array_sort_length (fun a b => getTime a - getTime b)
                checkins) as Hsize.
  destruct (Array_sort _ checkins) as [|first rest] eqn:Hsort;
    [simpl in Hsize; lia|].
  exists first, (Array_last first (first :: rest)).
  assert (Hin : forall c, In c checkins <-> In c (first :: rest)).
  { intros c. split; apply Permutation_in;
      [exact Hperm | now apply Permutation_sym]. }
  split; [apply Hin; now left|].
  split.
  { apply Hin. unfold Array_last. apply last_in. }
  split; [|reflexivity].
  intros c Hc. apply Hin in Hc. split.
  - inversion Hsorted as [|? ? _ Hall]; subst.
    destruct Hc as [<-|Hc]; [unfold notLater; lia|].
    rewrite Forall_forall in Hall. now apply Hall.
  - unfold Array_last. now apply last_is_latest.
Qed.

(** X22.  With two check-ins or more, [analyzeTrend] reads the weights
    of the oldest and of the newest check-in only, in whatever order the
    check-ins are passed: [avgWeightChange] is the newest weight minus
    the oldest one, not an average, and the trend is stable, decreasing
    or increasing by that difference alone. *)
Theorem trend_reads_oldest_and_newest (checkins : list CheckinData) :
  (2 <= List.length checkins)%nat ->
  exists oldest newest,
    In oldest checkins /\ In newest checkins
    /\ (forall c, In c checkins -> notLater oldest c /\ notLater c newest)
    /\ avgWeightChange (analyzeTrend rulePack checkins)
       = weight newest - weight oldest
    /\ trend (analyzeTrend rulePack checkins)
       = trendOf (plateau_maxWeightChange rulePack)
           (weight newest - weight oldest).
Proof.
  intros Hlen.
  destruct (analyzeTrend_shape checkins Hlen)
    as (oldest & newest & Hold & Hnew & Hbounds & Hshape).
  exists oldest, newest. rewrite Hshape.
  split; [exact Hold|]. split; [exact Hnew|]. split; [exact Hbounds|].
  split; reflexivity.
Qed.

(** X23.  With two check-ins or more, [detectPlateau] holds exactly when
    the check-ins are at least as many as the trend window, the newest
    weight is within the plateau threshold of the oldest one, and the
    average adherence score reaches the minimum: the test on the trend
    and the test on the weight change are one and the same. *)
Theorem plateau_iff (checkins : list CheckinData) :
  (2 <= List.length checkins)%nat ->
  exists oldest newest,
    In oldest checkins /\ In newest checkins
    /\ (forall c, In c checkins -> notLater oldest c /\ notLater c newest)
    /\ detectPlateau rulePack checkins
       = negb (Array_length checkins <? trendWindow rulePack)
         && (Math_abs (weight newest - weight oldest)
             <=? plateau_maxWeightChange rulePack)
         && (calculateAdherenceScore rulePack checkins
             >=? plateau_minAdherence rulePack / 100).
Proof.
  intros Hlen.
  destruct (analyzeTrend_shape checkins Hlen)
    as (oldest & newest & Hold & Hnew & Hbounds & Hshape).
  exists oldest, newest.
  split; [exact Hold|]. split; [exact Hnew|]. split; [exact Hbounds|].
  unfold detectPlateau. rewrite Hshape. cbn [trend avgWeightChange].
  unfold trendOf.
  destruct (Array_length checkins <? trendWindow rulePack);
    [reflexivity|].
  destruct (Math_abs (weight newest - weight oldest)
            <=? plateau_maxWeightChange rulePack); [reflexivity|].
  destruct (weight newest - weight oldest <? 0); reflexivity.
Qed.

Lemma clamp_unit (q : Q) :
  exists r : Q, Math_max 0 (Math_min 1 (Fin q)) = Fin r /\ (0 <= r <= 1)%Q.
Proof.
  simpl. destruct (Qleb_spec 1 q); simpl;
    try case_cmp; eexists; (split; [reflexivity|]); lra.
Qed.

Lemma sum_finite (scores : list number) (start : number) :
  Forall isFinite scores -> isFinite start ->
  isFinite (fold_left (fun sum score => sum + score) scores start).
Proof.
  intros Hall. revert start.
  induction Hall as [|x xs [q ->] _ IH]; intros start [s ->]; simpl.
  - now exists s.
  - apply IH. now eexists.
Qed.

Lemma adherence_finite (checkins : list CheckinData) :
  knownSignals rulePack checkins ->
  checkins <> [] ->
  isFinite (calculateAdherenceScore rulePack checkins).
Proof.
  intros Hknown Hne.
  unfold calculateAdherenceScore.
  destruct (@sum_finite
              (map (fun c =>
                      match adherenceMapping rulePack (adherence c) with
                      | Some score => score
                      | None =>
                          if inheritedKey (adherence c) then NaN else Fin 0.5
                      end) checkins) (Fin 0)) as (total & ->).
  { apply Forall_forall. intros x Hx. apply in_map_iff in Hx.
    destruct Hx as (c & <- & Hc).
    destruct (Hknown c Hc) as [Hkey _]. unfold knownKey in Hkey.
    destruct (adherenceMapping rulePack (adherence c));
      [exact Hkey | rewrite Hkey; now eexists]. }
  { now eexists. }
  unfold Array_length. rewrite length_map. simpl.
  destruct (Qeqb_spec (inject_Z (Z.of_nat (List.length checkins))) 0)
    as [Hzero|_]; [|now eexists].
  exfalso. change 0%Q with (inject_Z 0) in Hzero.
  apply inject_Z_injective in Hzero.
  destruct checkins; [now apply Hne | discriminate Hzero].
Qed.

Lemma dataQuality_finite (checkins : list CheckinData) :
  finiteConfidenceRules rulePack ->
  isFinite (calculateDataQualityScore rulePack checkins).
Proof.
  intros ([window Hwindow] & _).
  unfold calculateDataQualityScore, Array_length, geb. rewrite Hwindow.
  simpl.
  destruct (Qleb_spec window (inject_Z (Z.of_nat (List.length checkins))))
    as [|Hless]; [now eexists|].
  destruct (Qeqb_spec window 0) as [Hzero|_]; [|now eexists].
  exfalso. apply Hless. rewrite Hzero. change 0%Q with (inject_Z 0).
  rewrite <- Zle_Qle. lia.
Qed.

Lemma eventImpact_finite (checkins : list CheckinData) :
  knownSignals rulePack checkins ->
  exists r : Q,
    calculateEventImpactScore rulePack checkins = Fin r /\ (0 <= r <= 1)%Q.
Proof.
  intros Hknown.
  unfold calculateEventImpactScore.
  assert (Hinner : forall (evs : list string) (score : number),
             (forall event, In event evs ->
                            knownKey (eventImpact rulePack) event) ->
             isFinite score ->
             isFinite
               (fold_left
                  (fun score event =>
                     score
                     - match eventImpact rulePack event with
                       | Some i => or_else i 0
                       | None => if inheritedKey event then NaN else Fin 0
                       end) evs score)).
  { induction evs as [|event evs IH]; intros score Hevs [q ->]; simpl;
      [now eexists|].
    apply IH; [intros e He; apply Hevs; now right|].
    pose proof (Hevs event (or_introl eq_refl)) as Hkey.
    unfold knownKey in Hkey.
    destruct (eventImpact rulePack event) as [i|].
    - destruct Hkey as [x ->]. unfold or_else.
      destruct (truthy (Fin x)); now eexists.
    - rewrite Hkey. now eexists. }
  assert (Houter : forall (cs : list CheckinData) (score : number),
             knownSignals rulePack cs ->
             isFinite score ->
             isFinite
               (fold_left
                  (fun score checkin =>
                     fold_left
                       (fun score event =>
                          score
                          - match eventImpact rulePack event with
                            | Some i => or_else i 0
                            | None =>
                                if inheritedKey event then NaN else Fin 0
                            end) (events checkin) score) cs score)).
  { induction cs as [|c cs IH]; intros score Hcs Hscore; simpl;
      [exact Hscore|].
    apply IH; [intros c' Hc'; apply Hcs; now right|].
    apply Hinner; [|exact Hscore].
    now apply (Hcs c (or_introl eq_refl)). }
  destruct (Houter checkins (Fin 1.0) Hknown) as [q Hq]; [now eexists|].
  cbv zeta. rewrite Hq. apply clamp_unit.
Qed.

(** X24.  When the rule pack holds finite numbers for the trend window
    and the three confidence weights, and the adherence levels and the
    events of the check-ins are keys that the rule pack holds with a
    finite value or that no object holds, [calculateConfidence] returns a
    finite value between 0 and 1.  (A key inherited from
    [Object.prototype], such as ['constructor'], gives [NaN].) *)
Theorem confidence_is_a_fraction (checkins : list CheckinData) :
  finiteConfidenceRules rulePack ->
  knownSignals rulePack checkins ->
  exists q : Q,
    calculateConfidence rulePack checkins = Fin q /\ (0 <= q <= 1)%Q.
Proof.
  intros Hrules Hknown. unfold calculateConfidence.
  destruct checkins as [|c cs] eqn:Hcs;
    [exists 0%Q; split; [reflexivity | lra]|].
  rewrite <- Hcs in *.
  destruct (@adherence_finite checkins Hknown) as [a Ha];
    [rewrite Hcs; discriminate|].
  destruct (dataQuality_finite checkins Hrules) as [d Hd].
  destruct (@eventImpact_finite checkins Hknown) as (e & He & _).
  destruct Hrules as (_ & [wa Hwa] & [wd Hwd] & [we Hwe]).
  cbv zeta. rewrite Ha, Hd, He, Hwa, Hwd, Hwe.
  apply clamp_unit.
Qed.

Lemma finite_sample_rules : finiteConfidenceRules sampleSignalRules.
Proof. repeat split; eexists; reflexivity. Qed.

Lemma known_sample_signals : knownSignals sampleSignalRules threeSignals.
Proof.
  intros c Hc. simpl in Hc.
  repeat (destruct Hc as [<-|Hc];
          [split; [eexists; reflexivity|];
           intros event Hevent; simpl in Hevent;
           repeat (destruct Hevent as [<-|Hevent];
                   [eexists; reflexivity|]);
           contradiction|]).
  contradiction.
Qed.

(** X25.  With risk weights >= 0 and thresholds in ascending order, the
    risk level of [assessRecoveryRisk] is monotone: signals with no more
    energy and sleep and no less hunger and stress never give a lower
    risk level. *)
Theorem risk_grows_with_strain (we wh ws wst m h c : Q)
    (energy1 hunger1 sleep1 stress1 energy2 hunger2 sleep2 stress2 : Q) :
  riskRules rulePack we wh ws wst m h c ->
  (0 <= we)%Q -> (0 <= wh)%Q -> (0 <= ws)%Q -> (0 <= wst)%Q ->
  (m <= h <= c)%Q ->
  (energy2 <= energy1)%Q -> (hunger1 <= hunger2)%Q ->
  (sleep2 <= sleep1)%Q -> (stress1 <= stress2)%Q ->
  (riskRank
     (riskLevel
        (assessRecoveryRisk rulePack
           (mkSubjectiveSignals energy1 hunger1 sleep1 stress1)))
   <= riskRank
        (riskLevel
           (assessRecoveryRisk rulePack
              (mkSubjectiveSignals energy2 hunger2 sleep2 stress2))))%nat.
Proof.
  intros (Hwe & Hwh & Hws & Hwst & Hm & Hh & Hc) Pe Ph Ps Pst Horder
    He Hhu Hs Hst.
  unfold assessRecoveryRisk.
  rewrite Hwe, Hwh, Hws, Hwst, Hm, Hh, Hc.
  cbn [signal_energy signal_hunger signal_sleep signal_stress].
  assert (H1 : (0 <= (energy1 - energy2) * we)%Q)
    by (apply Qmult_le_0_compat; lra).
  assert (H2 : (0 <= (hunger2 - hunger1) * wh)%Q)
    by (apply Qmult_le_0_compat; lra).
  assert (H3 : (0 <= (sleep1 - sleep2) * ws)%Q)
    by (apply Qmult_le_0_compat; lra).
  assert (H4 : (0 <= (stress2 - stress1) * wst)%Q)
    by (apply Qmult_le_0_compat; lra).
  simpl.
  set (score1 := ((10 + - energy1) * we + hunger1 * wh
                  + (10 + - sleep1) * ws + stress1 * wst)%Q).
  set (score2 := ((10 + - energy2) * we + hunger2 * wh
                  + (10 + - sleep2) * ws + stress2 * wst)%Q).
  assert (Hscore : (score1 <= score2)%Q).
  { unfold score1, score2. lra. }
  clearbody score1 score2.
  repeat (case_cmp; cbn [riskLevel riskRank fst snd]);
    try lia; exfalso; lra.
Qed.

End TrendFacts.
Lemma trend_reads_oldest_and_newest_witness :
  (2 <= List.length threeSignals)%nat
  /\ exists oldest newest,
      In oldest threeSignals /\ In newest threeSignals
      /\ (forall c, In c threeSignals ->
                    notLater oldest c /\ notLater c newest)
      /\ SignalInterpreter.avgWeightChange
           (SignalInterpreter.analyzeTrend sampleSignalRules threeSignals)
         = SignalInterpreter.weight newest - SignalInterpreter.weight oldest
      /\ SignalInterpreter.trend
           (SignalInterpreter.analyzeTrend sampleSignalRules threeSignals)
         = trendOf
             (SignalInterpreter.plateau_maxWeightChange sampleSignalRules)
             (SignalInterpreter.weight newest
              - SignalInterpreter.weight oldest).
Proof.
  split; [simpl; lia|].
  apply (@trend_reads_oldest_and_newest sampleSignalRules threeSignals).
  simpl; lia.
Defined.

(** The three sample check-ins, passed newest first: the change is
    79.5 - 80 = -0.5 kg, beyond the threshold of 0.3 kg. *)
Example trend_of_three_signals :
  SignalInterpreter.avgWeightChange
    (SignalInterpreter.analyzeTrend sampleSignalRules threeSignals)
  = Fin (79.5 + - 80)
  /\ SignalInterpreter.trend
       (SignalInterpreter.analyzeTrend sampleSignalRules threeSignals)
     = ActionSelector.decreasing.
Proof. split; reflexivity. Qed.

Lemma plateau_iff_witness :
  (2 <= List.length threeSignals)%nat
  /\ exists oldest newest,
      In oldest threeSignals /\ In newest threeSignals
      /\ (forall c, In c threeSignals ->
                    notLater oldest c /\ notLater c newest)
      /\ SignalInterpreter.detectPlateau sampleSignalRules threeSignals
         = negb (Array_length threeSignals
                 <? SignalInterpreter.trendWindow sampleSignalRules)
           && (Math_abs (SignalInterpreter.weight newest
                         - SignalInterpreter.weight oldest)
               <=? SignalInterpreter.plateau_maxWeightChange
                     sampleSignalRules)
           && (SignalInterpreter.calculateAdherenceScore sampleSignalRules
                 threeSignals
               >=? SignalInterpreter.plateau_minAdherence sampleSignalRules
                   / 100).
Proof.
  split; [simpl; lia|].
  apply (@plateau_iff sampleSignalRules threeSignals). simpl; lia.
Defined.

Lemma confidence_is_a_fraction_witness :
  finiteConfidenceRules sampleSignalRules
  /\ knownSignals sampleSignalRules threeSignals
  /\ exists q : Q,
      SignalInterpreter.calculateConfidence sampleSignalRules threeSignals
      = Fin q
      /\ (0 <= q <= 1)%Q.
Proof.
  split; [exact finite_sample_rules|].
  split; [exact known_sample_signals|].
  apply (@confidence_is_a_fraction sampleSignalRules threeSignals
           finite_sample_rules known_sample_signals).
Defined.

Lemma risk_grows_with_strain_witness :
  riskRules sampleSignalRules 0.3 0.2 0.3 0.2 3 5 7
  /\ (0 <= 0.3)%Q /\ (0 <= 0.2)%Q /\ (3 <= 5 <= 7)%Q
  /\ (3 <= 6)%Q /\ (5 <= 7)%Q /\ (4 <= 7)%Q /\ (4 <= 8)%Q
  /\ (riskRank
        (SignalInterpreter.riskLevel
           (SignalInterpreter.assessRecoveryRisk sampleSignalRules
              (SignalInterpreter.mkSubjectiveSignals (Fin 6) (Fin 5) (Fin 7)
                 (Fin 4))))
      <= riskRank
           (SignalInterpreter.riskLevel
              (SignalInterpreter.assessRecoveryRisk sampleSignalRules
                 (SignalInterpreter.mkSubjectiveSignals (Fin 3) (Fin 7)
                    (Fin 4) (Fin 8)))))%nat.
Proof.
  assert (Hrules : riskRules sampleSignalRules 0.3 0.2 0.3 0.2 3 5 7)
    by (repeat split).
  split; [exact Hrules|].
  split; [discriminate|]. split; [discriminate|].
  split; [split; discriminate|].
  split; [discriminate|]. split; [discriminate|]. split; [discriminate|].
  split; [discriminate|].
  apply (@risk_grows_with_strain sampleSignalRules 0.3 0.2 0.3 0.2 3 5 7
           6 5 7 4 3 7 4 8 Hrules);
    try discriminate; split; discriminate.
Defined.

(* ================================================================== *)
(** * The plan builder: macros and programs *)
(* ================================================================== *)

Section PlanBuilderFacts.

Import PlanBuilderPlans.

#[local] Arguments Qplus : simpl never.
#[local] Arguments Qmult : simpl never.
#[local] Arguments Qopp : simpl never.
#[local] Arguments Qminus : simpl never.
#[local] Arguments Qdiv : simpl never.
#[local] Arguments Qfloor : simpl never.
#[local] Arguments inject_Z : simpl never.
#[local] Arguments Qle_bool : simpl never.
#[local] Arguments Qeq_bool : simpl never.
#[local] Arguments Qabs : simpl never.




(** X27.  For an experience level that is not the name of a property
    inherited from [Object.prototype], [buildTrainingProgram] returns one
    of three programs together with its own description, and every level
    other than intermediate and advanced gets the beginner program.  For
    a level such as ['constructor'] or ['toString'] the program id is the
    inherited member, not a string, and the description is the default
    'Training program', which is used in no other case. *)
Theorem plan_builder_program (experienceLevel : string)
    (weekNumber : number) :
  let program := buildTrainingProgram experienceLevel weekNumber in
  (inheritedKey experienceLevel = false ->
   exists id text : string,
     programId program = Text id /\ description program = Text text
     /\ In (id, text) builderPrograms
     /\ (id = "beginner_upper_lower"%string
         <-> experienceLevel <> "intermediate"%string
             /\ experienceLevel <> "advanced"%string))
  /\ (inheritedKey experienceLevel = true ->
      programId program = InheritedMember experienceLevel
      /\ description program = Text "Training program").
Proof.
  unfold buildTrainingProgram, lookup_or, lookup, programMap. cbv zeta.
  cbn [find fst snd programId description].
  destruct (String.eqb_spec "beginner" experienceLevel) as [<-|Hb].
  { split; [intros _|discriminate].
    do 2 eexists. split; [reflexivity|]. split; [reflexivity|].
    split; [simpl; auto|]. split; [split; discriminate | reflexivity]. }
  destruct (String.eqb_spec "intermediate" experienceLevel) as [<-|Hi].
  { split; [intros _|discriminate].
    do 2 eexists. split; [reflexivity|]. split; [reflexivity|].
    split; [simpl; auto|].
    split; [discriminate | intros [H _]; now contradiction H]. }
  destruct (String.eqb_spec "advanced" experienceLevel) as [<-|Ha].
  { split; [intros _|discriminate].
    do 2 eexists. split; [reflexivity|]. split; [reflexivity|].
    split; [simpl; auto|].
    split; [discriminate | intros [_ H]; now contradiction H]. }
  destruct (inheritedKey experienceLevel);
    (split; [intros H; try discriminate H | intros H; try discriminate H]).
  - split; reflexivity.
  - do 2 eexists. split; [reflexivity|]. split; [reflexivity|].
    split; [simpl; auto|]. split; [|reflexivity].
    intros _. split; congruence.
Qed.

End PlanBuilderFacts.
